(** * Repo Guardian: the repository analysis pipeline

    A shallow embedding of the analysis core of the backend
    (apps/backend/src): the rule-based risk summarizer (ai-mock.ts), the
    static pattern analyzer (static-analyzer.ts), the dependency analyzer
    (dependency-analyzer.ts), the upload route and its text filter
    (routes/upload.ts) and the orchestrator (analyzer.ts), with the shared
    utilities they call (the package @repo-guardian/shared).

    Conventions of the model.
    - A JavaScript string is a Rocq [string]: a sequence of UTF-16 code
      units, restricted to the code units below 256.  Whitespace, line
      terminators and case mapping are the ECMAScript ones on that range.
    - A checkout is a finite tree of directories and regular text files,
      each directory an ordered list of named entries (the order in which
      [fs.readdir] lists them).
    - A function that can throw returns a [result]; code that also touches
      the temporary directory runs in the state-and-exception monad [M].
      Operations on the service's own temporary directory ([ensureDir],
      [remove]) succeed. *)

From Stdlib Require Import String Ascii List Bool Arith NArith ZArith Lia.
From Stdlib Require Import DecimalString PrimFloat Uint63 Permutation.
Import ListNotations.
Local Open Scope list_scope.
Local Open Scope string_scope.

(* ================================================================= *)
(** ** JavaScript strings *)

Module JsString.

Definition code (c : ascii) : N := N_of_ascii c.

(** [String.prototype.startsWith]. *)
Fixpoint startsWith (s p : string) : bool :=
  match p, s with
  | EmptyString, _ => true
  | String _ _, EmptyString => false
  | String a p', String b s' => Ascii.eqb a b && startsWith s' p'
  end.

(** [String.prototype.includes]: [needle] occurs in [s] as a substring. *)
Fixpoint includes (s needle : string) : bool :=
  startsWith s needle ||
  match s with
  | EmptyString => false
  | String _ s' => includes s' needle
  end.

(** WhiteSpace and LineTerminator code units below 256: TAB, LF, VT, FF,
    CR, SP and NBSP.  This is the set that [trim] strips and that the
    regular expression class [\s] matches. *)
Definition isWhiteSpace (c : ascii) : bool :=
  let n := code c in
  ((9 <=? n) && (n <=? 13) || (n =? 32) || (n =? 160))%N.

Fixpoint trimStart (s : string) : string :=
  match s with
  | EmptyString => EmptyString
  | String c s' => if isWhiteSpace c then trimStart s' else s
  end.

(** [trimEnd s] drops the trailing white space: a character is kept when
    something other than white space follows it or it is not white space. *)
Fixpoint trimEnd (s : string) : string :=
  match s with
  | EmptyString => EmptyString
  | String c s' =>
      match trimEnd s' with
      | EmptyString => if isWhiteSpace c then EmptyString else String c EmptyString
      | r => String c r
      end
  end.

Definition trim (s : string) : string := trimEnd (trimStart s).

Definition LF : ascii := ascii_of_N 10.
Definition CR : ascii := ascii_of_N 13.
Definition TAB : ascii := ascii_of_N 9.
Definition NUL : ascii := ascii_of_N 0.
Definition DQUOTE : ascii := ascii_of_N 34.
(** The one-character string holding a double quote. *)
Definition dq : string := String DQUOTE EmptyString.

(** [s.split('\n')]: always at least one piece. *)
Fixpoint split_lines (s : string) : list string :=
  match s with
  | EmptyString => [EmptyString]
  | String c s' =>
      if Ascii.eqb c LF then EmptyString :: split_lines s'
      else match split_lines s' with
           | h :: r => String c h :: r
           | [] => [String c EmptyString]
           end
  end.

(** [String.prototype.toLowerCase] on code units below 256: A-Z and the
    Latin-1 capitals U+00C0-U+00DE other than the multiplication sign. *)
Definition lowerChar (c : ascii) : ascii :=
  let n := code c in
  if ((65 <=? n) && (n <=? 90) ||
      (192 <=? n) && (n <=? 222) && negb (n =? 215))%N
  then ascii_of_N (n + 32) else c.

Fixpoint toLowerCase (s : string) : string :=
  match s with
  | EmptyString => EmptyString
  | String c s' => String (lowerChar c) (toLowerCase s')
  end.

(** [String(n)] for a non-negative integer. *)
Definition ofNat (n : nat) : string := NilZero.string_of_uint (Nat.to_uint n).

Definition isDigit (c : ascii) : bool := ((48 <=? code c) && (code c <=? 57))%N.
Definition isAlpha (c : ascii) : bool :=
  let n := code c in
  ((65 <=? n) && (n <=? 90) || (97 <=? n) && (n <=? 122))%N.
(** The regular expression class [\w]. *)
Definition isWordChar (c : ascii) : bool :=
  isAlpha c || isDigit c || Ascii.eqb c "_"%char.

(** The longest prefix of [s] whose characters satisfy [p], and the rest. *)
Fixpoint span (p : ascii -> bool) (s : string) : string * string :=
  match s with
  | EmptyString => (EmptyString, EmptyString)
  | String c s' =>
      if p c then let (a, b) := span p s' in (String c a, b)
      else (EmptyString, s)
  end.

Fixpoint forallb (p : ascii -> bool) (s : string) : bool :=
  match s with
  | EmptyString => true
  | String c s' => p c && forallb p s'
  end.

Fixpoint count (p : ascii -> bool) (s : string) : nat :=
  match s with
  | EmptyString => 0
  | String c s' => (if p c then 1 else 0) + count p s'
  end.

End JsString.

(* ================================================================= *)
(** ** Data model (the exported interfaces of the analyzers) *)

(** ['low' | 'medium' | 'high' | 'critical']: the severity of a vulnerable
    dependency and the risk level of a summary. *)
Inductive Level := low | medium | high | critical.

(** ['low' | 'medium' | 'high']: the severity of an outdated dependency. *)
Inductive OutdatedSeverity := o_low | o_medium | o_high.

(** ['error' | 'warning' | 'info']: the severity of a static finding. *)
Inductive FindingSeverity := error | warning | info.

Definition Level_eqb (a b : Level) : bool :=
  match a, b with
  | low, low | medium, medium | high, high | critical, critical => true
  | _, _ => false
  end.

Definition OutdatedSeverity_eqb (a b : OutdatedSeverity) : bool :=
  match a, b with
  | o_low, o_low | o_medium, o_medium | o_high, o_high => true
  | _, _ => false
  end.

Definition FindingSeverity_eqb (a b : FindingSeverity) : bool :=
  match a, b with
  | error, error | warning, warning | info, info => true
  | _, _ => false
  end.

Definition Level_str (l : Level) : string :=
  match l with
  | low => "low" | medium => "medium" | high => "high" | critical => "critical"
  end.

Record OutdatedDependency := {
  o_name : string;
  o_current : string;
  o_latest : string;
  o_severity : OutdatedSeverity
}.

Record VulnerableDependency := {
  v_name : string;
  v_version : string;
  v_vulnerability : string;
  v_severity : Level
}.

Record DependencyAnalysis := {
  total : nat;
  outdated : list OutdatedDependency;
  vulnerable : list VulnerableDependency
}.

Record StaticFinding := {
  file : string;
  line : nat;
  message : string;
  severity : FindingSeverity;
  rule : option string
}.

Record StaticSummary := {
  totalFiles : nat;
  totalErrors : nat;
  totalWarnings : nat
}.

Record StaticAnalysisResult := {
  errors : list StaticFinding;
  summary : StaticSummary
}.

Record AISummary := {
  riskLevel : Level;
  summaryText : string;
  recommendations : list string;
  priorityFixes : list string
}.

(** [Array.prototype.slice(0, n)]. *)
Definition slice0 {A} (n : nat) (l : list A) : list A := firstn n l.

(* ================================================================= *)
(** ** The rule-based summarizer (ai-mock.ts) *)

Module AiMock.
Import JsString.

(** [e.rule?.includes(w)]: an absent rule gives [undefined], which is
    falsy. *)
Definition rule_includes (e : StaticFinding) (w : string) : bool :=
  match rule e with
  | Some r => includes r w
  | None => false
  end.

Definition message_mentions (e : StaticFinding) (w : string) : bool :=
  includes (toLowerCase (message e)) w.

Definition generateSummaryText (dependencies : DependencyAnalysis)
    (staticAnalysis : StaticAnalysisResult) (riskLevel : Level) : string :=
  let totalVulns := length (vulnerable dependencies) in
  let totalOutdated := length (outdated dependencies) in
  let totalErrors := totalErrors (summary staticAnalysis) in
  let totalWarnings := totalWarnings (summary staticAnalysis) in
  let s0 := "This repository has been classified as " ++ Level_str riskLevel ++ " risk. " in
  let s1 :=
    if (0 <? totalVulns)%nat then
      s0 ++ "Found " ++ ofNat totalVulns ++ " vulnerable " ++
      (if (totalVulns =? 1)%nat then "dependency" else "dependencies") ++
      " with known security issues. "
    else s0 in
  let s2 :=
    if (0 <? totalOutdated)%nat then
      s1 ++ ofNat totalOutdated ++ " " ++
      (if (totalOutdated =? 1)%nat then "dependency is" else "dependencies are") ++
      " outdated. "
    else s1 in
  let s3 :=
    if (0 <? totalErrors)%nat then
      let t := s2 ++ "Static analysis detected " ++ ofNat totalErrors ++ " critical " ++
               (if (totalErrors =? 1)%nat then "issue" else "issues") ++ " " in
      if (0 <? totalWarnings)%nat then
        t ++ "and " ++ ofNat totalWarnings ++ " " ++
        (if (totalWarnings =? 1)%nat then "warning" else "warnings") ++ ". "
      else t ++ ". "
    else if (0 <? totalWarnings)%nat then
      s2 ++ "Static analysis found " ++ ofNat totalWarnings ++ " " ++
      (if (totalWarnings =? 1)%nat then "warning" else "warnings") ++ ". "
    else s2 in
  match riskLevel with
  | critical => s3 ++ "Immediate action is required to address critical security vulnerabilities."
  | high => s3 ++ "High priority issues should be addressed as soon as possible."
  | medium => s3 ++ "Several issues should be addressed to improve security and code quality."
  | low => s3 ++ "The repository appears to be in good condition with only minor issues."
  end.

(** [recommendations] is built by successive [push]es; [pushIf c xs r]
    is the list after a guarded block of pushes. *)
Definition pushIf {A} (c : bool) (xs : list A) (r : list A) : list A :=
  if c then List.app r xs else r.

Definition generateRecommendations (dependencies : DependencyAnalysis)
    (staticAnalysis : StaticAnalysisResult) : list string :=
  let r0 : list string := [] in
  let r1 := pushIf (0 <? length (vulnerable dependencies))%nat
    ["Update vulnerable dependencies to secure versions immediately";
     "Set up automated dependency scanning in your CI/CD pipeline"] r0 in
  let r2 := pushIf (0 <? length (outdated dependencies))%nat
    ["Update outdated dependencies to latest stable versions";
     "Consider using dependency management tools like Dependabot or Renovate"] r1 in
  let securityErrors := filter (fun e =>
    rule_includes e "security" || message_mentions e "security")
    (errors staticAnalysis) in
  let r3 := pushIf (0 <? length securityErrors)%nat
    ["Fix security vulnerabilities found in static analysis";
     "Implement input validation and sanitization";
     "Add security linting rules to prevent future issues"] r2 in
  let performanceIssues := filter (fun e =>
    rule_includes e "performance" || message_mentions e "sync")
    (errors staticAnalysis) in
  let r4 := pushIf (0 <? length performanceIssues)%nat
    ["Replace synchronous operations with asynchronous alternatives";
     "Implement proper error handling for async operations"] r3 in
  let r5 := pushIf (5 <? totalWarnings (summary staticAnalysis))%nat
    ["Set up code linting and formatting tools (ESLint, Prettier, etc.)";
     "Establish code review processes to catch issues early"] r4 in
  let r6 := pushIf (length r5 =? 0)%nat
    ["Continue following security best practices";
     "Keep dependencies updated regularly";
     "Maintain good code quality standards"] r5 in
  slice0 6 r6.

Definition generatePriorityFixes (dependencies : DependencyAnalysis)
    (staticAnalysis : StaticAnalysisResult) : list string :=
  let criticalVulns :=
    filter (fun v => Level_eqb (v_severity v) critical) (vulnerable dependencies) in
  let p1 := map (fun vuln =>
    "Update " ++ v_name vuln ++ " to fix: " ++ v_vulnerability vuln) criticalVulns in
  let highVulns :=
    filter (fun v => Level_eqb (v_severity v) high) (vulnerable dependencies) in
  let p2 := List.app p1 (map (fun vuln =>
    "Update " ++ v_name vuln ++ " to fix: " ++ v_vulnerability vuln) highVulns) in
  let criticalErrors := filter (fun e =>
    FindingSeverity_eqb (severity e) error &&
    (rule_includes e "security" || message_mentions e "injection" ||
     message_mentions e "eval")) (errors staticAnalysis) in
  let p3 := List.app p2 (map (fun err =>
    "Fix " ++ toLowerCase (message err) ++ " in " ++ file err ++ ":" ++ ofNat (line err))
    criticalErrors) in
  let highOutdated :=
    filter (fun d => OutdatedSeverity_eqb (o_severity d) o_high) (outdated dependencies) in
  let p4 := List.app p3 (map (fun dep =>
    "Update " ++ o_name dep ++ " from " ++ o_current dep ++ " to " ++ o_latest dep)
    highOutdated) in
  slice0 5 p4.

Definition criticalIssues (dependencies : DependencyAnalysis) : nat :=
  length (filter (fun v => Level_eqb (v_severity v) critical) (vulnerable dependencies)).

Definition highIssues (dependencies : DependencyAnalysis)
    (staticAnalysis : StaticAnalysisResult) : nat :=
  length (filter (fun v => Level_eqb (v_severity v) high) (vulnerable dependencies)) +
  length (filter (fun e => FindingSeverity_eqb (severity e) error) (errors staticAnalysis)).

Definition mediumIssues (dependencies : DependencyAnalysis)
    (staticAnalysis : StaticAnalysisResult) : nat :=
  length (filter (fun d => OutdatedSeverity_eqb (o_severity d) o_medium) (outdated dependencies)) +
  length (filter (fun e => FindingSeverity_eqb (severity e) warning) (errors staticAnalysis)).

Definition generateMockSummary (dependencies : DependencyAnalysis)
    (staticAnalysis : StaticAnalysisResult) : AISummary :=
  let criticalIssues := criticalIssues dependencies in
  let highIssues := highIssues dependencies staticAnalysis in
  let mediumIssues := mediumIssues dependencies staticAnalysis in
  let riskLevel :=
    if (0 <? criticalIssues)%nat then critical
    else if (2 <? highIssues)%nat then high
    else if ((0 <? highIssues) || (3 <? mediumIssues))%nat then medium
    else low in
  {| riskLevel := riskLevel;
     summaryText := generateSummaryText dependencies staticAnalysis riskLevel;
     recommendations := generateRecommendations dependencies staticAnalysis;
     priorityFixes := generatePriorityFixes dependencies staticAnalysis |}.

End AiMock.

(* ================================================================= *)
(** ** The checkout on disk *)

(** A directory lists its entries in [fs.readdir] order. *)
#[warnings="-register-all"]
Inductive Node :=
| File (content : string)
| Dir (entries : list (string * Node)).

Definition Tree := list (string * Node).

Module Path.
Import JsString.

(** The suffix of [s] that starts at its last ["."], if there is one. *)
Fixpoint lastDotSuffix (s : string) : option string :=
  match s with
  | EmptyString => None
  | String c t =>
      match lastDotSuffix t with
      | Some e => Some e
      | None => if Ascii.eqb c "."%char then Some s else None
      end
  end.

(** The last portion of a path: what follows its last ["/"].  The paths
    of this development never end in a separator. *)
Fixpoint basename (p : string) : string :=
  match p with
  | EmptyString => EmptyString
  | String c t =>
      if includes t "/" then basename t
      else if Ascii.eqb c "/"%char then t else p
  end.

(** [path.extname]: from the last ["."] of the last portion to its end;
    empty when that portion has no ["."], when its only ["."] is its
    first character, and for [".."]. *)
Definition extname (p : string) : string :=
  let name := basename p in
  match name with
  | EmptyString => EmptyString
  | String _ rest =>
      match lastDotSuffix rest with
      | Some e => if String.eqb name ".." then EmptyString else e
      | None => EmptyString
      end
  end.

(** [path.join(dir, item)] relative to the checkout root ([""]). *)
Definition join (dir item : string) : string :=
  if String.eqb dir "" then item else dir ++ "/" ++ item.

End Path.

(** [arr.includes(x)] on an array of strings. *)
Definition includesStr (l : list string) (x : string) : bool :=
  existsb (String.eqb x) l.

(* ================================================================= *)
(** ** The static pattern analyzer (static-analyzer.ts) *)

Module StaticAnalyzer.
Import JsString.

Definition skippedDirs : list string :=
  ["node_modules"; ".git"; "dist"; "build"; "__pycache__"].

(** [findFiles]: the files below [node] whose lower-cased extension is in
    [extensions], with their contents, in traversal order.  Paths are
    kept relative to the checkout root, which is what [path.relative]
    gives the caller. *)
Fixpoint traverse (extensions : list string) (currentPath : string)
    (node : Node) {struct node} : list (string * string) :=
  match node with
  | File _ => []
  | Dir items =>
      (fix each (items : list (string * Node)) : list (string * string) :=
         match items with
         | [] => []
         | (item, n) :: rest =>
             let fullPath := Path.join currentPath item in
             List.app
               match n with
               | Dir _ =>
                   if includesStr skippedDirs item then []
                   else traverse extensions fullPath n
               | File content =>
                   if includesStr extensions (toLowerCase (Path.extname fullPath))
                   then [(fullPath, content)] else []
               end
               (each rest)
         end) items
  end.

Definition findFiles (repo : Tree) (extensions : list string)
  : list (string * string) :=
  traverse extensions "" (Dir repo).

Definition finding (f : string) (l : nat) (m : string) (s : FindingSeverity)
    (r : string) : StaticFinding :=
  {| file := f; line := l; message := m; severity := s; rule := Some r |}.

(** One [push] guarded by a condition. *)
Definition emit (c : bool) (f : StaticFinding) : list StaticFinding :=
  if c then [f] else [].

Definition stripPrefix (p s : string) : option string :=
  if startsWith s p then Some (substring (String.length p) (String.length s - String.length p) s)
  else None.

(** The regular expression [(?:var|let|const)\s+(\w+)] tried at the start
    of [s]: a keyword, the white space after it (at least one character),
    then the word characters after that (at least one), which are the
    captured group. *)
Definition varMatchHere (s : string) : option string :=
  let after kw :=
    match stripPrefix kw s with
    | None => None
    | Some rest =>
        let (ws, r) := span isWhiteSpace rest in
        let (w, _) := span isWordChar r in
        if String.eqb ws "" || String.eqb w "" then None else Some w
    end in
  match after "var" with
  | Some w => Some w
  | None => match after "let" with
            | Some w => Some w
            | None => after "const"
            end
  end.

(** [s.match(/(?:var|let|const)\s+(\w+)/)]: the leftmost match; the
    result is capture group 1. *)
Fixpoint varMatch (s : string) : option string :=
  match varMatchHere s with
  | Some w => Some w
  | None => match s with
            | EmptyString => None
            | String _ t => varMatch t
            end
  end.

(** The body of [lines.forEach((line, index) => ...)] of
    [analyzeJavaScript]: the findings pushed for one line. *)
Definition checkJavaScriptLine (relativePath content : string)
    (index : nat) (line : string) : list StaticFinding :=
  let lineNumber := index + 1 in
  let trimmedLine := trim line in
  let has := includes trimmedLine in
  List.concat [
    emit (has "query" && has "+" && has "SELECT")
      (finding relativePath lineNumber "Potential SQL injection vulnerability"
         error "security/detect-sql-injection");
    emit (has "password" && (has "=" || has ":") &&
          (has dq || has "'"))
      (finding relativePath lineNumber "Hardcoded credentials detected"
         error "security/detect-hardcoded-credentials");
    emit (has "eval(")
      (finding relativePath lineNumber "Use of eval() is dangerous and should be avoided"
         error "security/detect-eval-with-expression");
    emit (has "Sync(" && negb (has "//"))
      (finding relativePath lineNumber
         "Synchronous function in async context may block event loop"
         warning "performance/no-sync-in-async");
    emit (has "console.log(" && negb (has "//"))
      (finding relativePath lineNumber "Console.log should be removed in production code"
         warning "no-console");
    emit (has "JSON.parse(" && negb (includes content "try") &&
          negb (includes content "catch"))
      (finding relativePath lineNumber "JSON.parse should be wrapped in try-catch"
         warning "error-handling/json-parse");
    match varMatch trimmedLine with
    | Some v =>
        emit (negb (includes content (v ++ ".")) && negb (includes content (v ++ "(")))
          (finding relativePath lineNumber
             ("Variable '" ++ v ++ "' is declared but never used")
             warning "no-unused-vars")
    | None => []
    end ].

(** [lines.forEach] with the index of each line. *)
Fixpoint forEachIndexed {A B} (f : nat -> A -> list B) (index : nat)
    (l : list A) : list B :=
  match l with
  | [] => []
  | x :: r => List.app (f index x) (forEachIndexed f (S index) r)
  end.

Definition scanJavaScriptFile (relativePath content : string) : list StaticFinding :=
  forEachIndexed (checkJavaScriptLine relativePath content) 0 (split_lines content).

Definition countSeverity (s : FindingSeverity) (errors : list StaticFinding) : nat :=
  length (filter (fun e => FindingSeverity_eqb (severity e) s) errors).

Definition analyzeJavaScript (repo : Tree) : StaticAnalysisResult :=
  let jsFiles := findFiles repo [".js"; ".jsx"; ".ts"; ".tsx"] in
  let errors := flat_map (fun f => scanJavaScriptFile (fst f) (snd f)) jsFiles in
  {| errors := errors;
     summary := {| totalFiles := length jsFiles;
                   totalErrors := countSeverity error errors;
                   totalWarnings := countSeverity warning errors |} |}.

(** The body of [lines.forEach] of [analyzePython].  [lines[index + 1]]
    is [undefined] after the last line, and the optional chain then
    yields [undefined], whose negation is [true]. *)
Definition checkPythonLine (relativePath : string) (lines : list string)
    (index : nat) (line : string) : list StaticFinding :=
  let lineNumber := index + 1 in
  let trimmedLine := trim line in
  let has := includes trimmedLine in
  List.concat [
    emit (has "execute(" && has "%" && has "SELECT")
      (finding relativePath lineNumber "Potential SQL injection vulnerability"
         error "security/sql-injection");
    emit (has "eval(" || has "exec(")
      (finding relativePath lineNumber "Use of eval() or exec() is dangerous"
         error "security/eval-exec");
    emit ((has "password" || has "secret") &&
          (has "=" && (has dq || has "'")))
      (finding relativePath lineNumber "Hardcoded secret detected"
         error "security/hardcoded-secret");
    emit (String.eqb trimmedLine "except:")
      (finding relativePath lineNumber "Bare except clause should specify exception type"
         warning "bare-except");
    emit (100 <? String.length line)%nat
      (finding relativePath lineNumber "Line too long (>100 characters)"
         warning "line-too-long");
    emit (startsWith trimmedLine "def " &&
          negb match nth_error lines (index + 1) with
               | Some next => startsWith (trim next) (dq ++ dq ++ dq)
               | None => false
               end)
      (finding relativePath lineNumber "Function missing docstring"
         info "missing-docstring") ].

Definition scanPythonFile (relativePath content : string) : list StaticFinding :=
  let lines := split_lines content in
  forEachIndexed (checkPythonLine relativePath lines) 0 lines.

Definition analyzePython (repo : Tree) : StaticAnalysisResult :=
  let pyFiles := findFiles repo [".py"] in
  let errors := flat_map (fun f => scanPythonFile (fst f) (snd f)) pyFiles in
  {| errors := errors;
     summary := {| totalFiles := length pyFiles;
                   totalErrors := countSeverity error errors;
                   totalWarnings := countSeverity warning errors |} |}.

Definition runStaticAnalysis (repo : Tree) (language : string) : StaticAnalysisResult :=
  if String.eqb language "javascript" then analyzeJavaScript repo
  else if String.eqb language "python" then analyzePython repo
  else {| errors := [];
          summary := {| totalFiles := 0; totalErrors := 0; totalWarnings := 0 |} |}.

End StaticAnalyzer.

(* ================================================================= *)
(** ** The upload text filter (routes/upload.ts) *)

Module Upload.
Import JsString.

(** A length as a JavaScript number (exact below 2^53). *)
Definition toNumber (n : nat) : float :=
  PrimFloat.of_uint63 (Uint63.of_Z (Z.of_nat n)).

(** The characters that [content.replace(/[\r\n\t]/g, '')] keeps. *)
Definition kept (c : ascii) : bool :=
  negb (Ascii.eqb c CR || Ascii.eqb c LF || Ascii.eqb c TAB).

#[warnings="-inexact-float"]
Definition isTextContent (content : string) : bool :=
  if includes content (String NUL EmptyString) then false
  else
    let printableChars := toNumber (count kept content) in
    let totalChars := toNumber (String.length content) in
    let printableRatio := PrimFloat.div printableChars totalChars in
    PrimFloat.ltb 0.7%float printableRatio.

End Upload.

(* ================================================================= *)
(** ** Exceptions *)

Inductive Exn :=
| SyntaxError      (* JSON.parse on text that is not JSON *)
| TypeError        (* a member of null, a call of a non-function, an invalid version *)
| FsError          (* reading a directory as a file *)
| GitError.        (* the clone failed *)

Inductive result (A : Type) :=
| Ok (a : A)
| Throw (e : Exn).
Arguments Ok {A} a.
Arguments Throw {A} e.

Definition bindR {A B} (r : result A) (k : A -> result B) : result B :=
  match r with
  | Ok a => k a
  | Throw e => Throw e
  end.

Declare Scope result_scope.
Delimit Scope result_scope with result.
Notation "'try!' x <- r ; k" := (bindR r (fun x => k))
  (at level 10, x name, r at level 100, k at level 200)
  : result_scope.

(* ================================================================= *)
(** ** The semver package, as far as the analyzer calls it

    Strict (non-loose) versions: [v?MAJOR.MINOR.PATCH(-PRERELEASE)?(+BUILD)?]
    after trimming, at most 256 characters, numeric parts without leading
    zeros and at most [Number.MAX_SAFE_INTEGER]. *)

Module Semver.
Import JsString.
Local Open Scope N_scope.

Inductive Identifier :=
| INum (n : N)
| IStr (s : string).

Record SemVer := {
  major : N;
  minor : N;
  patch : N;
  prerelease : list Identifier;
  build : list string
}.

Definition MAX_LENGTH : nat := 256.
Definition MAX_SAFE_INTEGER : N := 9007199254740991.

(** The value of a string of decimal digits. *)
Fixpoint digitsValue (acc : N) (s : string) : N :=
  match s with
  | EmptyString => acc
  | String c t => digitsValue (10 * acc + (code c - 48)) t
  end.

Definition allDigits (s : string) : bool :=
  negb (String.eqb s "") && forallb isDigit s.

(** [0|[1-9]\d*]. *)
Definition isNumericIdentifier (s : string) : bool :=
  allDigits s && (String.eqb s "0" || negb (startsWith s "0")).

Definition isIdentChar (c : ascii) : bool :=
  isDigit c || isAlpha c || Ascii.eqb c "-"%char.

(** [[0-9A-Za-z-]+]. *)
Definition isBuildIdentifier (s : string) : bool :=
  negb (String.eqb s "") && forallb isIdentChar s.

(** [0|[1-9]\d*|\d*[a-zA-Z-][a-zA-Z0-9-]*]. *)
Definition isPrereleaseIdentifier (s : string) : bool :=
  isBuildIdentifier s && (negb (allDigits s) || isNumericIdentifier s).

(** [s.split(sep)] for a one-character separator. *)
Fixpoint splitOn (sep : ascii) (s : string) : list string :=
  match s with
  | EmptyString => [EmptyString]
  | String c t =>
      if Ascii.eqb c sep then EmptyString :: splitOn sep t
      else match splitOn sep t with
           | h :: r => String c h :: r
           | [] => [String c EmptyString]
           end
  end.

(** [s] cut at the first [sep]: what precedes it and, when [sep] occurs,
    what follows it. *)
Fixpoint cutAt (sep : ascii) (s : string) : string * option string :=
  match s with
  | EmptyString => (EmptyString, None)
  | String c t =>
      if Ascii.eqb c sep then (EmptyString, Some t)
      else let (a, b) := cutAt sep t in (String c a, b)
  end.

(** A prerelease identifier made of digits counts as a number.  (The
    package keeps one of at least 2^53 as a string and compares such
    identifiers through their roundings; here they are compared by
    value.) *)
Definition toIdentifier (id : string) : Identifier :=
  if allDigits id then INum (digitsValue 0 id) else IStr id.

(** [new SemVer(version)]. *)
Definition parse (version : string) : result SemVer :=
  if (MAX_LENGTH <? String.length version)%nat then Throw TypeError
  else
    let t := trim version in
    let t := match t with
             | String "v"%char r => r
             | _ => t
             end in
    let (mainpre, b) := cutAt "+"%char t in
    let (main, p) := cutAt "-"%char mainpre in
    let buildIds := match b with
                    | Some bs => splitOn "."%char bs
                    | None => []
                    end in
    let preIds := match p with
                  | Some ps => splitOn "."%char ps
                  | None => []
                  end in
    match splitOn "."%char main with
    | [ma; mi; pa] =>
        if List.forallb isNumericIdentifier [ma; mi; pa] &&
           List.forallb isPrereleaseIdentifier preIds &&
           List.forallb isBuildIdentifier buildIds
        then
          let ma := digitsValue 0 ma in
          let mi := digitsValue 0 mi in
          let pa := digitsValue 0 pa in
          if (MAX_SAFE_INTEGER <? ma) || (MAX_SAFE_INTEGER <? mi) ||
             (MAX_SAFE_INTEGER <? pa)
          then Throw TypeError
          else Ok {| major := ma; minor := mi; patch := pa;
                     prerelease := map toIdentifier preIds;
                     build := buildIds |}
        else Throw TypeError
    | _ => Throw TypeError
    end.

(** JavaScript [a < b] on strings: code units, lexicographically. *)
Fixpoint strLt (a b : string) : bool :=
  match a, b with
  | _, EmptyString => false
  | EmptyString, String _ _ => true
  | String x a', String y b' =>
      if code x <? code y then true
      else if code y <? code x then false
      else strLt a' b'
  end.

(** [compareIdentifiers]: numbers below strings, numbers by value,
    strings by code units. *)
Definition compareIdentifiers (a b : Identifier) : comparison :=
  match a, b with
  | INum x, INum y => x ?= y
  | INum _, IStr _ => Lt
  | IStr _, INum _ => Gt
  | IStr x, IStr y => if String.eqb x y then Eq else if strLt x y then Lt else Gt
  end.

Definition compareMain (a b : SemVer) : comparison :=
  match major a ?= major b with
  | Eq => match minor a ?= minor b with
          | Eq => patch a ?= patch b
          | c => c
          end
  | c => c
  end.

(** The loop of [comparePre] over both identifier lists. *)
Fixpoint compareIds (a b : list Identifier) : comparison :=
  match a, b with
  | [], [] => Eq
  | _ :: _, [] => Gt
  | [], _ :: _ => Lt
  | x :: a', y :: b' =>
      match compareIdentifiers x y with
      | Eq => compareIds a' b'
      | c => c
      end
  end.

Definition comparePre (a b : SemVer) : comparison :=
  match prerelease a, prerelease b with
  | _ :: _, [] => Lt
  | [], _ :: _ => Gt
  | [], [] => Eq
  | pa, pb => compareIds pa pb
  end.

Definition compare (a b : SemVer) : comparison :=
  match compareMain a b with
  | Eq => comparePre a b
  | c => c
  end.

(** [semver.lt(a, b)]: both versions are parsed, [a] first. *)
Definition lt (a b : string) : result bool :=
  (try! va <- parse a;
   try! vb <- parse b;
   Ok match compare va vb with Lt => true | _ => false end)%result.

(** [semver.major(a)] and [semver.minor(a)]. *)
Definition majorOf (a : string) : result N :=
  (try! va <- parse a; Ok (major va))%result.
Definition minorOf (a : string) : result N :=
  (try! va <- parse a; Ok (minor va))%result.

End Semver.

(* ================================================================= *)
(** ** JSON values and plain objects *)

(** What [JSON.parse] returns.  The properties of an object are listed in
    property order. *)
#[warnings="-register-all"]
Inductive json :=
| JNull
| JBool (b : bool)
| JNum (d : float)
| JStr (s : string)
| JArr (items : list json)
| JObj (props : list (string * json)).

Module JsObject.
Import JsString.

Definition Obj := list (string * json).

Fixpoint lookup {A} (k : string) (o : list (string * A)) : option A :=
  match o with
  | [] => None
  | (k', v) :: r => if String.eqb k k' then Some v else lookup k r
  end.

(** An array index: the canonical decimal form of an integer below
    2^32 - 1.  Such keys come first in property order, by value. *)
Definition arrayIndex (k : string) : option N :=
  if Semver.isNumericIdentifier k && (Semver.digitsValue 0 k <? 4294967295)%N
  then Some (Semver.digitsValue 0 k) else None.

(** [Object.keys(o)]. *)
Definition keys (o : Obj) : list string := map fst o.

Fixpoint replaceValue (k : string) (v : json) (o : Obj) : Obj :=
  match o with
  | [] => []
  | (k', v') :: r =>
      if String.eqb k k' then (k', v) :: r else (k', v') :: replaceValue k v r
  end.

Fixpoint insertIndex (i : N) (k : string) (v : json) (o : Obj) : Obj :=
  match o with
  | [] => [(k, v)]
  | (k', v') :: r =>
      match arrayIndex k' with
      | Some j => if (j <? i)%N then (k', v') :: insertIndex i k v r
                  else (k, v) :: o
      | None => (k, v) :: o
      end
  end.

(** Defining the data property [k] of a plain object: an existing key
    keeps its place, a new array index goes among the indices and any
    other new key goes last. *)
Definition define (o : Obj) (kv : string * json) : Obj :=
  let (k, v) := kv in
  match lookup k o with
  | Some _ => replaceValue k v o
  | None =>
      match arrayIndex k with
      | Some i => insertIndex i k v o
      | None => List.app o [(k, v)]
      end
  end.

Fixpoint indexed {A} (f : A -> json) (i : nat) (l : list A) : Obj :=
  match l with
  | [] => []
  | x :: r => (ofNat i, f x) :: indexed f (S i) r
  end.

(** The own enumerable properties that a spread [...v] copies;
    [None] is [undefined]. *)
Definition ownEntries (v : option json) : Obj :=
  match v with
  | Some (JObj props) => props
  | Some (JArr items) => indexed (fun x => x) 0 items
  | Some (JStr s) =>
      indexed (fun c => JStr (String c EmptyString)) 0 (list_ascii_of_string s)
  | _ => []
  end.

(** The object literal [{...a, ...b}]. *)
Definition spread2 (a b : option json) : Obj :=
  fold_left define (ownEntries b) (fold_left define (ownEntries a) []).

(** [v.k] for a key that no built-in prototype defines: a member of
    [null] throws, a value without the property gives [undefined]. *)
Definition getProp (v : json) (k : string) : result (option json) :=
  match v with
  | JNull => Throw TypeError
  | JObj props => Ok (lookup k props)
  | _ => Ok None
  end.

(** The names that every object literal inherits from [Object.prototype];
    [table[name]] is a truthy non-string for each of them. *)
Definition objectPrototypeMembers : list string :=
  ["constructor"; "__defineGetter__"; "__defineSetter__"; "hasOwnProperty";
   "__lookupGetter__"; "__lookupSetter__"; "isPrototypeOf";
   "propertyIsEnumerable"; "toString"; "valueOf"; "__proto__";
   "toLocaleString"].

End JsObject.

(* ================================================================= *)
(** ** The dependency analyzer (dependency-analyzer.ts) *)

Module DependencyAnalyzer.
Import JsString.

Definition zeroValue : DependencyAnalysis :=
  {| total := 0; outdated := []; vulnerable := [] |}.

Module JavaScript.

Definition mockLatestVersions : list (string * string) :=
  [("express", "4.18.2"); ("lodash", "4.17.21"); ("axios", "1.5.0");
   ("react", "18.2.0"); ("vue", "3.3.4"); ("bcrypt", "5.1.0")].

Definition mockVulnerabilities : list (string * (string * Level)) :=
  [("lodash", ("Prototype Pollution (CVE-2019-10744)", high));
   ("express", ("Open Redirect (CVE-2022-24999)", medium));
   ("bcrypt", ("Timing Attack Vulnerability", medium))].

(** [version.replace(/[\^~]/, '')]: the first caret or tilde goes. *)
Fixpoint stripRange (version : string) : string :=
  match version with
  | EmptyString => EmptyString
  | String c t =>
      if Ascii.eqb c "^"%char || Ascii.eqb c "~"%char then t
      else String c (stripRange t)
  end.

Definition outdatedSeverity (currentVersion latestVersion : string)
  : result OutdatedSeverity :=
  (try! a <- Semver.majorOf currentVersion;
   try! b <- Semver.majorOf latestVersion;
   if (a <? b)%N then Ok o_high
   else
     try! c <- Semver.minorOf currentVersion;
     try! d <- Semver.minorOf latestVersion;
     Ok (if (c <? d)%N then o_medium else o_low))%result.

(** One turn of the loop over [Object.entries(dependencies)]: the
    records pushed for one dependency.  A declared version that is not
    a string has no [replace]; a name inherited from [Object.prototype]
    makes [mockLatestVersions[name]] a non-string, which [semver.lt]
    rejects. *)
Definition checkDependency (name : string) (version : json)
  : result (list OutdatedDependency * list VulnerableDependency) :=
  match version with
  | JStr version =>
      let currentVersion := stripRange version in
      if includesStr JsObject.objectPrototypeMembers name then Throw TypeError
      else
        (try! out <-
           match JsObject.lookup name mockLatestVersions with
           | Some latestVersion =>
               try! older <- Semver.lt currentVersion latestVersion;
               if older then
                 try! severity <- outdatedSeverity currentVersion latestVersion;
                 Ok [{| o_name := name; o_current := currentVersion;
                        o_latest := latestVersion; o_severity := severity |}]
               else Ok []
           | None => Ok []
           end;
         Ok (out,
             match JsObject.lookup name mockVulnerabilities with
             | Some (vulnerability, severity) =>
                 [{| v_name := name; v_version := currentVersion;
                     v_vulnerability := vulnerability; v_severity := severity |}]
             | None => []
             end))%result
  | _ => Throw TypeError
  end.

Fixpoint checkAll (entries : JsObject.Obj)
  : result (list OutdatedDependency * list VulnerableDependency) :=
  match entries with
  | [] => Ok ([], [])
  | (name, version) :: rest =>
      (try! one <- checkDependency name version;
       try! more <- checkAll rest;
       Ok (List.app (fst one) (fst more), List.app (snd one) (snd more)))%result
  end.

(** The analysis of a parsed package.json. *)
Definition analyzeManifest (packageJson : json) : result DependencyAnalysis :=
  (try! deps <- JsObject.getProp packageJson "dependencies";
   try! devDeps <- JsObject.getProp packageJson "devDependencies";
   let dependencies := JsObject.spread2 deps devDeps in
   let total := length (JsObject.keys dependencies) in
   try! found <- checkAll dependencies;
   Ok {| total := total; outdated := fst found; vulnerable := snd found |})%result.

End JavaScript.

Section WithJSON.
(** [JSON.parse], the platform's parser. *)
Variable JSON_parse : string -> result json.

(** [fs.readJson(path)] on an entry that exists. *)
Definition readJson (n : Node) : result json :=
  match n with
  | File text => JSON_parse text
  | Dir _ => Throw FsError
  end.

Definition analyzeJavaScriptDependencies (repo : Tree) : result DependencyAnalysis :=
  match JsObject.lookup "package.json" repo with
  | None => Ok zeroValue
  | Some n =>
      (try! packageJson <- readJson n;
       JavaScript.analyzeManifest packageJson)%result
  end.
End WithJSON.

Module Python.

Definition mockLatestVersions : list (string * string) :=
  [("django", "4.2.5"); ("flask", "2.3.3"); ("requests", "2.31.0");
   ("numpy", "1.24.3"); ("pandas", "2.0.3")].

Definition mockVulnerabilities : list (string * (string * Level)) :=
  [("django", ("SQL Injection (CVE-2023-36053)", high));
   ("requests", ("Certificate Verification Bypass", medium))].

Definition isNameChar (c : ascii) : bool :=
  isAlpha c || isDigit c || Ascii.eqb c "-"%char || Ascii.eqb c "_"%char.

Definition isOperatorChar (c : ascii) : bool :=
  existsb (Ascii.eqb c) [">"; "="; "<"; "~"; "!"]%char.

(** The characters that [.] does not match. *)
Definition isLineTerminator (c : ascii) : bool :=
  Ascii.eqb c LF || Ascii.eqb c CR.

(** [line.match(/^([a-zA-Z0-9\-_]+)([>=<~!]+)?(.+)?$/)]: groups 1 to 3.
    The name is the longest run of name characters at the start; the
    rest of the line must be free of line terminators, and splits into
    the longest run of operator characters and whatever follows.  An
    empty group is [undefined]. *)
Definition matchRequirement (line : string)
  : option (string * option string * option string) :=
  let (name, rest) := span isNameChar line in
  if String.eqb name "" then None
  else if negb (forallb (fun c => negb (isLineTerminator c)) rest) then None
  else
    let (operator, version) := span isOperatorChar rest in
    let group s := if String.eqb s "" then None else Some s in
    Some (name, group operator, group version).

(** One turn of the loop over the kept lines.  The tables are read on
    their own keys; a package named like a member of [Object.prototype]
    is outside this model. *)
Definition checkLine (line : string)
  : list OutdatedDependency * list VulnerableDependency :=
  match matchRequirement line with
  | None => ([], [])
  | Some (name, _, version) =>
      let currentVersion := match version with
                            | Some v => v
                            | None => "0.0.0"
                            end in
      (match JsObject.lookup name mockLatestVersions with
       | Some latestVersion =>
           if negb (String.eqb currentVersion latestVersion)
           then [{| o_name := name; o_current := currentVersion;
                    o_latest := latestVersion; o_severity := o_medium |}]
           else []
       | None => []
       end,
       match JsObject.lookup name mockVulnerabilities with
       | Some (vulnerability, severity) =>
           [{| v_name := name; v_version := currentVersion;
               v_vulnerability := vulnerability; v_severity := severity |}]
       | None => []
       end)
  end.

(** The lines that survive
    [filter(line => line.trim() && !line.startsWith('#'))]. *)
Definition keptLines (requirementsContent : string) : list string :=
  filter (fun line => negb (String.eqb (trim line) "") &&
                      negb (startsWith line "#"))
         (split_lines requirementsContent).

(** The analysis of the text of requirements.txt. *)
Definition analyzeRequirements (requirementsContent : string) : DependencyAnalysis :=
  let lines := keptLines requirementsContent in
  {| total := length lines;
     outdated := flat_map (fun l => fst (checkLine l)) lines;
     vulnerable := flat_map (fun l => snd (checkLine l)) lines |}.

End Python.

Definition analyzePythonDependencies (repo : Tree) : result DependencyAnalysis :=
  match JsObject.lookup "requirements.txt" repo with
  | None => Ok zeroValue
  | Some (File requirementsContent) => Ok (Python.analyzeRequirements requirementsContent)
  | Some (Dir _) => Throw FsError
  end.

Definition analyzeDependencies (JSON_parse : string -> result json)
    (repo : Tree) (language : string) : result DependencyAnalysis :=
  if String.eqb language "javascript" then analyzeJavaScriptDependencies JSON_parse repo
  else if String.eqb language "python" then analyzePythonDependencies repo
  else Ok zeroValue.

End DependencyAnalyzer.

(* ================================================================= *)
(** ** The summarizer's entry point (ai-mock.ts) *)

(** [generateAISummary] is declared to return an [AISummary]; on the model
    path it returns the fields of the parsed reply as they are. *)
Inductive AISummaryValue :=
| Summary (s : AISummary)
| ModelReply (riskLevel summary : json) (recommendations priorityFixes : list json).

Module AiService.
Import JsString.

(** JavaScript truthiness; [None] is [undefined]. *)
Definition truthy (v : option json) : bool :=
  match v with
  | None | Some JNull => false
  | Some (JBool b) => b
  | Some (JNum d) => negb (PrimFloat.eqb d 0%float) && negb (PrimFloat.is_nan d)
  | Some (JStr s) => negb (String.eqb s "")
  | Some (JArr _) | Some (JObj _) => true
  end.

Fixpoint fromFirst (c : ascii) (s : string) : option string :=
  match s with
  | EmptyString => None
  | String x t => if Ascii.eqb x c then Some s else fromFirst c t
  end.

Fixpoint uptoLast (c : ascii) (s : string) : option string :=
  match s with
  | EmptyString => None
  | String x t =>
      match uptoLast c t with
      | Some r => Some (String x r)
      | None => if Ascii.eqb x c then Some (String x EmptyString) else None
      end
  end.

(** [aiResponse.match(/\{[\s\S]*\}/)]: from the first opening brace to
    the last closing brace after it. *)
Definition jsonMatch (aiResponse : string) : option string :=
  match fromFirst "{"%char aiResponse with
  | Some s => uptoLast "}"%char s
  | None => None
  end.

(** [Array.isArray(v) ? v.slice(0, n) : []]. *)
Definition arrayPrefix (n : nat) (v : option json) : list json :=
  match v with
  | Some (JArr items) => slice0 n items
  | _ => []
  end.

Section WithCollaborators.
Variable JSON_parse : string -> result json.
(** [process.env.OPENROUTER_API_KEY]. *)
Variable OPENROUTER_API_KEY : option string.
(** The reply of the model to the prompt built from the two analyses
    ([callGeminiAPI(createAnalysisPrompt(dependencies, staticAnalysis))]);
    it throws on a network or protocol failure. *)
Variable callGeminiAPI : DependencyAnalysis -> StaticAnalysisResult -> result string.

Definition parseAIResponse (aiResponse : string) (dependencies : DependencyAnalysis)
    (staticAnalysis : StaticAnalysisResult) : AISummaryValue :=
  let fallback := Summary (AiMock.generateMockSummary dependencies staticAnalysis) in
  match jsonMatch aiResponse with
  | None => fallback
  | Some text =>
      let attempt :=
        (try! parsed <- JSON_parse text;
         try! riskLevel <- JsObject.getProp parsed "riskLevel";
         try! summary <- JsObject.getProp parsed "summary";
         try! recommendations <- JsObject.getProp parsed "recommendations";
         try! priorityFixes <- JsObject.getProp parsed "priorityFixes";
         Ok match riskLevel, summary with
            | Some r, Some s =>
                if truthy riskLevel && truthy summary &&
                   truthy recommendations && truthy priorityFixes
                then ModelReply r s (arrayPrefix 6 recommendations)
                                    (arrayPrefix 5 priorityFixes)
                else fallback
            | _, _ => fallback
            end)%result in
      match attempt with
      | Ok v => v
      | Throw _ => fallback
      end
  end.

Definition generateAISummary (dependencies : DependencyAnalysis)
    (staticAnalysis : StaticAnalysisResult) : AISummaryValue :=
  match OPENROUTER_API_KEY with
  | None | Some EmptyString =>
      Summary (AiMock.generateMockSummary dependencies staticAnalysis)
  | Some _ =>
      match callGeminiAPI dependencies staticAnalysis with
      | Ok aiResponse => parseAIResponse aiResponse dependencies staticAnalysis
      | Throw _ => Summary (AiMock.generateMockSummary dependencies staticAnalysis)
      end
  end.
End WithCollaborators.

End AiService.

(* ================================================================= *)
(** ** The orchestrator (analyzer.ts) *)

Record RepositoryInfo := {
  repo_name : string;
  repo_url : string;
  repo_language : string
}.

Record AnalysisResult := {
  repository : RepositoryInfo;
  dependencies : DependencyAnalysis;
  staticAnalysis : StaticAnalysisResult;
  aiSummary : AISummaryValue
}.

Module Analyzer.
Import JsString.

(** *** Language detection *)

(** [getAllFiles]: the paths of the regular files, descending into every
    directory whose name neither starts with a dot nor is node_modules. *)
Fixpoint traverse (currentPath : string) (node : Node) {struct node} : list string :=
  match node with
  | File _ => []
  | Dir items =>
      (fix each (items : list (string * Node)) : list string :=
         match items with
         | [] => []
         | (item, n) :: rest =>
             let fullPath := Path.join currentPath item in
             List.app
               match n with
               | Dir _ =>
                   if negb (startsWith item ".") &&
                      negb (String.eqb item "node_modules")
                   then traverse fullPath n else []
               | File _ => [fullPath]
               end
               (each rest)
         end) items
  end.

Definition getAllFiles (repo : Tree) : list string := traverse "" (Dir repo).

Definition someExt (extensions known : list string) : bool :=
  existsb (fun ext => includesStr known ext) extensions.

Definition detectLanguage (repo : Tree) : string :=
  let files := map fst repo in
  if includesStr files "package.json" then "javascript"
  else if includesStr files "requirements.txt" || includesStr files "setup.py" then "python"
  else if includesStr files "Cargo.toml" then "rust"
  else if includesStr files "go.mod" then "go"
  else if includesStr files "pom.xml" || includesStr files "build.gradle" then "java"
  else
    let allFiles := getAllFiles repo in
    let extensions := map (fun f => toLowerCase (Path.extname f)) allFiles in
    if someExt extensions [".js"; ".jsx"; ".ts"; ".tsx"] then "javascript"
    else if someExt extensions [".py"] then "python"
    else if someExt extensions [".java"] then "java"
    else if someExt extensions [".rs"] then "rust"
    else if someExt extensions [".go"] then "go"
    else "unknown".

(** *** The repository name *)

Fixpoint endsWith (s suffix : string) : bool :=
  String.eqb s suffix ||
  match s with
  | EmptyString => false
  | String _ t => endsWith t suffix
  end.

(** [s] without its last [n] characters. *)
Definition dropLast (n : nat) (s : string) : string :=
  substring 0 (String.length s - n) s.

(** [repoUrl.match(/\/([^\/]+)\.git$/)]: the last portion of the URL minus
    its [.git], when something precedes the [.git]. *)
Definition matchGitName (repoUrl : string) : option string :=
  if includes repoUrl "/" && endsWith (Path.basename repoUrl) ".git" &&
     (4 <? String.length (Path.basename repoUrl))%nat
  then Some (dropLast 4 (Path.basename repoUrl)) else None.

(** [repoUrl.match(/\/([^\/]+)\/?$/)]: the last portion, one closing
    slash apart. *)
Definition matchLastName (repoUrl : string) : option string :=
  let u := if endsWith repoUrl "/" then dropLast 1 repoUrl else repoUrl in
  if includes u "/" && negb (String.eqb (Path.basename u) "")
  then Some (Path.basename u) else None.

Definition extractRepoName (repoUrl : string) : string :=
  if includes repoUrl "demo" then "demo-repo"
  else match matchGitName repoUrl with
       | Some name => name
       | None => match matchLastName repoUrl with
                 | Some name => name
                 | None => "unknown-repo"
                 end
       end.

(** *** The hardcoded demo report *)

Definition analyzeDemoRepository : AnalysisResult :=
  {| repository := {| repo_name := "vulnerable-todo-app"; repo_url := "demo";
                      repo_language := "javascript" |};
     dependencies :=
       {| total := 4;
          outdated :=
            [{| o_name := "express"; o_current := "4.16.0"; o_latest := "4.18.2";
                o_severity := o_medium |};
             {| o_name := "lodash"; o_current := "4.17.4"; o_latest := "4.17.21";
                o_severity := o_high |}];
          vulnerable :=
            [{| v_name := "lodash"; v_version := "4.17.4";
                v_vulnerability := "Prototype Pollution (CVE-2019-10744)";
                v_severity := high |};
             {| v_name := "bcrypt"; v_version := "3.0.0";
                v_vulnerability := "Timing Attack Vulnerability";
                v_severity := medium |}] |};
     staticAnalysis :=
       {| errors :=
            [StaticAnalyzer.finding "server.js" 15 "Potential SQL injection vulnerability"
               error "security/detect-sql-injection";
             StaticAnalyzer.finding "server.js" 8 "Hardcoded database credentials"
               error "security/detect-hardcoded-credentials";
             StaticAnalyzer.finding "utils.js" 14 "Use of eval() is dangerous"
               error "security/detect-eval-with-expression";
             StaticAnalyzer.finding "server.js" 35 "Synchronous function in async context"
               warning "performance/no-sync-in-async"];
          summary := {| totalFiles := 3; totalErrors := 3; totalWarnings := 1 |} |};
     aiSummary := Summary
       {| riskLevel := high;
          summaryText := "This repository contains several critical security vulnerabilities including SQL injection, hardcoded credentials, and dangerous use of eval(). The outdated dependencies also introduce additional security risks.";
          recommendations :=
            ["Immediately fix SQL injection vulnerabilities by using parameterized queries";
             "Remove hardcoded database credentials and use environment variables";
             "Replace eval() usage with safer alternatives like JSON.parse()";
             "Update all dependencies to their latest secure versions";
             "Implement input validation and sanitization";
             "Add security headers and CORS protection"];
          priorityFixes :=
            ["Fix SQL injection in server.js line 15";
             "Remove hardcoded credentials in server.js line 8";
             "Update lodash to fix prototype pollution vulnerability"] |} |}.

(** *** The run *)

(** What a run is given: the platform's JSON parser, the outcome of
    [git clone --depth 1] for each URL, the environment and the model. *)
Record World := {
  JSON_parse : string -> result json;
  git_clone : string -> result Tree;
  OPENROUTER_API_KEY : option string;
  callGeminiAPI : DependencyAnalysis -> StaticAnalysisResult -> result string
}.

(** The collaborators a run calls, in order. *)
Inductive Event :=
| EnsureDir
| Clone (repoUrl : string)
| Remove
| DetectLanguage
| AnalyzeDependencies (language : string)
| RunStaticAnalysis (language : string)
| GenerateAISummary.

(** What lies at [repoPath], and the calls made so far. *)
Record State := {
  checkout : option Tree;
  calls : list Event
}.

Definition M (A : Type) : Type := State -> result A * State.

Definition ret {A} (a : A) : M A := fun s => (Ok a, s).
Definition throw {A} (e : Exn) : M A := fun s => (Throw e, s).
Definition bind {A B} (m : M A) (k : A -> M B) : M B :=
  fun s => match m s with
           | (Ok a, s') => k a s'
           | (Throw e, s') => (Throw e, s')
           end.
Definition tryCatch {A} (m : M A) (handler : Exn -> M A) : M A :=
  fun s => match m s with
           | (Ok a, s') => (Ok a, s')
           | (Throw e, s') => handler e s'
           end.
Definition lift {A} (r : result A) : M A := fun s => (r, s).
Definition call (e : Event) : M unit :=
  fun s => (Ok tt, {| checkout := checkout s; calls := List.app (calls s) [e] |}).
Definition getCheckout : M (option Tree) := fun s => (Ok (checkout s), s).
Definition setCheckout (t : option Tree) : M unit :=
  fun s => (Ok tt, {| checkout := t; calls := calls s |}).

Declare Scope analyzer_scope.
Delimit Scope analyzer_scope with analyzer.
Notation "x <- m ;; k" := (bind m (fun x => k))
  (at level 61, m at next level, right associativity) : analyzer_scope.
Notation "m ;; k" := (bind m (fun _ => k))
  (at level 61, right associativity) : analyzer_scope.
Local Open Scope analyzer_scope.

Section Run.
Variable w : World.

(** [fs.remove(repoPath)]. *)
Definition remove : M unit := call Remove ;; setCheckout None.

Definition cloneRepository (repoUrl : string) : M unit :=
  existing <- getCheckout ;;
  (match existing with
   | Some _ => remove
   | None => ret tt
   end) ;;
  call (Clone repoUrl) ;;
  tree <- lift (git_clone w repoUrl) ;;
  setCheckout (Some tree).

(** The directory at [repoPath], which the analyzers read. *)
Definition readCheckout : M Tree :=
  existing <- getCheckout ;;
  match existing with
  | Some tree => ret tree
  | None => throw FsError
  end.

Definition analyzeRepository (repoUrl : string) : M AnalysisResult :=
  let repoName := extractRepoName repoUrl in
  tryCatch
    (call EnsureDir ;;
     if includes repoUrl "demo" || String.eqb repoUrl "demo"
     then ret analyzeDemoRepository
     else
       cloneRepository repoUrl ;;
       call DetectLanguage ;;
       tree <- readCheckout ;;
       let language := detectLanguage tree in
       call (AnalyzeDependencies language) ;;
       dependencies <-
         lift (DependencyAnalyzer.analyzeDependencies (JSON_parse w) tree language) ;;
       call (RunStaticAnalysis language) ;;
       let staticAnalysis := StaticAnalyzer.runStaticAnalysis tree language in
       call GenerateAISummary ;;
       let aiSummary :=
         AiService.generateAISummary (JSON_parse w) (OPENROUTER_API_KEY w)
           (callGeminiAPI w) dependencies staticAnalysis in
       remove ;;
       ret {| repository := {| repo_name := repoName; repo_url := repoUrl;
                               repo_language := language |};
              dependencies := dependencies;
              staticAnalysis := staticAnalysis;
              aiSummary := aiSummary |})
    (fun error =>
       existing <- getCheckout ;;
       (match existing with
        | Some _ => remove
        | None => ret tt
        end) ;;
       throw error).
End Run.

End Analyzer.

(* ================================================================= *)
(** ** The specification's own wording, for comparison *)

Module Spec.
Import JsString.

(** How many elements of a list have a property. *)
Fixpoint howMany {A} (p : A -> bool) (l : list A) : nat :=
  match l with
  | [] => 0
  | x :: r => if p x then S (howMany p r) else howMany p r
  end.

Definition isCriticalVuln (v : VulnerableDependency) : bool :=
  match v_severity v with critical => true | _ => false end.
Definition isHighVuln (v : VulnerableDependency) : bool :=
  match v_severity v with high => true | _ => false end.
Definition isMediumOutdated (d : OutdatedDependency) : bool :=
  match o_severity d with o_medium => true | _ => false end.
Definition isError (e : StaticFinding) : bool :=
  match severity e with error => true | _ => false end.
Definition isWarning (e : StaticFinding) : bool :=
  match severity e with warning => true | _ => false end.
Definition isInfo (e : StaticFinding) : bool :=
  match severity e with info => true | _ => false end.

(** The risk level of the fallback summary, in the words of the
    specification. *)
Definition riskLevel (d : DependencyAnalysis) (s : StaticAnalysisResult) : Level :=
  let highs := howMany isHighVuln (vulnerable d) + howMany isError (errors s) in
  let mediums := howMany isMediumOutdated (outdated d) + howMany isWarning (errors s) in
  if existsb isCriticalVuln (vulnerable d) then critical
  else if (2 <? highs)%nat then high
  else if ((0 <? highs) || (3 <? mediums))%nat then medium
  else low.

(** The files whose presence in the root decides the language. *)
Definition markerFiles : list string :=
  ["package.json"; "requirements.txt"; "setup.py"; "Cargo.toml"; "go.mod";
   "pom.xml"; "build.gradle"].

Definition noMarker (repo : Tree) : bool :=
  negb (existsb (includesStr (map fst repo)) markerFiles).

(** The languages with their extensions, in the order in which the
    detection tries them. *)
Definition languageExtensions : list (string * list string) :=
  [("javascript", [".js"; ".jsx"; ".ts"; ".tsx"]); ("python", [".py"]);
   ("java", [".java"]); ("rust", [".rs"]); ("go", [".go"])].

(** The extension under which the detection files a path. *)
Definition extensionOf (f : string) : string := toLowerCase (Path.extname f).

(** Some visited file has one of the extensions [exts]. *)
Definition present (repo : Tree) (exts : list string) : Prop :=
  exists f, In f (Analyzer.getAllFiles repo) /\ In (extensionOf f) exts.

(** The first language of a table with a file present, else unknown. *)
Inductive FirstPresent (repo : Tree) : list (string * list string) -> string -> Prop :=
| fp_none : FirstPresent repo [] "unknown"
| fp_here lang exts rest :
    present repo exts -> FirstPresent repo ((lang, exts) :: rest) lang
| fp_later lang exts rest l :
    ~ present repo exts -> FirstPresent repo rest l ->
    FirstPresent repo ((lang, exts) :: rest) l.

(** How many visited files have one of the extensions [exts]. *)
Definition filesWith (repo : Tree) (exts : list string) : nat :=
  howMany (fun f => includesStr exts (extensionOf f)) (Analyzer.getAllFiles repo).

(** The names a parsed package.json declares, under [dependencies] and
    under [devDependencies]. *)
Definition declaredInManifest (packageJson : json) : list string :=
  match JsObject.getProp packageJson "dependencies",
        JsObject.getProp packageJson "devDependencies" with
  | Ok deps, Ok devDeps =>
      List.app (map fst (JsObject.ownEntries deps)) (map fst (JsObject.ownEntries devDeps))
  | _, _ => []
  end.

(** The names a requirements.txt declares: one for each kept line that
    parses. *)
Definition declaredInRequirements (requirementsContent : string) : list string :=
  flat_map (fun line =>
              match DependencyAnalyzer.Python.matchRequirement line with
              | Some (name, _, _) => [name]
              | None => []
              end)
           (DependencyAnalyzer.Python.keptLines requirementsContent).

(** The number of distinct names of a list. *)
Definition distinct (names : list string) : nat :=
  length (nodup string_dec names).

(** A line that is neither blank nor a comment. *)
Definition isRequirementLine (line : string) : bool :=
  if String.eqb (trim line) "" then false
  else if startsWith line "#" then false else true.

(** The report that a run assembles from a checkout and its dependency
    analysis. *)
Definition reportOf (w : Analyzer.World) (repoUrl : string) (tree : Tree)
    (deps : DependencyAnalysis) : AnalysisResult :=
  let language := Analyzer.detectLanguage tree in
  let staticAnalysis := StaticAnalyzer.runStaticAnalysis tree language in
  {| repository := {| repo_name := Analyzer.extractRepoName repoUrl;
                      repo_url := repoUrl; repo_language := language |};
     dependencies := deps;
     staticAnalysis := staticAnalysis;
     aiSummary := AiService.generateAISummary (Analyzer.JSON_parse w)
                    (Analyzer.OPENROUTER_API_KEY w) (Analyzer.callGeminiAPI w)
                    deps staticAnalysis |}.

(** The same analysis with another list of vulnerable dependencies. *)
Definition withVulnerable (d : DependencyAnalysis)
    (vs : list VulnerableDependency) : DependencyAnalysis :=
  {| total := total d; outdated := outdated d; vulnerable := vs |}.

End Spec.

(* ================================================================= *)
(** ** Scenarios *)

Module Scenario.
Import JsString.

(** The line [const query = "SELECT * FROM t WHERE id = " + id;]. *)
Definition sqlLine : string :=
  "const query = " ++ dq ++ "SELECT * FROM t WHERE id = " ++ dq ++ " + id;".

Definition sqlRepo : Tree := [("app.js", File sqlLine)].

(** Four control characters (U+0001 to U+0004). *)
Definition controlChars : string :=
  String (ascii_of_N 1) (String (ascii_of_N 2) (String (ascii_of_N 3)
    (String (ascii_of_N 4) EmptyString))).

(** The characters the specification counts as printable: the visible
    ASCII range and the Latin-1 characters from U+00A0 on. *)
Definition isPrintable (c : ascii) : bool :=
  ((32 <=? code c) && (code c <=? 126) || (160 <=? code c))%N.

(** Two Python files and one JavaScript file, no manifest. *)
Definition pythonMajority : Tree :=
  [("a.py", File "import os"); ("b.py", File "import sys");
   ("c.js", File "module.exports = {}")].

(** Scenario A: the manifest [{dependencies: {lodash: 4.17.4}}]. *)
Definition lodashManifest : json :=
  JObj [("dependencies", JObj [("lodash", JStr "4.17.4")])].

Definition lodashVulnerable : VulnerableDependency :=
  {| v_name := "lodash"; v_version := "4.17.4";
     v_vulnerability := "Prototype Pollution (CVE-2019-10744)";
     v_severity := high |}.

Definition lodashOutdated (sev : OutdatedSeverity) : OutdatedDependency :=
  {| o_name := "lodash"; o_current := "4.17.4"; o_latest := "4.17.21";
     o_severity := sev |}.

(** The analysis of scenario A with a given severity of the outdated
    record. *)
Definition lodashAnalysis (sev : OutdatedSeverity) : DependencyAnalysis :=
  {| total := 1; outdated := [lodashOutdated sev]; vulnerable := [lodashVulnerable] |}.

(** A requirements.txt that declares [requests] on two lines. *)
Definition repeatedRequirement : string :=
  "requests==2.30.0" ++ String LF EmptyString ++ "requests==2.31.0".

(** A package.json that is not JSON. *)
Definition brokenManifest : string := "{ dependencies: ".

Definition brokenRepo : Tree :=
  [("package.json", File brokenManifest); ("index.js", File "module.exports = 1")].

(** A requirements.txt whose second line does not parse: it starts with
    a character that no name has. *)
Definition oddRequirements : string :=
  "django==3.2" ++ String LF EmptyString ++ "./vendor/pkg" ++
  String LF EmptyString ++ "flask".

(** The text of the manifest of scenario A. *)
Definition lodashText : string :=
  "{" ++ dq ++ "dependencies" ++ dq ++ ":{" ++ dq ++ "lodash" ++ dq ++ ":" ++
  dq ++ "4.17.4" ++ dq ++ "}}".

(** [JSON.parse] on the two manifest texts of the scenarios: it parses the
    one of scenario A and rejects the broken one. *)
Definition parse (text : string) : result json :=
  if String.eqb text lodashText then Ok lodashManifest else Throw SyntaxError.

(** A world for the scenarios: every clone yields the broken checkout and
    no model is configured. *)
Definition brokenWorld : Analyzer.World :=
  {| Analyzer.JSON_parse := parse;
     Analyzer.git_clone := fun _ => Ok brokenRepo;
     Analyzer.OPENROUTER_API_KEY := None;
     Analyzer.callGeminiAPI := fun _ _ => Throw TypeError |}.

Definition pythonRepo : Tree :=
  [("requirements.txt", File oddRequirements); ("app.py", File "import django")].

(** The same world with a Python checkout behind every URL. *)
Definition pythonWorld : Analyzer.World :=
  {| Analyzer.JSON_parse := parse;
     Analyzer.git_clone := fun _ => Ok pythonRepo;
     Analyzer.OPENROUTER_API_KEY := None;
     Analyzer.callGeminiAPI := fun _ _ => Throw TypeError |}.

Definition appUrl : string := "https://github.com/acme/app.git".
Definition demoAppUrl : string := "https://github.com/acme/demo-app".

Definition criticalVuln : VulnerableDependency :=
  {| v_name := "left-pad"; v_version := "1.0.0";
     v_vulnerability := "Remote Code Execution"; v_severity := critical |}.

Definition noFindings : StaticAnalysisResult :=
  {| errors := [];
     summary := {| totalFiles := 0; totalErrors := 0; totalWarnings := 0 |} |}.

Definition freshState : Analyzer.State :=
  {| Analyzer.checkout := None; Analyzer.calls := [] |}.

End Scenario.

(* ================================================================= *)
(** ** Records with string keys

    An object used as a table ([Record<string, V>]): the same property
    order as any plain object, array indices first and by value, the other
    keys in the order of their creation. *)

Module JsRecord.

Fixpoint replaceValue {V} (k : string) (v : V) (o : list (string * V))
  : list (string * V) :=
  match o with
  | [] => []
  | (k', v') :: r =>
      if String.eqb k k' then (k', v) :: r else (k', v') :: replaceValue k v r
  end.

Fixpoint insertIndex {V} (i : N) (k : string) (v : V) (o : list (string * V))
  : list (string * V) :=
  match o with
  | [] => [(k, v)]
  | (k', v') :: r =>
      match JsObject.arrayIndex k' with
      | Some j => if (j <? i)%N then (k', v') :: insertIndex i k v r
                  else (k, v) :: o
      | None => (k, v) :: o
      end
  end.

(** The assignment [o[k] = v]. *)
Definition set {V} (o : list (string * V)) (k : string) (v : V)
  : list (string * V) :=
  match JsObject.lookup k o with
  | Some _ => replaceValue k v o
  | None =>
      match JsObject.arrayIndex k with
      | Some i => insertIndex i k v o
      | None => List.app o [(k, v)]
      end
  end.

End JsRecord.

(* ================================================================= *)
(** ** The shared utilities (the package @repo-guardian/shared) *)

Module Shared.
Import JsString.

(** [filePath.split('.').pop()?.toLowerCase() || '']: what follows the last
    dot, or the whole path when it has no dot, in lower case. *)
Definition getFileExtension (filePath : string) : string :=
  toLowerCase (List.last (Semver.splitOn "."%char filePath) EmptyString).

Definition languageMap : list (string * string) :=
  [("js", "javascript"); ("jsx", "javascript"); ("ts", "typescript");
   ("tsx", "typescript"); ("py", "python"); ("java", "java"); ("cpp", "cpp");
   ("c", "c"); ("cs", "csharp"); ("php", "php"); ("rb", "ruby"); ("go", "go");
   ("rs", "rust"); ("swift", "swift"); ("kt", "kotlin"); ("scala", "scala");
   ("html", "html"); ("css", "css"); ("scss", "scss"); ("sass", "sass");
   ("less", "less"); ("json", "json"); ("xml", "xml"); ("yaml", "yaml");
   ("yml", "yaml"); ("md", "markdown"); ("sql", "sql"); ("sh", "bash");
   ("bash", "bash"); ("zsh", "bash"); ("fish", "bash"); ("ps1", "powershell");
   ("dockerfile", "dockerfile"); ("makefile", "makefile")].

(** What [languageMap[extension] || 'text'] evaluates to: a string, or the
    member of [Object.prototype] that the extension names. *)
Inductive Looked :=
| Str (s : string)
| Member (name : string).

Definition getLanguageFromExtension (extension : string) : Looked :=
  match JsObject.lookup extension languageMap with
  | Some language => Str language
  | None =>
      if includesStr JsObject.objectPrototypeMembers extension
      then Member extension else Str "text"
  end.

(** [text.substring(0, n)] for an integer [n]: a negative [n] counts as 0. *)
Definition substringTo (n : Z) (text : string) : string :=
  substring 0 (Z.to_nat n) text.

(** [truncateText] for an integer [maxLength]. *)
Definition truncateText (text : string) (maxLength : Z) : string :=
  if (Z.of_nat (String.length text) <=? maxLength)%Z then text
  else substringTo (maxLength - 3) text ++ "...".

(** The class [[a-z0-9.-]] under the flag [i]. *)
Definition isSafeChar (c : ascii) : bool :=
  isAlpha c || isDigit c || Ascii.eqb c "."%char || Ascii.eqb c "-"%char.

Fixpoint replaceUnsafe (s : string) : string :=
  match s with
  | EmptyString => EmptyString
  | String c t => String (if isSafeChar c then c else "_"%char) (replaceUnsafe t)
  end.

(** [filename.replace(/[^a-z0-9.-]/gi, '_').toLowerCase()]. *)
Definition sanitizeFilename (filename : string) : string :=
  toLowerCase (replaceUnsafe filename).

(** The loop of [chunkArray] from index [i] on, [rest] being
    [array.slice(i)]; each turn pushes [array.slice(i, i + size)]. *)
Fixpoint chunkLoop {A} (turns : nat) (rest : list A) (size : nat) : list (list A) :=
  match turns with
  | 0 => []
  | S turns' =>
      match rest with
      | [] => []
      | _ :: _ => firstn size rest :: chunkLoop turns' (skipn size rest) size
      end
  end.

(** [chunkArray] for a size that is a natural number.  With size 0 the
    index never advances: on a non-empty array the loop does not end
    ([None]).  Otherwise [array.length] turns are enough. *)
Definition chunkArray {A} (array : list A) (size : nat) : option (list (list A)) :=
  match size, array with
  | 0, _ :: _ => None
  | _, _ => Some (chunkLoop (length array) array size)
  end.

End Shared.

(* ================================================================= *)
(** ** The upload route (routes/upload.ts) *)

Module UploadRoute.
Import JsString.

(** The regular expressions of [skipPatterns]; each is a literal, so
    [pattern.test(filePath)] is a substring test. *)
Definition skipPatterns : list string :=
  ["node_modules"; ".git"; ".next"; "dist"; "build"; "coverage"; ".nyc_output";
   ".cache"; ".vscode"; ".idea"; "vendor"; "target"; "bin"; "obj"].

Definition skipExtensions : list string :=
  [".exe"; ".dll"; ".so"; ".dylib";
   ".jpg"; ".jpeg"; ".png"; ".gif"; ".bmp"; ".svg"; ".ico";
   ".mp3"; ".mp4"; ".avi"; ".mov"; ".wmv";
   ".pdf"; ".doc"; ".docx"; ".xls"; ".xlsx"; ".ppt"; ".pptx";
   ".zip"; ".rar"; ".7z"; ".tar"; ".gz";
   ".class"; ".jar"; ".war"; ".ear";
   ".o"; ".obj"; ".lib"; ".a"].

Definition shouldSkipFile (filePath : string) : bool :=
  let extension := toLowerCase (Path.extname filePath) in
  existsb (fun pattern => includes filePath pattern) skipPatterns ||
  includesStr skipExtensions extension.

(** An entry of the archive: [getData] throws on an entry that cannot be
    inflated. *)
Record ZipEntry := {
  entryName : string;
  isDirectory : bool;
  headerSize : N;
  getData : result string
}.

Record UploadedFile := {
  u_path : string;
  u_content : string;
  u_language : Shared.Looked;
  u_size : N
}.

(** One turn of the loop over [zipEntries]: the file pushed for an entry,
    if any. *)
Definition collectEntry (entry : ZipEntry) : list UploadedFile :=
  if isDirectory entry || startsWith (entryName entry) "." ||
     includes (entryName entry) "/."
  then []
  else if (1024 * 1024 <? headerSize entry)%N then []
  else if shouldSkipFile (entryName entry) then []
  else
    match getData entry with
    | Ok content =>
        let extension := Shared.getFileExtension (entryName entry) in
        let language := Shared.getLanguageFromExtension extension in
        if Upload.isTextContent content
        then [{| u_path := entryName entry; u_content := content;
                 u_language := language; u_size := headerSize entry |}]
        else []
    | Throw _ => []
    end.

Definition collectFiles (zipEntries : list ZipEntry) : list UploadedFile :=
  flat_map collectEntry zipEntries.

(** A file of [getLanguageStats], whose parameter type gives every file
    a string for its language. *)
Record FileInfo := {
  language : string;
  size : nat
}.

Record LanguageStat := {
  stat_language : string;
  stat_count : nat;
  stat_totalSize : nat
}.

(** One turn of the loop of [getLanguageStats].  For a language named like
    a member of [Object.prototype] the test [!stats[file.language]] finds
    the inherited member, no property is created, and the two updates land
    on that member: [stats] keeps its own properties. *)
Definition addStat (stats : list (string * (nat * nat))) (file : FileInfo)
  : list (string * (nat * nat)) :=
  if includesStr JsObject.objectPrototypeMembers (language file) then stats
  else
    let stats := match JsObject.lookup (language file) stats with
                 | Some _ => stats
                 | None => JsRecord.set stats (language file) (0, 0)
                 end in
    match JsObject.lookup (language file) stats with
    | Some (count, totalSize) =>
        JsRecord.set stats (language file) (count + 1, totalSize + size file)
    | None => stats
    end.

Definition getLanguageStats (files : list FileInfo) : list LanguageStat :=
  map (fun entry => {| stat_language := fst entry;
                       stat_count := fst (snd entry);
                       stat_totalSize := snd (snd entry) |})
      (fold_left addStat files []).

(** What the request brings and what the collaborators do: the uploaded
    archive as [AdmZip] reads it (or the message of the error it throws),
    and the inserts of the repository, its files and their chunks, which
    go through ([None]) or throw an error with a message. *)
Record ZipRequest := {
  fileUploaded : bool;
  userId : option string;
  demoMode : bool;
  archive : string + list ZipEntry;
  store : list UploadedFile -> option string
}.

Inductive ZipResponse :=
| Uploaded (filesCount : nat) (totalSize : N)
| Rejected (message : string) (statusCode : nat).

(** The handler of [POST /zip], as far as the status and the counts of its
    answer go. *)
Definition postZip (req : ZipRequest) : ZipResponse :=
  if negb (fileUploaded req) then Rejected "No file uploaded" 400
  else
    let authenticated := match userId req with
                         | Some id => negb (String.eqb id "")
                         | None => false
                         end in
    if negb authenticated && negb (demoMode req)
    then Rejected "User authentication required" 401
    else
      let attempt : string + (nat * N) :=
        match archive req with
        | inl message => inl message
        | inr zipEntries =>
            let files := collectFiles zipEntries in
            if (length files =? 0)%nat
            then inl "No valid text files found in ZIP archive"
            else
              match store req files with
              | Some message => inl message
              | None =>
                  inr (length files,
                       fold_left (fun sum file => sum + u_size file)%N files 0%N)
              end
        end in
      match attempt with
      | inr (filesCount, totalSize) => Uploaded filesCount totalSize
      | inl message =>
          if includes message "Invalid or corrupted ZIP"
          then Rejected "Invalid or corrupted ZIP file" 400
          else Rejected "Failed to process ZIP file" 500
      end.

End UploadRoute.

(* ================================================================= *)
(** ** Further scenarios and vocabulary *)

Module Fixture.
Import JsString.

(** A world without network: every clone fails. *)
Definition offlineWorld : Analyzer.World :=
  {| Analyzer.JSON_parse := Scenario.parse;
     Analyzer.git_clone := fun _ => Throw GitError;
     Analyzer.OPENROUTER_API_KEY := None;
     Analyzer.callGeminiAPI := fun _ _ => Throw TypeError |}.

(** A state in which an earlier run has left a checkout behind. *)
Definition staleState : Analyzer.State :=
  {| Analyzer.checkout := Some Scenario.brokenRepo; Analyzer.calls := [] |}.

(** What [cloneRepository] calls before the clone itself. *)
Definition removeStale (s : Analyzer.State) : list Analyzer.Event :=
  match Analyzer.checkout s with
  | Some _ => [Analyzer.Remove]
  | None => []
  end.

(** A Rust crate: a manifest and one source file. *)
Definition rustRepo : Tree :=
  [("Cargo.toml", File "[package]"); ("src", Dir [("main.rs", File "fn main() {}")])].

Definition rustWorld : Analyzer.World :=
  {| Analyzer.JSON_parse := Scenario.parse;
     Analyzer.git_clone := fun _ => Ok rustRepo;
     Analyzer.OPENROUTER_API_KEY := None;
     Analyzer.callGeminiAPI := fun _ _ => Throw TypeError |}.

(** A requirements.txt with Windows line endings. *)
Definition windowsRequirements : string :=
  "django==3.2" ++ String CR (String LF EmptyString) ++
  "requests" ++ String CR (String LF EmptyString).

(** A manifest with a range that is no version on a tracked package. *)
Definition latestManifest : json :=
  JObj [("dependencies", JObj [("express", JStr "latest")])].

End Fixture.

(** The vocabulary of the further properties. *)
Module Extra.
Import JsString.

Definition zeroStatic : StaticAnalysisResult :=
  {| errors := [];
     summary := {| totalFiles := 0; totalErrors := 0; totalWarnings := 0 |} |}.

(** The merged object [{...dependencies, ...devDependencies}] of a parsed
    package.json. *)
Definition merged (packageJson : json) : JsObject.Obj :=
  match JsObject.getProp packageJson "dependencies",
        JsObject.getProp packageJson "devDependencies" with
  | Ok deps, Ok devDeps => JsObject.spread2 deps devDeps
  | _, _ => []
  end.

(** [version] is a version to semver. *)
Definition parses (version : string) : bool :=
  match Semver.parse version with
  | Ok _ => true
  | Throw _ => false
  end.

(** A declared dependency that the JavaScript analyzer can check: its
    version is a string, its name is no member of [Object.prototype], and
    when the package is in the table of latest versions, the declared
    version minus its first caret or tilde is a version. *)
Definition entryAccepted (kv : string * json) : bool :=
  match snd kv with
  | JStr declared =>
      negb (includesStr JsObject.objectPrototypeMembers (fst kv)) &&
      match JsObject.lookup (fst kv) DependencyAnalyzer.JavaScript.mockLatestVersions with
      | Some _ => parses (DependencyAnalyzer.JavaScript.stripRange declared)
      | None => true
      end
  | _ => false
  end.

(** The name is in the JavaScript table of vulnerabilities. *)
Definition isVulnerableName (name : string) : bool :=
  match JsObject.lookup name DependencyAnalyzer.JavaScript.mockVulnerabilities with
  | Some _ => true
  | None => false
  end.

(** [s] is empty or starts with a character outside [p]. *)
Definition stopsAt (p : ascii -> bool) (s : string) : bool :=
  match s with
  | EmptyString => true
  | String c _ => negb (p c)
  end.

(** A character that a sanitized file name may hold. *)
Definition isSanitized (c : ascii) : bool :=
  ((97 <=? JsString.code c) && (JsString.code c <=? 122))%N ||
  JsString.isDigit c || Ascii.eqb c "."%char || Ascii.eqb c "-"%char ||
  Ascii.eqb c "_"%char.

(** A file that the language statistics count: its language is not named
    like a member of [Object.prototype]. *)
Definition isCounted (file : UploadRoute.FileInfo) : bool :=
  negb (includesStr JsObject.objectPrototypeMembers (UploadRoute.language file)).

(** [low < medium < high < critical]. *)
Definition rank (l : Level) : nat :=
  match l with low => 0 | medium => 1 | high => 2 | critical => 3 end.

Definition isHighOutdated (d : OutdatedDependency) : bool :=
  match o_severity d with o_high => true | _ => false end.

Definition withErrors (s : StaticAnalysisResult) (es : list StaticFinding)
  : StaticAnalysisResult :=
  {| errors := es; summary := summary s |}.

End Extra.

(* ================================================================= *)
(** * Properties *)

(** ** Lists *)

Lemma howMany_filter {A} (p q : A -> bool) (l : list A) :
  (forall x, p x = q x) -> length (filter p l) = Spec.howMany q l.
Proof.
  intros Hpq. induction l as [|x r IH]; simpl; [reflexivity|].
  rewrite <- Hpq. destruct (p x); simpl; now rewrite IH.
Qed.

Lemma howMany_pos_existsb {A} (p : A -> bool) (l : list A) :
  (0 <? Spec.howMany p l)%nat = existsb p l.
Proof.
  induction l as [|x r IH]; simpl; [reflexivity|].
  destruct (p x); simpl; [reflexivity | exact IH].
Qed.

Lemma slice0_length {A} (n : nat) (l : list A) : length (slice0 n l) <= n.
Proof. unfold slice0. apply firstn_le_length. Qed.

Lemma slice0_nonempty {A} (n : nat) (l : list A) :
  l <> [] -> slice0 (S n) l <> [].
Proof. destruct l; simpl; congruence. Qed.

(** ** The fallback summarizer *)

Section FallbackSummary.
Variable d : DependencyAnalysis.
Variable s : StaticAnalysisResult.

Lemma criticalIssues_howMany :
  AiMock.criticalIssues d = Spec.howMany Spec.isCriticalVuln (vulnerable d).
Proof.
  unfold AiMock.criticalIssues. apply howMany_filter.
  intros v. unfold Spec.isCriticalVuln. now destruct (v_severity v).
Qed.

Lemma highIssues_howMany :
  AiMock.highIssues d s =
  Spec.howMany Spec.isHighVuln (vulnerable d) + Spec.howMany Spec.isError (errors s).
Proof.
  unfold AiMock.highIssues. f_equal; apply howMany_filter.
  - intros v. unfold Spec.isHighVuln. now destruct (v_severity v).
  - intros e. unfold Spec.isError. now destruct (severity e).
Qed.

Lemma mediumIssues_howMany :
  AiMock.mediumIssues d s =
  Spec.howMany Spec.isMediumOutdated (outdated d) +
  Spec.howMany Spec.isWarning (errors s).
Proof.
  unfold AiMock.mediumIssues. f_equal; apply howMany_filter.
  - intros v. unfold Spec.isMediumOutdated. now destruct (o_severity v).
  - intros e. unfold Spec.isWarning. now destruct (severity e).
Qed.

Lemma riskLevel_refines :
  riskLevel (AiMock.generateMockSummary d s) = Spec.riskLevel d s.
Proof.
  unfold AiMock.generateMockSummary, Spec.riskLevel. simpl.
  rewrite criticalIssues_howMany, highIssues_howMany, mediumIssues_howMany.
  now rewrite howMany_pos_existsb.
Qed.
End FallbackSummary.

Lemma riskLevel_critical (d : DependencyAnalysis) (s : StaticAnalysisResult) :
  existsb Spec.isCriticalVuln (vulnerable d) = true ->
  riskLevel (AiMock.generateMockSummary d s) = critical.
Proof.
  intros H. rewrite riskLevel_refines. unfold Spec.riskLevel. now rewrite H.
Qed.

(** C2. The risk level of the fallback summary follows the rule of the
    specification: critical when some vulnerable entry is critical; else
    high when the high-severity vulnerabilities plus the error findings
    number more than 2; else medium when that sum is positive or the
    medium-severity outdated entries plus the warning findings number more
    than 3; else low.  And one more critical vulnerability, put anywhere in
    the list, makes the level critical, whatever it was before. *)
Theorem C2_fallback_risk_level (d : DependencyAnalysis) (s : StaticAnalysisResult) :
  riskLevel (AiMock.generateMockSummary d s) = Spec.riskLevel d s /\
  forall (v : VulnerableDependency) (before after : list VulnerableDependency),
    v_severity v = critical ->
    vulnerable d = List.app before after ->
    riskLevel (AiMock.generateMockSummary
                 (Spec.withVulnerable d (List.app before (v :: after))) s) = critical.
Proof.
  split; [apply riskLevel_refines|].
  intros v before after Hv _. apply riskLevel_critical. simpl.
  rewrite existsb_app. simpl. unfold Spec.isCriticalVuln at 2. rewrite Hv.
  now rewrite orb_true_r.
Qed.

Lemma C2_fallback_risk_level_witness :
  v_severity Scenario.criticalVuln = critical /\
  riskLevel (AiMock.generateMockSummary DependencyAnalyzer.zeroValue Scenario.noFindings)
    = low /\
  riskLevel (AiMock.generateMockSummary
               (Spec.withVulnerable DependencyAnalyzer.zeroValue [Scenario.criticalVuln])
               Scenario.noFindings) = critical.
Proof.
  split; [reflexivity|]. split; [reflexivity|].
  apply (proj2 (C2_fallback_risk_level DependencyAnalyzer.zeroValue Scenario.noFindings)
           Scenario.criticalVuln [] [] eq_refl eq_refl).
Defined.

(** C5. The fallback summarizer is a total function, and its summary has a
    risk level among the four, between one and six recommendations, and at
    most five priority fixes. *)
Theorem C5_fallback_summary_shape (d : DependencyAnalysis) (s : StaticAnalysisResult) :
  let r := AiMock.generateMockSummary d s in
  In (riskLevel r) [low; medium; high; critical] /\
  recommendations r <> [] /\
  length (recommendations r) <= 6 /\
  length (priorityFixes r) <= 5.
Proof.
  cbv zeta. repeat split.
  - destruct (riskLevel (AiMock.generateMockSummary d s)); simpl; tauto.
  - simpl. unfold AiMock.generateRecommendations. cbv zeta.
    apply slice0_nonempty.
    match goal with |- AiMock.pushIf _ ?xs ?r5 <> [] => destruct r5 eqn:E end.
    + simpl. discriminate.
    + simpl. discriminate.
  - apply slice0_length.
  - apply slice0_length.
Qed.

(** ** The static analyzer's summary *)

Lemma howMany_severity_bound (l : list StaticFinding) :
  Spec.howMany Spec.isError l + Spec.howMany Spec.isWarning l + Spec.howMany Spec.isInfo l
  = length l.
Proof.
  induction l as [|e r IH]; simpl; [reflexivity|].
  unfold Spec.isError, Spec.isWarning, Spec.isInfo in *.
  destruct (severity e); simpl; lia.
Qed.

Lemma howMany_zero_iff {A} (p : A -> bool) (l : list A) :
  Spec.howMany p l = 0 <-> forall x, In x l -> p x = false.
Proof.
  induction l as [|a r IH]; simpl.
  - split; [intros _ x [] | reflexivity].
  - destruct (p a) eqn:E.
    + split; [discriminate|]. intros H. specialize (H a (or_introl eq_refl)). congruence.
    + rewrite IH. split.
      * intros H x [<-|Hx]; auto.
      * intros H x Hx. apply H. now right.
Qed.

Lemma countSeverity_error (l : list StaticFinding) :
  StaticAnalyzer.countSeverity error l = Spec.howMany Spec.isError l.
Proof.
  apply howMany_filter. intros e. unfold Spec.isError. now destruct (severity e).
Qed.

Lemma countSeverity_warning (l : list StaticFinding) :
  StaticAnalyzer.countSeverity warning l = Spec.howMany Spec.isWarning l.
Proof.
  apply howMany_filter. intros e. unfold Spec.isWarning. now destruct (severity e).
Qed.

(** The summary of every result is computed from its list of findings. *)
Lemma summary_from_errors (repo : Tree) (language : string) :
  let r := StaticAnalyzer.runStaticAnalysis repo language in
  totalErrors (summary r) = StaticAnalyzer.countSeverity error (errors r) /\
  totalWarnings (summary r) = StaticAnalyzer.countSeverity warning (errors r).
Proof.
  unfold StaticAnalyzer.runStaticAnalysis.
  destruct (String.eqb language "javascript"); [simpl; auto|].
  destruct (String.eqb language "python"); simpl; auto.
Qed.

(** C7. In every result of the static analyzer, on the JavaScript path, on
    the Python path and for any other language, [totalErrors] is the number
    of findings of severity error and [totalWarnings] the number of severity
    warning; their sum is at most the number of findings, and equals it
    exactly when no finding has severity info. *)
Theorem C7_summary_counts (repo : Tree) (language : string) :
  let r := StaticAnalyzer.runStaticAnalysis repo language in
  totalErrors (summary r) = Spec.howMany Spec.isError (errors r) /\
  totalWarnings (summary r) = Spec.howMany Spec.isWarning (errors r) /\
  totalErrors (summary r) + totalWarnings (summary r) <= length (errors r) /\
  (totalErrors (summary r) + totalWarnings (summary r) = length (errors r) <->
   forall e, In e (errors r) -> severity e <> info).
Proof.
  intros r. destruct (summary_from_errors repo language) as [He Hw].
  fold r in He, Hw. rewrite He, Hw, countSeverity_error, countSeverity_warning.
  pose proof (howMany_severity_bound (errors r)) as Hsum.
  repeat split; try lia.
  - intros Heq e Hin Hinfo.
    assert (Hz : Spec.howMany Spec.isInfo (errors r) = 0) by lia.
    rewrite howMany_zero_iff in Hz. specialize (Hz e Hin).
    unfold Spec.isInfo in Hz. rewrite Hinfo in Hz. discriminate.
  - intros Hno.
    assert (Hz : Spec.howMany Spec.isInfo (errors r) = 0).
    { apply howMany_zero_iff. intros e Hin. unfold Spec.isInfo.
      specialize (Hno e Hin). destruct (severity e); congruence. }
    lia.
Qed.

(** ** Scenario B *)

(** C8. When the only JavaScript file of a checkout is the single line
    [const query = "SELECT * FROM t WHERE id = " + id;] (with or without a
    closing newline), the analyzer emits exactly one finding of severity
    error: it has the rule security/detect-sql-injection and line 1. *)
Theorem C8_scenario_B (repo : Tree) (path content : string) :
  StaticAnalyzer.findFiles repo [".js"; ".jsx"; ".ts"; ".tsx"] = [(path, content)] ->
  content = Scenario.sqlLine \/
  content = Scenario.sqlLine ++ String JsString.LF EmptyString ->
  let r := StaticAnalyzer.analyzeJavaScript repo in
  filter Spec.isError (errors r) =
    [StaticAnalyzer.finding path 1 "Potential SQL injection vulnerability"
       error "security/detect-sql-injection"] /\
  totalErrors (summary r) = 1.
Proof.
  intros Hfiles Hcontent. unfold StaticAnalyzer.analyzeJavaScript.
  rewrite Hfiles. cbn [flat_map fst snd errors summary totalErrors].
  rewrite app_nil_r.
  destruct Hcontent as [-> | ->]; split; vm_compute; reflexivity.
Qed.

Lemma C8_scenario_B_witness :
  StaticAnalyzer.findFiles Scenario.sqlRepo [".js"; ".jsx"; ".ts"; ".tsx"]
    = [("app.js", Scenario.sqlLine)] /\
  (Scenario.sqlLine = Scenario.sqlLine \/
   Scenario.sqlLine = Scenario.sqlLine ++ String JsString.LF EmptyString) /\
  filter Spec.isError (errors (StaticAnalyzer.analyzeJavaScript Scenario.sqlRepo)) =
    [StaticAnalyzer.finding "app.js" 1 "Potential SQL injection vulnerability"
       error "security/detect-sql-injection"] /\
  totalErrors (summary (StaticAnalyzer.analyzeJavaScript Scenario.sqlRepo)) = 1.
Proof.
  split; [reflexivity|]. split; [left; reflexivity|].
  apply (C8_scenario_B Scenario.sqlRepo "app.js" Scenario.sqlLine);
    [reflexivity | left; reflexivity].
Defined.

(** ** The text filter *)

(** C9 (the code departs from it). Content made of four control characters,
    none of them printable and none of them CR, LF, TAB or NUL, passes the
    filter: every character other than CR, LF and TAB is counted as
    printable. *)
Theorem C9_control_characters_accepted :
  JsString.count Scenario.isPrintable Scenario.controlChars = 0 /\
  JsString.includes Scenario.controlChars (String JsString.NUL EmptyString) = false /\
  Upload.isTextContent Scenario.controlChars = true.
Proof. repeat split; vm_compute; reflexivity. Qed.

(** ** Language detection *)

Lemma includesStr_In (l : list string) (x : string) :
  includesStr l x = true <-> In x l.
Proof.
  unfold includesStr. rewrite existsb_exists. split.
  - intros [y [Hy Heq]]. apply String.eqb_eq in Heq. now subst.
  - intros H. exists x. split; [exact H | apply String.eqb_refl].
Qed.

Lemma someExt_present (repo : Tree) (exts : list string) :
  Analyzer.someExt
    (map (fun f => JsString.toLowerCase (Path.extname f)) (Analyzer.getAllFiles repo)) exts
  = true <-> Spec.present repo exts.
Proof.
  unfold Analyzer.someExt, Spec.present, Spec.extensionOf.
  rewrite existsb_exists. split.
  - intros [e [He Hin]]. apply in_map_iff in He. destruct He as [f [<- Hf]].
    exists f. split; [exact Hf | now apply includesStr_In].
  - intros [f [Hf Hin]]. exists (JsString.toLowerCase (Path.extname f)). split.
    + apply in_map_iff. now exists f.
    + now apply includesStr_In.
Qed.

Lemma detectLanguage_first_present (repo : Tree) :
  Spec.noMarker repo = true ->
  Spec.FirstPresent repo Spec.languageExtensions (Analyzer.detectLanguage repo).
Proof.
  unfold Spec.noMarker, Spec.markerFiles. cbn [existsb]. intros H.
  apply negb_true_iff in H. repeat (apply orb_false_iff in H; destruct H as [? H]).
  unfold Analyzer.detectLanguage. cbv zeta.
  repeat match goal with Hm : includesStr _ _ = false |- _ => rewrite Hm; clear Hm end.
  cbn [orb].
  unfold Spec.languageExtensions.
  repeat lazymatch goal with
  | |- Spec.FirstPresent _ ((_, ?exts) :: _) (if ?c then _ else _) =>
      let E := fresh "E" in
      destruct c eqn:E;
      [ apply Spec.fp_here; now apply someExt_present
      | apply Spec.fp_later;
        [ let Hp := fresh "Hp" in
          intros Hp; apply someExt_present in Hp; congruence | ] ];
      clear E
  end.
  apply Spec.fp_none.
Qed.

Lemma FirstPresent_split (repo : Tree) (table : list (string * list string)) (l : string) :
  Spec.FirstPresent repo table l ->
  forall pre lang exts post,
    table = List.app pre ((lang, exts) :: post) ->
    Spec.present repo exts ->
    (forall l' e', In (l', e') pre -> ~ Spec.present repo e') ->
    l = lang.
Proof.
  induction 1 as [| lang0 exts0 rest Hp | lang0 exts0 rest l0 Hn Hfp IH];
    intros pre lang exts post Heq Hpres Hpre.
  - destruct pre; discriminate.
  - destruct pre as [|[l1 e1] pre].
    + simpl in Heq. now inversion Heq.
    + simpl in Heq. inversion Heq; subst. exfalso.
      eapply Hpre; [left; reflexivity | eassumption].
  - destruct pre as [|[l1 e1] pre].
    + simpl in Heq. inversion Heq; subst. contradiction.
    + simpl in Heq. inversion Heq; subst.
      apply (IH pre lang exts post eq_refl Hpres).
      intros l' e' Hin. apply (Hpre l' e'). now right.
Qed.

Lemma FirstPresent_unknown (repo : Tree) (table : list (string * list string)) (l : string) :
  Spec.FirstPresent repo table l ->
  (forall lang exts, In (lang, exts) table -> lang <> "unknown") ->
  (l = "unknown" <-> forall lang exts, In (lang, exts) table -> ~ Spec.present repo exts).
Proof.
  induction 1 as [| lang0 exts0 rest Hp | lang0 exts0 rest l0 Hn Hfp IH]; intros Hnames.
  - split; [intros _ lang exts [] | reflexivity].
  - split.
    + intros ->. exfalso. apply (Hnames "unknown" exts0); [now left | reflexivity].
    + intros Hall. exfalso. apply (Hall lang0 exts0); [now left | exact Hp].
  - rewrite IH by (intros lang exts Hin; apply (Hnames lang exts); now right).
    split.
    + intros Hall lang exts [Heq | Hin]; [inversion Heq; now subst | now apply (Hall lang)].
    + intros Hall lang exts Hin. apply (Hall lang). now right.
Qed.

(** C4 (as amended). With no marker file in the root, the detected language
    is the first of javascript, python, java, rust and go, in that order,
    that has at least one visited file with one of its extensions, however
    many files the other languages have; and it is unknown exactly when no
    visited file has an extension of any of the five. *)
Theorem C4_first_language_with_a_file (repo : Tree) :
  Spec.noMarker repo = true ->
  (forall pre lang exts post,
     Spec.languageExtensions = List.app pre ((lang, exts) :: post) ->
     Spec.present repo exts ->
     (forall l' e', In (l', e') pre -> ~ Spec.present repo e') ->
     Analyzer.detectLanguage repo = lang) /\
  (Analyzer.detectLanguage repo = "unknown" <->
   forall lang exts, In (lang, exts) Spec.languageExtensions -> ~ Spec.present repo exts).
Proof.
  intros Hno. pose proof (detectLanguage_first_present repo Hno) as Hfp. split.
  - intros pre lang exts post. now apply FirstPresent_split.
  - apply (FirstPresent_unknown _ _ _ Hfp).
    intros lang exts Hin. simpl in Hin.
    repeat (destruct Hin as [Hin | Hin]; [inversion Hin; discriminate|]).
    destruct Hin.
Qed.

Lemma C4_first_language_witness :
  Spec.noMarker Scenario.pythonMajority = true /\
  ((forall pre lang exts post,
      Spec.languageExtensions = List.app pre ((lang, exts) :: post) ->
      Spec.present Scenario.pythonMajority exts ->
      (forall l' e', In (l', e') pre -> ~ Spec.present Scenario.pythonMajority e') ->
      Analyzer.detectLanguage Scenario.pythonMajority = lang) /\
   (Analyzer.detectLanguage Scenario.pythonMajority = "unknown" <->
    forall lang exts, In (lang, exts) Spec.languageExtensions ->
                      ~ Spec.present Scenario.pythonMajority exts)).
Proof.
  split; [reflexivity|].
  apply (C4_first_language_with_a_file Scenario.pythonMajority). reflexivity.
Defined.

(** C4 (as stated) fails: a checkout with no marker file, two Python files
    and one JavaScript file is detected as javascript, not as python. *)
Lemma C4_majority_counterexample :
  Spec.noMarker Scenario.pythonMajority = true /\
  Spec.filesWith Scenario.pythonMajority [".js"; ".jsx"; ".ts"; ".tsx"] = 1 /\
  Spec.filesWith Scenario.pythonMajority [".py"] = 2 /\
  Analyzer.detectLanguage Scenario.pythonMajority = "javascript" /\
  Analyzer.detectLanguage Scenario.pythonMajority <> "python".
Proof. repeat split; try (vm_compute; reflexivity). vm_compute. discriminate. Qed.

(** ** Scenario A *)

(** C1 (as amended). For the manifest of scenario A the analyzer returns
    total 1, one vulnerable record (lodash, 4.17.4, Prototype Pollution
    (CVE-2019-10744), high) and one outdated record (lodash, 4.17.4,
    4.17.21) whose severity is low: the versions differ in the patch number
    only. *)
Theorem C1_scenario_A_severity_low :
  DependencyAnalyzer.JavaScript.analyzeManifest Scenario.lodashManifest
    = Ok (Scenario.lodashAnalysis o_low) /\
  forall (JSON_parse : string -> result json) (text : string) (others : Tree),
    JSON_parse text = Ok Scenario.lodashManifest ->
    DependencyAnalyzer.analyzeDependencies JSON_parse
      (("package.json", File text) :: others) "javascript"
    = Ok (Scenario.lodashAnalysis o_low).
Proof.
  split; [vm_compute; reflexivity|].
  intros JSON_parse text others Hparse. cbn.
  unfold DependencyAnalyzer.analyzeJavaScriptDependencies. cbn.
  rewrite Hparse. vm_compute. reflexivity.
Qed.

Lemma C1_scenario_A_witness :
  Scenario.parse Scenario.lodashText = Ok Scenario.lodashManifest /\
  DependencyAnalyzer.analyzeDependencies Scenario.parse
    [("package.json", File Scenario.lodashText)] "javascript"
  = Ok (Scenario.lodashAnalysis o_low).
Proof.
  split; [reflexivity|].
  apply (proj2 C1_scenario_A_severity_low Scenario.parse Scenario.lodashText []).
  reflexivity.
Defined.

(** C1 (as stated) fails: the outdated record does not carry severity
    high. *)
Lemma C1_scenario_A_counterexample :
  DependencyAnalyzer.JavaScript.analyzeManifest Scenario.lodashManifest
  <> Ok (Scenario.lodashAnalysis o_high).
Proof. vm_compute. discriminate. Qed.

(** ** Plain objects have distinct keys *)

Lemma lookup_None_keys {A} (k : string) (o : list (string * A)) :
  JsObject.lookup k o = None <-> ~ In k (map fst o).
Proof.
  induction o as [|[k' v] r IH]; simpl; [tauto|].
  destruct (String.eqb_spec k k') as [->|Hne].
  - split; [discriminate | intros H; exfalso; apply H; now left].
  - rewrite IH. split.
    + intros H [Heq|Hin]; [congruence | contradiction].
    + intros H Hin. apply H. now right.
Qed.

Lemma lookup_Some_keys {A} (k : string) (o : list (string * A)) (v : A) :
  JsObject.lookup k o = Some v -> In k (map fst o).
Proof.
  intros H. destruct (in_dec string_dec k (map fst o)) as [Hin|Hnin]; [exact Hin|].
  apply lookup_None_keys in Hnin. congruence.
Qed.

Lemma keys_replaceValue (k : string) (v : json) (o : JsObject.Obj) :
  JsObject.keys (JsObject.replaceValue k v o) = JsObject.keys o.
Proof.
  induction o as [|[k' v'] r IH]; simpl; [reflexivity|].
  destruct (String.eqb k k'); simpl; [reflexivity | now rewrite IH].
Qed.

Lemma keys_insertIndex (i : N) (k : string) (v : json) (o : JsObject.Obj) :
  Permutation (JsObject.keys (JsObject.insertIndex i k v o)) (k :: JsObject.keys o).
Proof.
  induction o as [|[k' v'] r IH]; simpl; [apply Permutation_refl|].
  destruct (JsObject.arrayIndex k') as [j|]; [|apply Permutation_refl].
  destruct (N.ltb j i); [|apply Permutation_refl].
  simpl. eapply Permutation_trans; [apply perm_skip, IH | apply perm_swap].
Qed.

(** Defining a property adds its key once, or keeps the keys as they are. *)
Lemma keys_define (o : JsObject.Obj) (kv : string * json) :
  (In (fst kv) (JsObject.keys o) /\ JsObject.keys (JsObject.define o kv) = JsObject.keys o) \/
  (~ In (fst kv) (JsObject.keys o) /\ Permutation (JsObject.keys (JsObject.define o kv)) (fst kv :: JsObject.keys o)).
Proof.
  destruct kv as [k v]. unfold JsObject.define. simpl fst.
  destruct (JsObject.lookup k o) eqn:E.
  - left. split; [eapply lookup_Some_keys; eassumption | apply keys_replaceValue].
  - right. split; [now apply lookup_None_keys|].
    destruct (JsObject.arrayIndex k).
    + apply keys_insertIndex.
    + unfold JsObject.keys. rewrite map_app. simpl.
      apply Permutation_sym, Permutation_cons_append.
Qed.

Lemma define_NoDup (o : JsObject.Obj) (kv : string * json) :
  NoDup (JsObject.keys o) ->
  NoDup (JsObject.keys (JsObject.define o kv)) /\
  forall x, In x (JsObject.keys (JsObject.define o kv)) <-> x = fst kv \/ In x (JsObject.keys o).
Proof.
  intros Hnd. destruct (keys_define o kv) as [[Hin Heq] | [Hnin Hperm]].
  - rewrite Heq. split; [exact Hnd|]. intros x. split; [tauto|].
    intros [->|H]; assumption.
  - split.
    + eapply Permutation_NoDup; [apply Permutation_sym, Hperm|].
      now constructor.
    + intros x. split; intros H.
      * apply (Permutation_in _ Hperm) in H. destruct H as [<-|H]; auto.
      * apply (Permutation_in _ (Permutation_sym Hperm)). destruct H as [->|H]; simpl; auto.
Qed.

Lemma fold_define_NoDup (l : JsObject.Obj) (acc : JsObject.Obj) :
  NoDup (JsObject.keys acc) ->
  NoDup (JsObject.keys (fold_left JsObject.define l acc)) /\
  forall x, In x (JsObject.keys (fold_left JsObject.define l acc)) <->
            In x (JsObject.keys acc) \/ In x (map fst l).
Proof.
  revert acc. induction l as [|kv r IH]; intros acc Hnd; simpl.
  - split; [exact Hnd | intros x; tauto].
  - destruct (define_NoDup acc kv Hnd) as [Hnd' Hin'].
    destruct (IH _ Hnd') as [Hnd'' Hin'']. split; [exact Hnd''|].
    intros x. rewrite Hin'', Hin'. split.
    + intros [[->|H]|H]; auto.
    + intros [H|[<-|H]]; auto.
Qed.

(** The object [{...a, ...b}] has one property for each distinct key of
    [a] and [b]. *)
Lemma spread2_distinct (a b : option json) :
  length (JsObject.spread2 a b) =
  Spec.distinct (List.app (map fst (JsObject.ownEntries a)) (map fst (JsObject.ownEntries b))).
Proof.
  unfold JsObject.spread2, Spec.distinct.
  destruct (fold_define_NoDup (JsObject.ownEntries a) [] (NoDup_nil _)) as [Hnd1 Hin1].
  destruct (fold_define_NoDup (JsObject.ownEntries b) _ Hnd1) as [Hnd2 Hin2].
  rewrite <- (length_map fst). apply Permutation_length.
  apply NoDup_Permutation; [exact Hnd2 | apply NoDup_nodup |].
  intros x. fold (JsObject.keys (fold_left JsObject.define (JsObject.ownEntries b)
                          (fold_left JsObject.define (JsObject.ownEntries a) []))).
  rewrite Hin2, Hin1, nodup_In, in_app_iff. simpl. tauto.
Qed.

(** ** The total of a dependency analysis *)

Lemma bindR_Ok {A B} (r : result A) (k : A -> result B) (b : B) :
  bindR r k = Ok b -> exists a, r = Ok a /\ k a = Ok b.
Proof. destruct r; simpl; [eauto | discriminate]. Qed.

Lemma analyzeManifest_total (packageJson : json) (r : DependencyAnalysis) :
  DependencyAnalyzer.JavaScript.analyzeManifest packageJson = Ok r ->
  total r = Spec.distinct (Spec.declaredInManifest packageJson).
Proof.
  unfold DependencyAnalyzer.JavaScript.analyzeManifest, Spec.declaredInManifest.
  intros H.
  apply bindR_Ok in H. destruct H as [deps [Hd H]].
  apply bindR_Ok in H. destruct H as [devDeps [Hv H]].
  apply bindR_Ok in H. destruct H as [found [_ H]].
  rewrite Hd, Hv. inversion H; subst. simpl.
  unfold JsObject.keys. rewrite length_map. apply spread2_distinct.
Qed.

Lemma nodup_length_le (l : list string) : length (nodup string_dec l) <= length l.
Proof.
  induction l as [|x r IH]; simpl; [lia|].
  destruct (in_dec string_dec x r); simpl; lia.
Qed.

Lemma flat_map_option_length {A B} (f : A -> list B) (l : list A) :
  (forall x, length (f x) <= 1) -> length (flat_map f l) <= length l.
Proof.
  intros Hf. induction l as [|x r IH]; simpl; [lia|].
  rewrite length_app. specialize (Hf x). lia.
Qed.

(** C6 (as amended). On the JavaScript path, whenever the analyzer returns,
    [total] is the number of distinct names declared under dependencies and
    devDependencies, whatever is flagged.  On the Python path [total] is
    the number of lines of requirements.txt that are neither blank nor
    start with a hash sign; it is at least the number of distinct declared
    names. *)
Theorem C6_total_of_declared (packageJson : json) (r : DependencyAnalysis)
    (requirementsContent : string) :
  (DependencyAnalyzer.JavaScript.analyzeManifest packageJson = Ok r ->
   total r = Spec.distinct (Spec.declaredInManifest packageJson)) /\
  total (DependencyAnalyzer.Python.analyzeRequirements requirementsContent)
    = Spec.howMany Spec.isRequirementLine (JsString.split_lines requirementsContent) /\
  Spec.distinct (Spec.declaredInRequirements requirementsContent)
    <= total (DependencyAnalyzer.Python.analyzeRequirements requirementsContent).
Proof.
  split; [apply analyzeManifest_total|]. split.
  - simpl. unfold DependencyAnalyzer.Python.keptLines. apply howMany_filter.
    intros line. unfold Spec.isRequirementLine.
    destruct (String.eqb (JsString.trim line) ""); simpl; [reflexivity|].
    now destruct (JsString.startsWith line "#").
  - simpl. unfold Spec.distinct, Spec.declaredInRequirements.
    etransitivity; [apply nodup_length_le|].
    apply flat_map_option_length. intros line.
    destruct (DependencyAnalyzer.Python.matchRequirement line) as [[[n o] v]|]; simpl; lia.
Qed.

Lemma C6_total_of_declared_witness :
  DependencyAnalyzer.JavaScript.analyzeManifest Scenario.lodashManifest
    = Ok (Scenario.lodashAnalysis o_low) /\
  total (Scenario.lodashAnalysis o_low)
    = Spec.distinct (Spec.declaredInManifest Scenario.lodashManifest).
Proof.
  split; [vm_compute; reflexivity|].
  apply (proj1 (C6_total_of_declared Scenario.lodashManifest
                  (Scenario.lodashAnalysis o_low) Scenario.repeatedRequirement)).
  vm_compute. reflexivity.
Defined.

(** C6 (as stated) fails on the Python path: a requirements.txt with the
    name [requests] on two lines declares one distinct name and gets
    total 2. *)
Lemma C6_repeated_name_counterexample :
  Spec.declaredInRequirements Scenario.repeatedRequirement = ["requests"; "requests"] /\
  Spec.distinct (Spec.declaredInRequirements Scenario.repeatedRequirement) = 1 /\
  DependencyAnalyzer.analyzePythonDependencies
    [("requirements.txt", File Scenario.repeatedRequirement)]
  = Ok {| total := 2;
          outdated :=
            [{| o_name := "requests"; o_current := "2.30.0"; o_latest := "2.31.0";
                o_severity := o_medium |}];
          vulnerable :=
            [{| v_name := "requests"; v_version := "2.30.0";
                v_vulnerability := "Certificate Verification Bypass";
                v_severity := medium |};
             {| v_name := "requests"; v_version := "2.31.0";
                v_vulnerability := "Certificate Verification Bypass";
                v_severity := medium |}] |}.
Proof. repeat split; vm_compute; reflexivity. Qed.

(** ** The run of the orchestrator *)

Lemma lookup_includes {A} (k : string) (o : list (string * A)) :
  includesStr (map fst o) k =
  match JsObject.lookup k o with Some _ => true | None => false end.
Proof.
  induction o as [|[k' v] r IH]; simpl; [reflexivity|].
  unfold includesStr in *. simpl.
  destruct (String.eqb k k'); simpl; [reflexivity | exact IH].
Qed.

Lemma eqb_demo_includes (repoUrl : string) :
  JsString.includes repoUrl "demo" = false -> String.eqb repoUrl "demo" = false.
Proof.
  intros H. destruct (String.eqb_spec repoUrl "demo") as [->|]; [|reflexivity].
  vm_compute in H. discriminate.
Qed.

Ltac unfold_run :=
  unfold Analyzer.analyzeRepository, Analyzer.tryCatch, Analyzer.cloneRepository,
    Analyzer.readCheckout, Analyzer.remove, Analyzer.bind, Analyzer.call,
    Analyzer.getCheckout, Analyzer.setCheckout, Analyzer.lift, Analyzer.ret,
    Analyzer.throw;
  cbn [Analyzer.checkout Analyzer.calls].

(** Once the clone has succeeded, the outcome of a run is decided by the
    dependency analyzer alone, and the checkout is removed either way. *)
Lemma analyzeRepository_cloned (w : Analyzer.World) (repoUrl : string)
    (s : Analyzer.State) (tree : Tree) :
  JsString.includes repoUrl "demo" = false ->
  Analyzer.git_clone w repoUrl = Ok tree ->
  fst (Analyzer.analyzeRepository w repoUrl s) =
    match DependencyAnalyzer.analyzeDependencies (Analyzer.JSON_parse w) tree
            (Analyzer.detectLanguage tree) with
    | Ok deps => Ok (Spec.reportOf w repoUrl tree deps)
    | Throw e => Throw e
    end /\
  Analyzer.checkout (snd (Analyzer.analyzeRepository w repoUrl s)) = None.
Proof.
  intros Hdemo Hclone. unfold_run.
  rewrite Hdemo, (eqb_demo_includes _ Hdemo). cbn [orb]. rewrite Hclone.
  destruct (Analyzer.checkout s); cbn;
    destruct (DependencyAnalyzer.analyzeDependencies _ _ _); cbn; split; reflexivity.
Qed.

Lemma malformed_line_skipped (requirementsContent : string)
    (before after : list string) (bad : string) :
  DependencyAnalyzer.Python.keptLines requirementsContent = List.app before (bad :: after) ->
  DependencyAnalyzer.Python.matchRequirement bad = None ->
  let r := DependencyAnalyzer.Python.analyzeRequirements requirementsContent in
  outdated r = flat_map (fun l => fst (DependencyAnalyzer.Python.checkLine l))
                 (List.app before after) /\
  vulnerable r = flat_map (fun l => snd (DependencyAnalyzer.Python.checkLine l))
                   (List.app before after) /\
  total r = S (length (List.app before after)).
Proof.
  intros Hlines Hbad.
  assert (Hc : DependencyAnalyzer.Python.checkLine bad = ([], []))
    by (unfold DependencyAnalyzer.Python.checkLine; now rewrite Hbad).
  unfold DependencyAnalyzer.Python.analyzeRequirements.
  cbn [outdated vulnerable total].
  rewrite Hlines, !flat_map_app, !length_app. cbn [flat_map length].
  rewrite Hc. cbn [fst snd List.app]. repeat split. lia.
Qed.

(** C3 (as amended). A package.json that exists but is not JSON is fatal:
    the dependency analyzer throws the parser's error, and the orchestrator,
    having removed the checkout, throws it again, so no report is produced.
    A requirements.txt never is: whatever its text, the analyzer returns an
    analysis and the orchestrator a report around it; a line that does not
    parse is counted in [total] and gives no record. *)
Theorem C3_malformed_manifests (w : Analyzer.World) (repoUrl : string)
    (s : Analyzer.State) (tree : Tree) (text requirementsContent : string) :
  JsString.includes repoUrl "demo" = false ->
  Analyzer.git_clone w repoUrl = Ok tree ->
  (JsObject.lookup "package.json" tree = Some (File text) ->
   Analyzer.JSON_parse w text = Throw SyntaxError ->
   DependencyAnalyzer.analyzeDependencies (Analyzer.JSON_parse w) tree "javascript"
     = Throw SyntaxError /\
   fst (Analyzer.analyzeRepository w repoUrl s) = Throw SyntaxError /\
   Analyzer.checkout (snd (Analyzer.analyzeRepository w repoUrl s)) = None) /\
  (JsObject.lookup "package.json" tree = None ->
   JsObject.lookup "requirements.txt" tree = Some (File requirementsContent) ->
   let r := DependencyAnalyzer.Python.analyzeRequirements requirementsContent in
   DependencyAnalyzer.analyzeDependencies (Analyzer.JSON_parse w) tree "python" = Ok r /\
   fst (Analyzer.analyzeRepository w repoUrl s) = Ok (Spec.reportOf w repoUrl tree r) /\
   forall before bad after,
     DependencyAnalyzer.Python.keptLines requirementsContent
       = List.app before (bad :: after) ->
     DependencyAnalyzer.Python.matchRequirement bad = None ->
     outdated r = flat_map (fun l => fst (DependencyAnalyzer.Python.checkLine l))
                    (List.app before after) /\
     vulnerable r = flat_map (fun l => snd (DependencyAnalyzer.Python.checkLine l))
                      (List.app before after) /\
     total r = S (length (List.app before after))).
Proof.
  intros Hdemo Hclone.
  destruct (analyzeRepository_cloned w repoUrl s tree Hdemo Hclone) as [Hrun Hgone].
  split.
  - intros Hpkg Hparse.
    assert (Hlang : Analyzer.detectLanguage tree = "javascript").
    { unfold Analyzer.detectLanguage. cbv zeta. now rewrite lookup_includes, Hpkg. }
    assert (Hdeps : DependencyAnalyzer.analyzeDependencies (Analyzer.JSON_parse w) tree
                      "javascript" = Throw SyntaxError).
    { cbn. unfold DependencyAnalyzer.analyzeJavaScriptDependencies.
      rewrite Hpkg. cbn. now rewrite Hparse. }
    rewrite Hlang, Hdeps in Hrun. auto.
  - intros Hnopkg Hreq r.
    assert (Hlang : Analyzer.detectLanguage tree = "python").
    { unfold Analyzer.detectLanguage. cbv zeta.
      now rewrite !lookup_includes, Hnopkg, Hreq. }
    assert (Hdeps : DependencyAnalyzer.analyzeDependencies (Analyzer.JSON_parse w) tree
                      "python" = Ok r).
    { cbn. unfold DependencyAnalyzer.analyzePythonDependencies. now rewrite Hreq. }
    rewrite Hlang, Hdeps in Hrun. repeat split; auto;
      eapply malformed_line_skipped; eassumption.
Qed.

Lemma C3_malformed_manifests_witness :
  (JsString.includes Scenario.appUrl "demo" = false /\
   Analyzer.git_clone Scenario.brokenWorld Scenario.appUrl = Ok Scenario.brokenRepo /\
   JsObject.lookup "package.json" Scenario.brokenRepo = Some (File Scenario.brokenManifest) /\
   Analyzer.JSON_parse Scenario.brokenWorld Scenario.brokenManifest = Throw SyntaxError /\
   fst (Analyzer.analyzeRepository Scenario.brokenWorld Scenario.appUrl Scenario.freshState)
     = Throw SyntaxError) /\
  (Analyzer.git_clone Scenario.pythonWorld Scenario.appUrl = Ok Scenario.pythonRepo /\
   JsObject.lookup "package.json" Scenario.pythonRepo = None /\
   JsObject.lookup "requirements.txt" Scenario.pythonRepo
     = Some (File Scenario.oddRequirements) /\
   fst (Analyzer.analyzeRepository Scenario.pythonWorld Scenario.appUrl Scenario.freshState)
     = Ok (Spec.reportOf Scenario.pythonWorld Scenario.appUrl Scenario.pythonRepo
             (DependencyAnalyzer.Python.analyzeRequirements Scenario.oddRequirements)) /\
   DependencyAnalyzer.Python.keptLines Scenario.oddRequirements
     = ["django==3.2"; "./vendor/pkg"; "flask"] /\
   DependencyAnalyzer.Python.matchRequirement "./vendor/pkg" = None /\
   total (DependencyAnalyzer.Python.analyzeRequirements Scenario.oddRequirements) = 3).
Proof.
  split.
  - refine (conj eq_refl (conj eq_refl (conj eq_refl (conj eq_refl _)))).
    apply (proj1 (C3_malformed_manifests Scenario.brokenWorld Scenario.appUrl
                    Scenario.freshState Scenario.brokenRepo Scenario.brokenManifest
                    Scenario.oddRequirements eq_refl eq_refl) eq_refl eq_refl).
  - refine (conj eq_refl (conj eq_refl (conj eq_refl _))).
    pose proof (proj2 (C3_malformed_manifests Scenario.pythonWorld Scenario.appUrl
                         Scenario.freshState Scenario.pythonRepo Scenario.brokenManifest
                         Scenario.oddRequirements eq_refl eq_refl) eq_refl eq_refl) as T.
    cbv zeta in T. destruct T as [_ [Hrun Hskip]].
    split; [exact Hrun|]. split; [reflexivity|]. split; [reflexivity|].
    exact (proj2 (proj2 (Hskip ["django==3.2"] "./vendor/pkg" ["flask"] eq_refl eq_refl))).
Defined.

(** C3 (as stated) fails on the JavaScript path: it is not so that the
    dependency analyzer returns an analysis whenever package.json exists
    and the parser rejects its text. *)
Lemma C3_invalid_json_counterexample :
  ~ (forall (JSON_parse : string -> result json) (repo : Tree) (text : string),
       JsObject.lookup "package.json" repo = Some (File text) ->
       JSON_parse text = Throw SyntaxError ->
       exists r, DependencyAnalyzer.analyzeDependencies JSON_parse repo "javascript" = Ok r).
Proof.
  intros H.
  destruct (H (Analyzer.JSON_parse Scenario.brokenWorld) Scenario.brokenRepo
              Scenario.brokenManifest eq_refl eq_refl) as [r Hr].
  vm_compute in Hr. discriminate.
Qed.

(** ** The demo short circuit *)

(** C10. For every reference that contains demo as a substring, the run
    returns the hardcoded demo report, whose repository name is
    vulnerable-todo-app and whose dependency total is 4.  The only call it
    makes is the one that ensures the temporary directory: nothing is
    cloned, no analyzer is invoked, and what lies at the checkout path is
    left as it was. *)
Theorem C10_demo_short_circuit (w : Analyzer.World) (repoUrl : string)
    (s : Analyzer.State) :
  JsString.includes repoUrl "demo" = true ->
  Analyzer.analyzeRepository w repoUrl s =
    (Ok Analyzer.analyzeDemoRepository,
     {| Analyzer.checkout := Analyzer.checkout s;
        Analyzer.calls := List.app (Analyzer.calls s) [Analyzer.EnsureDir] |}) /\
  repo_name (repository Analyzer.analyzeDemoRepository) = "vulnerable-todo-app" /\
  total (dependencies Analyzer.analyzeDemoRepository) = 4.
Proof.
  intros Hdemo. repeat split. unfold_run. rewrite Hdemo. reflexivity.
Qed.

Lemma C10_demo_short_circuit_witness :
  JsString.includes Scenario.demoAppUrl "demo" = true /\
  Analyzer.analyzeRepository Scenario.brokenWorld Scenario.demoAppUrl Scenario.freshState =
    (Ok Analyzer.analyzeDemoRepository,
     {| Analyzer.checkout := None; Analyzer.calls := [Analyzer.EnsureDir] |}).
Proof.
  split; [reflexivity|].
  apply (proj1 (C10_demo_short_circuit Scenario.brokenWorld Scenario.demoAppUrl
                  Scenario.freshState eq_refl)).
Defined.

(** ** Sanity checks of the string and version primitives *)

Example trim_strips_both_ends : JsString.trim "  a b	 " = "a b".
Proof. reflexivity. Qed.

Example split_lines_keeps_last_piece :
  JsString.split_lines (String "a" (String JsString.LF EmptyString)) = ["a"; EmptyString].
Proof. reflexivity. Qed.

Example toLowerCase_ascii : JsString.toLowerCase "Use of EVAL()" = "use of eval()".
Proof. reflexivity. Qed.

Example extname_cases :
  map Path.extname
    ["src/index.JS"; ".bashrc"; "a.b.c"; "noext"; "a."; ".."; "x.d/.x.py"; "x.d/y"]
  = [".JS"; EmptyString; ".c"; EmptyString; "."; EmptyString; ".py"; EmptyString].
Proof. reflexivity. Qed.

Example varMatch_cases :
  map StaticAnalyzer.varMatch
    ["const query = 1"; "mylet  x_1-2"; "var"; "let ;"; "constant"]
  = [Some "query"; Some "x_1"; None; None; None].
Proof. reflexivity. Qed.

Example semver_lt_cases :
  map (fun p => Semver.lt (fst p) (snd p))
    [("4.17.4", "4.17.21"); ("4.17.21", "4.17.21"); ("1.0.0-beta.2", "1.0.0-beta.11");
     ("1.0.0-rc.1", "1.0.0"); ("latest", "1.0.0"); ("01.2.3", "2.0.0");
     (" v1.2.3 ", "1.2.4"); ("1.2", "1.2.4")]
  = [Ok true; Ok false; Ok true; Ok true; Throw TypeError; Throw TypeError;
     Ok true; Throw TypeError].
Proof. vm_compute. reflexivity. Qed.

Example extractRepoName_cases :
  map Analyzer.extractRepoName
    ["https://github.com/acme/app.git"; "https://github.com/acme/app/"; "x";
     "https://github.com/acme/demo-app"]
  = ["app"; "app"; "unknown-repo"; "demo-repo"].
Proof. vm_compute. reflexivity. Qed.

Example matchRequirement_cases :
  map DependencyAnalyzer.Python.matchRequirement
    ["django==3.2"; "flask"; "-r other.txt"; " numpy"; "pandas>="; "./vendor/pkg"]
  = [Some ("django", Some "==", Some "3.2"); Some ("flask", None, None);
     Some ("-r", None, Some " other.txt"); None; Some ("pandas", Some ">=", None);
     None].
Proof. vm_compute. reflexivity. Qed.

(* ================================================================= *)
(** * Further properties *)

(** ** The run: cleanup, failures and the order of the stages *)

(** X1. Whatever a run on a reference without demo in it does (the clone
    fails, the dependency analyzer throws, or a report is returned),
    nothing is left at the checkout path when it ends, also when an
    earlier run had left a checkout there. *)
Theorem X1_run_leaves_no_checkout (w : Analyzer.World) (repoUrl : string)
    (s : Analyzer.State) :
  JsString.includes repoUrl "demo" = false ->
  Analyzer.checkout (snd (Analyzer.analyzeRepository w repoUrl s)) = None.
Proof.
  intros Hdemo. unfold_run.
  rewrite Hdemo, (eqb_demo_includes _ Hdemo). cbn [orb].
  destruct (Analyzer.checkout s); cbn;
    destruct (Analyzer.git_clone w repoUrl); cbn;
    try destruct (DependencyAnalyzer.analyzeDependencies _ _ _); reflexivity.
Qed.

Lemma X1_run_leaves_no_checkout_witness :
  JsString.includes Scenario.appUrl "demo" = false /\
  Analyzer.checkout Fixture.staleState = Some Scenario.brokenRepo /\
  Analyzer.checkout
    (snd (Analyzer.analyzeRepository Scenario.brokenWorld Scenario.appUrl
            Fixture.staleState)) = None.
Proof.
  refine (conj eq_refl (conj eq_refl _)).
  apply (X1_run_leaves_no_checkout Scenario.brokenWorld Scenario.appUrl
           Fixture.staleState eq_refl).
Defined.

(** X2. When the clone fails, the run throws the clone's error and stops
    there: after ensuring the temporary directory and removing a stale
    checkout, the clone is the last call; no language detection, analyzer
    or summarizer is invoked. *)
Theorem X2_clone_failure_is_fatal (w : Analyzer.World) (repoUrl : string)
    (s : Analyzer.State) (e : Exn) :
  JsString.includes repoUrl "demo" = false ->
  Analyzer.git_clone w repoUrl = Throw e ->
  Analyzer.analyzeRepository w repoUrl s =
    (Throw e,
     {| Analyzer.checkout := None;
        Analyzer.calls :=
          List.app (Analyzer.calls s)
            (Analyzer.EnsureDir ::
             List.app (Fixture.removeStale s) [Analyzer.Clone repoUrl]) |}).
Proof.
  intros Hdemo Hclone. unfold_run. unfold Fixture.removeStale.
  rewrite Hdemo, (eqb_demo_includes _ Hdemo). cbn [orb]. rewrite Hclone.
  destruct s as [[tree|] calls]; cbn; repeat rewrite <- app_assoc; reflexivity.
Qed.

Lemma X2_clone_failure_is_fatal_witness :
  JsString.includes Scenario.appUrl "demo" = false /\
  Analyzer.git_clone Fixture.offlineWorld Scenario.appUrl = Throw GitError /\
  Analyzer.analyzeRepository Fixture.offlineWorld Scenario.appUrl Fixture.staleState =
    (Throw GitError,
     {| Analyzer.checkout := None;
        Analyzer.calls := [Analyzer.EnsureDir; Analyzer.Remove;
                           Analyzer.Clone Scenario.appUrl] |}).
Proof.
  refine (conj eq_refl (conj eq_refl _)).
  apply (X2_clone_failure_is_fatal Fixture.offlineWorld Scenario.appUrl
           Fixture.staleState GitError eq_refl eq_refl).
Defined.

(** X3. When the clone and the dependency analysis succeed, the run
    returns the report built from the clone (name from the reference,
    language as detected) and has called its collaborators in this order:
    ensure the directory, remove a stale checkout, clone, detect the
    language, analyze dependencies, run the static analysis, summarize,
    remove the checkout. *)
Theorem X3_stages_in_order (w : Analyzer.World) (repoUrl : string)
    (s : Analyzer.State) (tree : Tree) (deps : DependencyAnalysis) :
  JsString.includes repoUrl "demo" = false ->
  Analyzer.git_clone w repoUrl = Ok tree ->
  DependencyAnalyzer.analyzeDependencies (Analyzer.JSON_parse w) tree
    (Analyzer.detectLanguage tree) = Ok deps ->
  Analyzer.analyzeRepository w repoUrl s =
    (Ok (Spec.reportOf w repoUrl tree deps),
     {| Analyzer.checkout := None;
        Analyzer.calls :=
          List.app (Analyzer.calls s)
            (Analyzer.EnsureDir ::
             List.app (Fixture.removeStale s)
               [Analyzer.Clone repoUrl; Analyzer.DetectLanguage;
                Analyzer.AnalyzeDependencies (Analyzer.detectLanguage tree);
                Analyzer.RunStaticAnalysis (Analyzer.detectLanguage tree);
                Analyzer.GenerateAISummary; Analyzer.Remove]) |}).
Proof.
  intros Hdemo Hclone Hdeps. unfold_run. unfold Fixture.removeStale.
  rewrite Hdemo, (eqb_demo_includes _ Hdemo). cbn [orb]. rewrite Hclone.
  destruct s as [[stale|] calls]; cbn; rewrite Hdeps; cbn;
    repeat rewrite <- app_assoc; reflexivity.
Qed.

Lemma X3_stages_in_order_witness :
  JsString.includes Scenario.appUrl "demo" = false /\
  Analyzer.git_clone Scenario.pythonWorld Scenario.appUrl = Ok Scenario.pythonRepo /\
  DependencyAnalyzer.analyzeDependencies Scenario.parse Scenario.pythonRepo "python"
    = Ok (DependencyAnalyzer.Python.analyzeRequirements Scenario.oddRequirements) /\
  snd (Analyzer.analyzeRepository Scenario.pythonWorld Scenario.appUrl Scenario.freshState)
    = {| Analyzer.checkout := None;
         Analyzer.calls :=
           [Analyzer.EnsureDir; Analyzer.Clone Scenario.appUrl; Analyzer.DetectLanguage;
            Analyzer.AnalyzeDependencies "python"; Analyzer.RunStaticAnalysis "python";
            Analyzer.GenerateAISummary; Analyzer.Remove] |}.
Proof.
  refine (conj eq_refl (conj eq_refl (conj eq_refl _))).
  exact (f_equal snd
           (X3_stages_in_order Scenario.pythonWorld Scenario.appUrl Scenario.freshState
              Scenario.pythonRepo
              (DependencyAnalyzer.Python.analyzeRequirements Scenario.oddRequirements)
              eq_refl eq_refl eq_refl)).
Defined.

(** ** Strings *)

Lemma startsWith_nil (s : string) : JsString.startsWith s EmptyString = true.
Proof. destruct s; reflexivity. Qed.

Lemma includes_cons (c : ascii) (t needle : string) :
  JsString.includes (String c t) needle =
  JsString.startsWith (String c t) needle || JsString.includes t needle.
Proof. reflexivity. Qed.


Lemma startsWith_split (s p : string) :
  JsString.startsWith s p = true -> exists rest, s = p ++ rest.
Proof.
  revert s. induction p as [|c p IH]; intros s H.
  - exists s. reflexivity.
  - destruct s as [|d s]; simpl in H; [discriminate|].
    apply andb_true_iff in H. destruct H as [Hc Hp].
    apply Ascii.eqb_eq in Hc. subst d.
    destruct (IH s Hp) as [rest ->]. exists rest. reflexivity.
Qed.


Lemma includes_split (s needle : string) :
  JsString.includes s needle = true -> exists a b, s = a ++ needle ++ b.
Proof.
  induction s as [|c s IH]; intros H.
  - change (JsString.startsWith EmptyString needle || false = true) in H.
    rewrite orb_false_r in H.
    destruct (startsWith_split _ _ H) as [rest ->]. exists EmptyString, rest. reflexivity.
  - rewrite includes_cons in H. apply orb_true_iff in H. destruct H as [H|H].
    + destruct (startsWith_split _ _ H) as [rest ->]. exists EmptyString, rest. reflexivity.
    + destruct (IH H) as [a [b ->]]. exists (String c a), b. reflexivity.
Qed.

Lemma length_append (a b : string) :
  String.length (a ++ b) = String.length a + String.length b.
Proof. induction a as [|c a IH]; simpl; [reflexivity | now rewrite IH]. Qed.

Lemma append_nil_r (a : string) : a ++ EmptyString = a.
Proof. induction a as [|c a IH]; simpl; [reflexivity | now rewrite IH]. Qed.


Lemma substring0_length (n : nat) (s : string) :
  String.length (substring 0 n s) = Nat.min n (String.length s).
Proof.
  revert n. induction s as [|c s IH]; intros [|n]; simpl; try reflexivity.
  now rewrite IH.
Qed.


(** The character [c] occurs in [s]. *)
Lemma includes_char_cons (c d : ascii) (s : string) :
  JsString.includes (String d s) (String c EmptyString) =
  Ascii.eqb c d || JsString.includes s (String c EmptyString).
Proof.
  rewrite includes_cons. simpl JsString.startsWith.
  now rewrite startsWith_nil, andb_true_r.
Qed.

Lemma includes_char_nil (c : ascii) :
  JsString.includes EmptyString (String c EmptyString) = false.
Proof. reflexivity. Qed.

Lemma includes_char_app (c : ascii) (a b : string) :
  JsString.includes (a ++ b) (String c EmptyString) =
  JsString.includes a (String c EmptyString) || JsString.includes b (String c EmptyString).
Proof.
  induction a as [|d a IH].
  - reflexivity.
  - simpl append. rewrite !includes_char_cons, IH. now rewrite orb_assoc.
Qed.

Lemma substring0_no_char (c : ascii) (n : nat) (s : string) :
  JsString.includes s (String c EmptyString) = false ->
  JsString.includes (substring 0 n s) (String c EmptyString) = false.
Proof.
  revert n. induction s as [|d s IH]; intros [|n] H; simpl substring; try exact H.
  - reflexivity.
  - rewrite includes_char_cons in *. apply orb_false_iff in H. destruct H as [H1 H2].
    now rewrite H1, IH.
Qed.

Lemma basename_no_slash (p : string) : JsString.includes (Path.basename p) "/" = false.
Proof.
  induction p as [|c p IH]; [reflexivity|].
  simpl Path.basename. destruct (JsString.includes p "/") eqn:E; [exact IH|].
  destruct (Ascii.eqb_spec c "/"%char) as [->|Hne]; [exact E|].
  rewrite includes_char_cons, E, orb_false_r.
  destruct (Ascii.eqb_spec "/"%char c); congruence.
Qed.






(** ** The repository name *)




(** X4. The name under which a reference is cloned is never empty and
    never contains a slash, whatever the reference: it names one entry of
    the temporary directory. *)
Theorem X4_repo_name_is_one_segment (repoUrl : string) :
  Analyzer.extractRepoName repoUrl <> EmptyString /\
  JsString.includes (Analyzer.extractRepoName repoUrl) "/" = false.
Proof.
  unfold Analyzer.extractRepoName.
  destruct (JsString.includes repoUrl "demo"); [split; [discriminate | reflexivity]|].
  unfold Analyzer.matchGitName.
  destruct (JsString.includes repoUrl "/" &&
            Analyzer.endsWith (Path.basename repoUrl) ".git" &&
            (4 <? String.length (Path.basename repoUrl))%nat) eqn:Egit.
  - apply andb_true_iff in Egit. destruct Egit as [_ Hlen].
    apply Nat.ltb_lt in Hlen. split.
    + intros E. apply (f_equal String.length) in E.
      unfold Analyzer.dropLast in E. rewrite substring0_length in E. simpl in E. lia.
    + apply substring0_no_char, basename_no_slash.
  - unfold Analyzer.matchLastName.
    match goal with |- context [Path.basename ?u] => set (u0 := u) end.
    destruct (JsString.includes u0 "/" && negb (String.eqb (Path.basename u0) "")) eqn:Elast.
    + apply andb_true_iff in Elast. destruct Elast as [_ Hne].
      apply negb_true_iff, String.eqb_neq in Hne.
      split; [exact Hne | apply basename_no_slash].
    + split; [discriminate | reflexivity].
Qed.



(** ** The dependency analyzer, further *)

Lemma compareIdentifiers_refl (a : Semver.Identifier) :
  Semver.compareIdentifiers a a = Eq.
Proof.
  destruct a as [n | s]; cbn.
  - apply N.compare_refl.
  - now rewrite String.eqb_refl.
Qed.

Lemma compareIds_refl (l : list Semver.Identifier) : Semver.compareIds l l = Eq.
Proof.
  induction l as [| a l IH]; cbn; [reflexivity |].
  now rewrite compareIdentifiers_refl.
Qed.

Lemma compare_refl (v : Semver.SemVer) : Semver.compare v v = Eq.
Proof.
  unfold Semver.compare, Semver.compareMain, Semver.comparePre.
  rewrite !N.compare_refl.
  destruct (Semver.prerelease v) as [| a l] eqn:E; [reflexivity |].
  apply compareIds_refl.
Qed.

Lemma lt_irrefl (a : string) : Semver.lt a a <> Ok true.
Proof.
  unfold Semver.lt. destruct (Semver.parse a) as [v | e]; cbn; [| discriminate].
  now rewrite compare_refl.
Qed.

(** What one turn of the JavaScript loop pushes, when it returns. *)
Lemma checkDependency_Ok (name : string) (version : json)
    (out : list OutdatedDependency) (vul : list VulnerableDependency) :
  DependencyAnalyzer.JavaScript.checkDependency name version = Ok (out, vul) ->
  Extra.entryAccepted (name, version) = true /\
  vul = match JsObject.lookup name DependencyAnalyzer.JavaScript.mockVulnerabilities with
        | Some (vulnerability, severity) =>
            [{| v_name := name;
                v_version := match version with
                             | JStr declared => DependencyAnalyzer.JavaScript.stripRange declared
                             | _ => EmptyString
                             end;
                v_vulnerability := vulnerability; v_severity := severity |}]
        | None => []
        end /\
  length out <= 1 /\
  forall o, In o out ->
    o_name o = name /\
    JsObject.lookup name DependencyAnalyzer.JavaScript.mockLatestVersions = Some (o_latest o) /\
    Semver.lt (o_current o) (o_latest o) = Ok true /\
    DependencyAnalyzer.JavaScript.outdatedSeverity (o_current o) (o_latest o)
      = Ok (o_severity o).
Proof.
  unfold DependencyAnalyzer.JavaScript.checkDependency, Extra.entryAccepted.
  destruct version as [| b | d | declared | items | props]; try discriminate.
  cbn [fst snd].
  destruct (includesStr JsObject.objectPrototypeMembers name); [discriminate |].
  cbn [negb andb].
  destruct (JsObject.lookup name DependencyAnalyzer.JavaScript.mockLatestVersions)
    as [latest |] eqn:Elatest.
  - unfold Extra.parses.
    destruct (Semver.lt (DependencyAnalyzer.JavaScript.stripRange declared) latest)
      as [older | e] eqn:Elt; cbn [bindR]; [| discriminate].
    assert (Hparse : exists v, Semver.parse (DependencyAnalyzer.JavaScript.stripRange declared) = Ok v).
    { unfold Semver.lt in Elt.
      destruct (Semver.parse (DependencyAnalyzer.JavaScript.stripRange declared)) as [v | e];
        [now exists v | discriminate]. }
    destruct Hparse as [v ->].
    destruct older.
    + destruct (DependencyAnalyzer.JavaScript.outdatedSeverity
                  (DependencyAnalyzer.JavaScript.stripRange declared) latest)
        as [sev | e] eqn:Esev; cbn [bindR]; [| discriminate].
      intros H. injection H as <- <-.
      repeat split; cbn; try lia.
      all: try (destruct H as [<- | []]; cbn; auto).
    + cbn [bindR]. intros H. injection H as <- <-.
      repeat split; cbn; try lia; contradiction.
  - cbn [bindR]. intros H. injection H as <- <-.
    repeat split; cbn; try lia; contradiction.
Qed.

Lemma parse_Throw (version : string) (e : Exn) :
  Semver.parse version = Throw e -> e = TypeError.
Proof.
  unfold Semver.parse.
  repeat match goal with
         | |- context [if ?c then _ else _] => destruct c
         | |- context [let (_, _) := ?p in _] => destruct p
         | |- context [match ?l with [] => _ | _ :: _ => _ end] => destruct l
         end;
  intros H; try discriminate; now injection H as <-.
Qed.

(** When one turn throws, it throws a TypeError, and the entry is not an
    accepted one. *)
Lemma checkDependency_Throw (name : string) (version : json) (e : Exn) :
  DependencyAnalyzer.JavaScript.checkDependency name version = Throw e ->
  e = TypeError /\ Extra.entryAccepted (name, version) = false.
Proof.
  unfold DependencyAnalyzer.JavaScript.checkDependency, Extra.entryAccepted.
  destruct version as [| b | d | declared | items | props];
    try (intros H; injection H as <-; now split).
  cbn [fst snd].
  destruct (includesStr JsObject.objectPrototypeMembers name);
    [intros H; injection H as <-; now split |].
  cbn [negb andb].
  destruct (JsObject.lookup name DependencyAnalyzer.JavaScript.mockLatestVersions)
    as [latest |] eqn:Elatest; [| discriminate].
  assert (Hlatest : exists vl, Semver.parse latest = Ok vl).
  { cbn in Elatest.
    repeat match type of Elatest with
           | (if ?c then _ else _) = _ => destruct c
           end;
    try discriminate; injection Elatest as <-; vm_compute; eauto. }
  destruct Hlatest as [vl Hvl].
  unfold Extra.parses, Semver.lt, DependencyAnalyzer.JavaScript.outdatedSeverity,
    Semver.majorOf, Semver.minorOf.
  destruct (Semver.parse (DependencyAnalyzer.JavaScript.stripRange declared))
    as [v | e'] eqn:Eparse; cbn [bindR].
  - rewrite Hvl. cbn [bindR].
    destruct (Semver.compare v vl); cbn [bindR]; try discriminate.
    destruct (Semver.major v <? Semver.major vl)%N; cbn [bindR]; discriminate.
  - intros H. injection H as <-.
    split; [| reflexivity]. now apply parse_Throw in Eparse.
Qed.

(** The whole loop: it returns exactly on accepted entries, and what it
    throws is a TypeError. *)
Lemma checkAll_accepts (entries : JsObject.Obj) :
  match DependencyAnalyzer.JavaScript.checkAll entries with
  | Ok _ => forallb Extra.entryAccepted entries = true
  | Throw e => e = TypeError /\ forallb Extra.entryAccepted entries = false
  end.
Proof.
  induction entries as [| [name version] rest IH]; cbn [DependencyAnalyzer.JavaScript.checkAll forallb];
    [reflexivity |].
  destruct (DependencyAnalyzer.JavaScript.checkDependency name version) as [[out vul] | e] eqn:E;
    cbn [bindR].
  - apply checkDependency_Ok in E. destruct E as [-> _]. cbn [andb].
    destruct (DependencyAnalyzer.JavaScript.checkAll rest) as [more | e]; cbn [bindR]; exact IH.
  - apply checkDependency_Throw in E. destruct E as [-> ->]. now split.
Qed.

Lemma checkAll_Ok (entries : JsObject.Obj)
    (out : list OutdatedDependency) (vul : list VulnerableDependency) :
  DependencyAnalyzer.JavaScript.checkAll entries = Ok (out, vul) ->
  map v_name vul = filter Extra.isVulnerableName (JsObject.keys entries) /\
  (forall v, In v vul ->
     JsObject.lookup (v_name v) DependencyAnalyzer.JavaScript.mockVulnerabilities
       = Some (v_vulnerability v, v_severity v)) /\
  length out <= length entries /\
  length vul <= length entries /\
  forall o, In o out ->
    In (o_name o) (JsObject.keys entries) /\
    JsObject.lookup (o_name o) DependencyAnalyzer.JavaScript.mockLatestVersions
      = Some (o_latest o) /\
    Semver.lt (o_current o) (o_latest o) = Ok true /\
    DependencyAnalyzer.JavaScript.outdatedSeverity (o_current o) (o_latest o)
      = Ok (o_severity o).
Proof.
  revert out vul.
  induction entries as [| [name version] rest IH]; intros out vul;
    cbn [DependencyAnalyzer.JavaScript.checkAll].
  - intros H. injection H as <- <-. cbn. repeat split; try lia; contradiction.
  - intros H.
    apply bindR_Ok in H. destruct H as [[out1 vul1] [H1 H]].
    apply bindR_Ok in H. destruct H as [[out2 vul2] [H2 H]].
    cbn [fst snd] in H. injection H as <- <-.
    apply checkDependency_Ok in H1. destruct H1 as (_ & Hvul1 & Hlen1 & Hout1).
    specialize (IH _ _ H2). destruct IH as (IHnames & IHvul & IHlo & IHlv & IHout).
    assert (Hlv1 : length vul1 <= 1).
    { subst vul1.
      destruct (JsObject.lookup name DependencyAnalyzer.JavaScript.mockVulnerabilities)
        as [[? ?] |]; cbn; lia. }
    repeat split.
    + rewrite map_app, IHnames. cbn [JsObject.keys map fst filter].
      unfold Extra.isVulnerableName at 2. subst vul1.
      destruct (JsObject.lookup name DependencyAnalyzer.JavaScript.mockVulnerabilities)
        as [[? ?] |]; reflexivity.
    + intros v Hv. apply in_app_or in Hv. destruct Hv as [Hv | Hv]; [| now apply IHvul].
      subst vul1.
      destruct (JsObject.lookup name DependencyAnalyzer.JavaScript.mockVulnerabilities)
        as [[vulnerability sev] |] eqn:E; [| contradiction].
      destruct Hv as [<- | []]. exact E.
    + rewrite length_app. cbn [length]. lia.
    + rewrite length_app. cbn [length]. lia.
    + apply in_app_or in H. destruct H as [Ho | Ho].
      * destruct (Hout1 _ Ho) as (-> & _). now left.
      * right. now apply IHout.
    + apply in_app_or in H. destruct H as [Ho | Ho].
      * destruct (Hout1 _ Ho) as (Hn & Hl & _). now rewrite Hn.
      * now apply IHout.
    + apply in_app_or in H. destruct H as [Ho | Ho].
      * now apply Hout1.
      * now apply IHout.
    + apply in_app_or in H. destruct H as [Ho | Ho].
      * now apply Hout1.
      * now apply IHout.
Qed.

Lemma analyzeManifest_merged (packageJson : json) :
  packageJson <> JNull ->
  DependencyAnalyzer.JavaScript.analyzeManifest packageJson =
  bindR (DependencyAnalyzer.JavaScript.checkAll (Extra.merged packageJson))
    (fun found =>
       Ok {| total := length (JsObject.keys (Extra.merged packageJson));
             outdated := fst found; vulnerable := snd found |}).
Proof.
  intros Hnull.
  unfold DependencyAnalyzer.JavaScript.analyzeManifest, Extra.merged.
  destruct packageJson; try contradiction; reflexivity.
Qed.

Lemma analyzeManifest_Ok (packageJson : json) (r : DependencyAnalysis) :
  DependencyAnalyzer.JavaScript.analyzeManifest packageJson = Ok r ->
  packageJson <> JNull /\
  total r = length (Extra.merged packageJson) /\
  DependencyAnalyzer.JavaScript.checkAll (Extra.merged packageJson)
    = Ok (outdated r, vulnerable r).
Proof.
  intros H.
  assert (Hnull : packageJson <> JNull) by (intros ->; discriminate).
  split; [exact Hnull |].
  rewrite (analyzeManifest_merged _ Hnull) in H.
  apply bindR_Ok in H. destruct H as [[out vul] [Hall H]].
  injection H as <-. cbn [total outdated vulnerable fst snd].
  unfold JsObject.keys. rewrite length_map. now split.
Qed.

Lemma merged_declared (packageJson : json) (name : string) :
  In name (JsObject.keys (Extra.merged packageJson)) ->
  In name (Spec.declaredInManifest packageJson).
Proof.
  unfold Extra.merged, Spec.declaredInManifest.
  destruct (JsObject.getProp packageJson "dependencies") as [deps |]; [| contradiction].
  destruct (JsObject.getProp packageJson "devDependencies") as [devDeps |]; [| contradiction].
  unfold JsObject.spread2.
  destruct (fold_define_NoDup (JsObject.ownEntries deps) [] (NoDup_nil _)) as [Hnd1 Hin1].
  destruct (fold_define_NoDup (JsObject.ownEntries devDeps) _ Hnd1) as [_ Hin2].
  rewrite Hin2, Hin1, in_app_iff. cbn. tauto.
Qed.

(** X6. The JavaScript dependency analysis of a parsed package.json
    returns exactly when the manifest is not null and every entry of the
    merged dependencies object is one it can check: the declared version
    is a string, the name is no member of Object.prototype, and for a
    package of the table of latest versions the declared version, minus its
    first caret or tilde, is a version to semver.  In every other case it
    throws a TypeError. *)
Theorem X6_manifest_acceptance (packageJson : json) :
  match DependencyAnalyzer.JavaScript.analyzeManifest packageJson with
  | Ok _ =>
      packageJson <> JNull /\
      forallb Extra.entryAccepted (Extra.merged packageJson) = true
  | Throw e =>
      e = TypeError /\
      (packageJson = JNull \/
       forallb Extra.entryAccepted (Extra.merged packageJson) = false)
  end.
Proof.
  destruct packageJson as [| b | d | s | items | props] eqn:E;
    [cbn; split; [reflexivity | now left] | | | | |].
  all: rewrite analyzeManifest_merged by discriminate.
  all: pose proof (checkAll_accepts (Extra.merged packageJson)) as H; subst packageJson.
  all: destruct (DependencyAnalyzer.JavaScript.checkAll _) as [found | e]; cbn [bindR].
  all: try (split; [discriminate | exact H]).
  all: destruct H as [-> H]; split; [reflexivity | now right].
Qed.

Lemma X6_manifest_acceptance_witness :
  DependencyAnalyzer.JavaScript.analyzeManifest Fixture.latestManifest = Throw TypeError /\
  match DependencyAnalyzer.JavaScript.analyzeManifest Fixture.latestManifest with
  | Ok _ =>
      Fixture.latestManifest <> JNull /\
      forallb Extra.entryAccepted (Extra.merged Fixture.latestManifest) = true
  | Throw e =>
      e = TypeError /\
      (Fixture.latestManifest = JNull \/
       forallb Extra.entryAccepted (Extra.merged Fixture.latestManifest) = false)
  end.
Proof.
  exact (conj eq_refl (X6_manifest_acceptance Fixture.latestManifest)).
Defined.

(** X7. Every outdated record of the JavaScript analysis is sound: its
    name is declared in the manifest, its latest version is the one of the
    table, its current version is strictly older by semver's order (so it
    differs from the latest), and its severity is the one of the
    major/minor rule. *)
Theorem X7_outdated_is_older (packageJson : json) (r : DependencyAnalysis)
    (o : OutdatedDependency) :
  DependencyAnalyzer.JavaScript.analyzeManifest packageJson = Ok r ->
  In o (outdated r) ->
  In (o_name o) (Spec.declaredInManifest packageJson) /\
  JsObject.lookup (o_name o) DependencyAnalyzer.JavaScript.mockLatestVersions
    = Some (o_latest o) /\
  Semver.lt (o_current o) (o_latest o) = Ok true /\
  o_current o <> o_latest o /\
  DependencyAnalyzer.JavaScript.outdatedSeverity (o_current o) (o_latest o)
    = Ok (o_severity o).
Proof.
  intros H Ho.
  apply analyzeManifest_Ok in H. destruct H as (_ & _ & Hall).
  apply checkAll_Ok in Hall. destruct Hall as (_ & _ & _ & _ & Hout).
  destruct (Hout _ Ho) as (Hname & Hlatest & Hlt & Hsev).
  repeat split; auto.
  - now apply merged_declared.
  - intros Heq. rewrite Heq in Hlt. now apply lt_irrefl in Hlt.
Qed.

Lemma X7_outdated_is_older_witness :
  DependencyAnalyzer.JavaScript.analyzeManifest Scenario.lodashManifest
    = Ok (Scenario.lodashAnalysis o_low) /\
  In (Scenario.lodashOutdated o_low) (outdated (Scenario.lodashAnalysis o_low)) /\
  Semver.lt (o_current (Scenario.lodashOutdated o_low))
            (o_latest (Scenario.lodashOutdated o_low)) = Ok true.
Proof.
  refine (conj eq_refl (conj (or_introl eq_refl) _)).
  apply (X7_outdated_is_older Scenario.lodashManifest (Scenario.lodashAnalysis o_low)
           (Scenario.lodashOutdated o_low)).
  - reflexivity.
  - left. reflexivity.
Defined.

(** X8. Vulnerabilities are reported by name alone: the vulnerable records
    of the JavaScript analysis are, in property order, the declared names
    that the table of vulnerabilities lists, each once and whatever version
    is declared, with the table's description and severity. *)
Theorem X8_vulnerable_by_name (packageJson : json) (r : DependencyAnalysis) :
  DependencyAnalyzer.JavaScript.analyzeManifest packageJson = Ok r ->
  map v_name (vulnerable r)
    = filter Extra.isVulnerableName (JsObject.keys (Extra.merged packageJson)) /\
  NoDup (map v_name (vulnerable r)) /\
  forall v, In v (vulnerable r) ->
    In (v_name v) (Spec.declaredInManifest packageJson) /\
    JsObject.lookup (v_name v) DependencyAnalyzer.JavaScript.mockVulnerabilities
      = Some (v_vulnerability v, v_severity v).
Proof.
  intros H.
  apply analyzeManifest_Ok in H. destruct H as (Hnull & _ & Hall).
  apply checkAll_Ok in Hall. destruct Hall as (Hnames & Hvul & _).
  assert (Hnd : NoDup (JsObject.keys (Extra.merged packageJson))).
  { unfold Extra.merged.
    destruct (JsObject.getProp packageJson "dependencies") as [deps |]; [| constructor].
    destruct (JsObject.getProp packageJson "devDependencies") as [devDeps |]; [| constructor].
    unfold JsObject.spread2.
    destruct (fold_define_NoDup (JsObject.ownEntries deps) [] (NoDup_nil _)) as [Hnd1 _].
    now destruct (fold_define_NoDup (JsObject.ownEntries devDeps) _ Hnd1) as [Hnd2 _]. }
  split; [exact Hnames |]. split.
  - rewrite Hnames. now apply NoDup_filter.
  - intros v Hv. split; [| now apply Hvul].
    apply merged_declared.
    assert (Hin : In (v_name v) (map v_name (vulnerable r))) by now apply in_map.
    rewrite Hnames in Hin. now apply filter_In in Hin.
Qed.

Lemma X8_vulnerable_by_name_witness :
  DependencyAnalyzer.JavaScript.analyzeManifest Scenario.lodashManifest
    = Ok (Scenario.lodashAnalysis o_low) /\
  map v_name (vulnerable (Scenario.lodashAnalysis o_low)) = ["lodash"].
Proof.
  split; [reflexivity |].
  exact (proj1 (X8_vulnerable_by_name Scenario.lodashManifest
                  (Scenario.lodashAnalysis o_low) eq_refl)).
Defined.

(** ** requirements.txt *)

Lemma span_spec (p : ascii -> bool) (s a b : string) :
  JsString.span p s = (a, b) ->
  s = a ++ b /\ JsString.forallb p a = true /\ Extra.stopsAt p b = true.
Proof.
  revert a b. induction s as [| c t IH]; intros a b; cbn [JsString.span].
  - intros H. injection H as <- <-. now repeat split.
  - destruct (p c) eqn:Ec.
    + destruct (JsString.span p t) as [a' b'] eqn:Espan.
      intros H. injection H as <- <-.
      destruct (IH _ _ eq_refl) as (-> & Ha & Hb).
      repeat split; [| exact Hb]. cbn [JsString.forallb]. now rewrite Ec, Ha.
    + intros H. injection H as <- <-. repeat split. cbn. now rewrite Ec.
Qed.



Lemma forallb_includes_char (p : ascii -> bool) (s : string) (c : ascii) :
  JsString.forallb p s = true ->
  JsString.includes s (String c EmptyString) = true -> p c = true.
Proof.
  induction s as [| d t IH]; [now rewrite includes_char_nil |].
  cbn [JsString.forallb]. rewrite includes_char_cons.
  intros Hall Hin. apply andb_true_iff in Hall. destruct Hall as [Hd Ht].
  apply orb_true_iff in Hin. destruct Hin as [Heq | Hin]; [| now apply IH].
  apply Ascii.eqb_eq in Heq. now subst.
Qed.

(** A line with a carriage return in it does not parse. *)
Lemma matchRequirement_CR (line : string) :
  JsString.includes line (String JsString.CR EmptyString) = true ->
  DependencyAnalyzer.Python.matchRequirement line = None.
Proof.
  intros Hcr. unfold DependencyAnalyzer.Python.matchRequirement.
  destruct (JsString.span DependencyAnalyzer.Python.isNameChar line) as [name rest] eqn:Espan.
  apply span_spec in Espan. destruct Espan as (-> & Hname & _).
  destruct (String.eqb name EmptyString); [reflexivity |].
  destruct (JsString.forallb (fun c => negb (DependencyAnalyzer.Python.isLineTerminator c)) rest)
    eqn:Erest; [| reflexivity].
  exfalso.
  rewrite includes_char_app in Hcr. apply orb_true_iff in Hcr. destruct Hcr as [Hcr | Hcr].
  - pose proof (forallb_includes_char _ _ _ Hname Hcr) as H. discriminate H.
  - pose proof (forallb_includes_char _ _ _ Erest Hcr) as H. discriminate H.
Qed.

Lemma flat_map_nil {A B} (f : A -> list B) (l : list A) :
  (forall x, In x l -> f x = []) -> flat_map f l = [].
Proof.
  induction l as [| x r IH]; intros H; cbn; [reflexivity |].
  rewrite (H x (or_introl eq_refl)), IH; [reflexivity |].
  intros y Hy. apply H. now right.
Qed.

(** X10. A requirements.txt with Windows line endings is analyzed to
    nothing: a kept line that contains a carriage return matches the
    requirement pattern nowhere, so when every kept line has one (each line
    ends in CR LF) no record is produced, while [total] still counts the
    lines. *)
Theorem X10_carriage_returns_hide_requirements (requirementsContent : string) :
  (forall line, In line (DependencyAnalyzer.Python.keptLines requirementsContent) ->
                JsString.includes line (String JsString.CR EmptyString) = true) ->
  let r := DependencyAnalyzer.Python.analyzeRequirements requirementsContent in
  outdated r = [] /\ vulnerable r = [] /\
  total r = length (DependencyAnalyzer.Python.keptLines requirementsContent) /\
  Spec.declaredInRequirements requirementsContent = [].
Proof.
  intros Hcr. cbn.
  assert (Hline : forall line,
             In line (DependencyAnalyzer.Python.keptLines requirementsContent) ->
             DependencyAnalyzer.Python.checkLine line = ([], [])).
  { intros line Hin. unfold DependencyAnalyzer.Python.checkLine.
    now rewrite (matchRequirement_CR _ (Hcr _ Hin)). }
  repeat split.
  - apply flat_map_nil. intros l Hl. now rewrite (Hline _ Hl).
  - apply flat_map_nil. intros l Hl. now rewrite (Hline _ Hl).
  - unfold Spec.declaredInRequirements. apply flat_map_nil. intros l Hl.
    now rewrite (matchRequirement_CR _ (Hcr _ Hl)).
Qed.

Lemma X10_carriage_returns_hide_requirements_witness :
  DependencyAnalyzer.Python.keptLines Fixture.windowsRequirements
    = ["django==3.2" ++ String JsString.CR EmptyString;
       "requests" ++ String JsString.CR EmptyString] /\
  outdated (DependencyAnalyzer.Python.analyzeRequirements Fixture.windowsRequirements) = [] /\
  vulnerable (DependencyAnalyzer.Python.analyzeRequirements Fixture.windowsRequirements) = [] /\
  total (DependencyAnalyzer.Python.analyzeRequirements Fixture.windowsRequirements) = 2.
Proof.
  refine (conj eq_refl _).
  assert (H : forall line,
             In line (DependencyAnalyzer.Python.keptLines Fixture.windowsRequirements) ->
             JsString.includes line (String JsString.CR EmptyString) = true).
  { intros line [<- | [<- | []]]; reflexivity. }
  destruct (X10_carriage_returns_hide_requirements Fixture.windowsRequirements H)
    as (Ho & Hv & Ht & _).
  exact (conj Ho (conj Hv Ht)).
Defined.





(** ** Languages without an analyzer *)

Lemma detectLanguage_range (repo : Tree) :
  In (Analyzer.detectLanguage repo)
     ["javascript"; "python"; "rust"; "go"; "java"; "unknown"].
Proof.
  unfold Analyzer.detectLanguage.
  repeat match goal with
         | |- context [if ?c then _ else _] => destruct c
         end;
  cbn; tauto.
Qed.

(** X13. A repository in a language other than JavaScript and Python gets
    the all-clear: the detected language is then rust, go, java or unknown,
    no analyzer runs on it, and without an API key the report says zero
    dependencies, zero files analyzed, low risk and the three generic
    recommendations, whatever the checkout contains. *)
Theorem X13_unsupported_language_all_clear (w : Analyzer.World) (repoUrl : string)
    (s : Analyzer.State) (tree : Tree) :
  JsString.includes repoUrl "demo" = false ->
  Analyzer.git_clone w repoUrl = Ok tree ->
  Analyzer.OPENROUTER_API_KEY w = None ->
  Analyzer.detectLanguage tree <> "javascript" ->
  Analyzer.detectLanguage tree <> "python" ->
  In (Analyzer.detectLanguage tree) ["rust"; "go"; "java"; "unknown"] /\
  fst (Analyzer.analyzeRepository w repoUrl s) =
    Ok {| repository := {| repo_name := Analyzer.extractRepoName repoUrl;
                           repo_url := repoUrl;
                           repo_language := Analyzer.detectLanguage tree |};
          dependencies := DependencyAnalyzer.zeroValue;
          staticAnalysis := Extra.zeroStatic;
          aiSummary :=
            Summary
              {| riskLevel := low;
                 summaryText :=
                   "This repository has been classified as low risk. " ++
                   "The repository appears to be in good condition with only minor issues.";
                 recommendations :=
                   ["Continue following security best practices";
                    "Keep dependencies updated regularly";
                    "Maintain good code quality standards"];
                 priorityFixes := [] |} |}.
Proof.
  intros Hdemo Hclone Hkey Hjs Hpy.
  split.
  - pose proof (detectLanguage_range tree) as H. cbn in H. cbn.
    intuition congruence.
  - destruct (analyzeRepository_cloned w repoUrl s tree Hdemo Hclone) as [-> _].
    apply String.eqb_neq in Hjs, Hpy.
    unfold DependencyAnalyzer.analyzeDependencies. rewrite Hjs, Hpy.
    unfold Spec.reportOf, StaticAnalyzer.runStaticAnalysis, AiService.generateAISummary.
    rewrite Hjs, Hpy, Hkey. reflexivity.
Qed.

Lemma X13_unsupported_language_all_clear_witness :
  JsString.includes Scenario.appUrl "demo" = false /\
  Analyzer.git_clone Fixture.rustWorld Scenario.appUrl = Ok Fixture.rustRepo /\
  Analyzer.detectLanguage Fixture.rustRepo = "rust" /\
  exists report,
    fst (Analyzer.analyzeRepository Fixture.rustWorld Scenario.appUrl Scenario.freshState)
      = Ok report /\
    total (dependencies report) = 0 /\
    totalFiles (summary (staticAnalysis report)) = 0.
Proof.
  refine (conj eq_refl (conj eq_refl (conj eq_refl _))).
  destruct (X13_unsupported_language_all_clear Fixture.rustWorld Scenario.appUrl
              Scenario.freshState Fixture.rustRepo eq_refl eq_refl eq_refl)
    as [_ H]; [discriminate | discriminate |].
  eexists. split; [exact H | split; reflexivity].
Defined.

(** ** The static analyzer, further *)

Lemma forEachIndexed_In {A B} (f : nat -> A -> list B) (l : list A) (index : nat) (y : B) :
  In y (StaticAnalyzer.forEachIndexed f index l) ->
  exists k x, nth_error l k = Some x /\ In y (f (index + k) x).
Proof.
  revert index. induction l as [| x r IH]; intros index; cbn; [contradiction |].
  intros H. apply in_app_or in H. destruct H as [H | H].
  - exists 0, x. rewrite Nat.add_0_r. now split.
  - destruct (IH _ H) as (k & x' & Hnth & Hin).
    exists (S k), x'. split; [exact Hnth |]. now rewrite Nat.add_succ_r.
Qed.

Ltac one_finding H :=
  match type of H with
  | In _ (StaticAnalyzer.emit ?c _) =>
      unfold StaticAnalyzer.emit in H; destruct c; [destruct H as [<- | []] | destruct H]
  | In _ (if ?c then _ else _) =>
      destruct c; [destruct H as [<- | []] | destruct H]
  | In _ [] => destruct H
  end.

Lemma checkJavaScriptLine_In (relativePath content : string) (index : nat)
    (l : string) (e : StaticFinding) :
  In e (StaticAnalyzer.checkJavaScriptLine relativePath content index l) ->
  file e = relativePath /\ line e = index + 1 /\ rule e <> None /\ severity e <> info.
Proof.
  unfold StaticAnalyzer.checkJavaScriptLine. cbn [List.concat].
  intros H.
  repeat (apply in_app_or in H; destruct H as [H | H]; [one_finding H; now cbn |]).
  apply in_app_or in H. destruct H as [H | []].
  destruct (StaticAnalyzer.varMatch (JsString.trim l)); one_finding H; now cbn.
Qed.

Lemma checkPythonLine_In (relativePath : string) (lines : list string) (index : nat)
    (l : string) (e : StaticFinding) :
  In e (StaticAnalyzer.checkPythonLine relativePath lines index l) ->
  file e = relativePath /\ line e = index + 1 /\ rule e <> None /\
  (severity e = info <-> rule e = Some "missing-docstring").
Proof.
  unfold StaticAnalyzer.checkPythonLine. cbn [List.concat].
  intros H.
  repeat (apply in_app_or in H; destruct H as [H | H];
          [one_finding H; cbn; repeat split; intros; discriminate |]).
  destruct H.
Qed.

(** X14. Every finding of the static analysis points into a scanned file:
    its file is one that the traversal found for the language, its line
    number is between 1 and the number of lines of that file, and it names
    a rule. *)
Theorem X14_findings_point_into_files (repo : Tree) (language : string)
    (e : StaticFinding) :
  In e (errors (StaticAnalyzer.runStaticAnalysis repo language)) ->
  rule e <> None /\
  exists content,
    In (file e, content)
       (StaticAnalyzer.findFiles repo
          (if String.eqb language "javascript" then [".js"; ".jsx"; ".ts"; ".tsx"]
           else [".py"])) /\
    1 <= line e <= length (JsString.split_lines content).
Proof.
  unfold StaticAnalyzer.runStaticAnalysis.
  destruct (String.eqb language "javascript");
    [| destruct (String.eqb language "python"); [| contradiction]].
  - cbn [errors StaticAnalyzer.analyzeJavaScript]. intros H.
    apply in_flat_map in H. destruct H as [[path content] [Hf H]]. cbn [fst snd] in H.
    apply forEachIndexed_In in H. destruct H as (k & l & Hnth & H).
    apply checkJavaScriptLine_In in H. destruct H as (Hfile & Hline & Hrule & _).
    split; [exact Hrule |]. exists content. rewrite Hfile. split; [exact Hf |].
    assert (k < length (JsString.split_lines content))
      by (apply nth_error_Some; congruence).
    lia.
  - cbn [errors StaticAnalyzer.analyzePython]. intros H.
    apply in_flat_map in H. destruct H as [[path content] [Hf H]]. cbn [fst snd] in H.
    apply forEachIndexed_In in H. destruct H as (k & l & Hnth & H).
    apply checkPythonLine_In in H. destruct H as (Hfile & Hline & Hrule & _).
    split; [exact Hrule |]. exists content. rewrite Hfile. split; [exact Hf |].
    assert (k < length (JsString.split_lines content))
      by (apply nth_error_Some; congruence).
    lia.
Qed.

Lemma X14_findings_point_into_files_witness :
  exists content,
    In ("app.js", content)
       (StaticAnalyzer.findFiles Scenario.sqlRepo [".js"; ".jsx"; ".ts"; ".tsx"]) /\
    1 <= 1 <= length (JsString.split_lines content).
Proof.
  refine (proj2 (X14_findings_point_into_files Scenario.sqlRepo "javascript"
                   (StaticAnalyzer.finding "app.js" 1 "Potential SQL injection vulnerability"
                      error "security/detect-sql-injection") _)).
  left. reflexivity.
Defined.

(** X15. The JavaScript checks raise errors and warnings only, so the
    summary of a JavaScript analysis accounts for every finding:
    [totalErrors + totalWarnings] is the number of findings.  On the Python
    path the findings of severity info are exactly those of the rule
    missing-docstring, and they are the ones the summary leaves out. *)
Theorem X15_summary_accounts_for_findings (repo : Tree) :
  (let r := StaticAnalyzer.analyzeJavaScript repo in
   (forall e, In e (errors r) -> severity e <> info) /\
   totalErrors (summary r) + totalWarnings (summary r) = length (errors r)) /\
  (let r := StaticAnalyzer.analyzePython repo in
   (forall e, In e (errors r) ->
      (severity e = info <-> rule e = Some "missing-docstring")) /\
   totalErrors (summary r) + totalWarnings (summary r) + Spec.howMany Spec.isInfo (errors r)
     = length (errors r)).
Proof.
  split.
  - cbn zeta.
    assert (Hinfo : forall e, In e (errors (StaticAnalyzer.analyzeJavaScript repo)) ->
                              severity e <> info).
    { cbn [errors StaticAnalyzer.analyzeJavaScript]. intros e H.
      apply in_flat_map in H. destruct H as [[path content] [_ H]].
      apply forEachIndexed_In in H. destruct H as (k & l & _ & H).
      now apply checkJavaScriptLine_In in H. }
    split; [exact Hinfo |].
    cbn [summary totalErrors totalWarnings StaticAnalyzer.analyzeJavaScript errors] in *.
    rewrite countSeverity_error, countSeverity_warning.
    rewrite <- (howMany_severity_bound (flat_map _ _)).
    assert (Hz : Spec.howMany Spec.isInfo
                   (flat_map (fun f => StaticAnalyzer.scanJavaScriptFile (fst f) (snd f))
                      (StaticAnalyzer.findFiles repo [".js"; ".jsx"; ".ts"; ".tsx"])) = 0).
    { apply howMany_zero_iff. intros x Hx. specialize (Hinfo x Hx).
      unfold Spec.isInfo. destruct (severity x); congruence. }
    rewrite Hz. lia.
  - cbn zeta. split.
    + cbn [errors StaticAnalyzer.analyzePython]. intros e H.
      apply in_flat_map in H. destruct H as [[path content] [_ H]].
      apply forEachIndexed_In in H. destruct H as (k & l & _ & H).
      now apply checkPythonLine_In in H.
    + cbn [summary totalErrors totalWarnings StaticAnalyzer.analyzePython errors].
      rewrite countSeverity_error, countSeverity_warning.
      apply howMany_severity_bound.
Qed.







(** ** The rule-based summarizer, further *)

Lemma howMany_app {A} (p : A -> bool) (a b : list A) :
  Spec.howMany p (List.app a b) = Spec.howMany p a + Spec.howMany p b.
Proof.
  induction a as [| x r IH]; cbn; [reflexivity |]. destruct (p x); cbn; now rewrite IH.
Qed.


Lemma rank_riskLevel (crit crit' : bool) (highs highs' mediums mediums' : nat) :
  (crit = true -> crit' = true) -> highs <= highs' -> mediums <= mediums' ->
  Extra.rank (if crit then critical
              else if (2 <? highs)%nat then high
              else if ((0 <? highs) || (3 <? mediums))%nat then medium else low)
  <= Extra.rank (if crit' then critical
                 else if (2 <? highs')%nat then high
                 else if ((0 <? highs') || (3 <? mediums'))%nat then medium else low).
Proof.
  intros Hc Hh Hm.
  destruct crit, crit'; try (specialize (Hc eq_refl); discriminate); cbn [Extra.rank];
    repeat match goal with
           | |- context [(?a <? ?b)%nat] => destruct (Nat.ltb_spec a b)
           end; cbn; lia.
Qed.

(** X18. The fallback risk level is monotone in the findings: adding
    vulnerable dependencies, outdated dependencies or static findings to an
    analysis never lowers the level. *)
Theorem X18_risk_level_monotone (d : DependencyAnalysis) (s : StaticAnalysisResult)
    (moreVulnerable : list VulnerableDependency) (moreOutdated : list OutdatedDependency)
    (moreErrors : list StaticFinding) :
  Extra.rank (riskLevel (AiMock.generateMockSummary d s)) <=
  Extra.rank (riskLevel (AiMock.generateMockSummary
                {| total := total d;
                   outdated := List.app moreOutdated (outdated d);
                   vulnerable := List.app moreVulnerable (vulnerable d) |}
                (Extra.withErrors s (List.app moreErrors (errors s))))).
Proof.
  rewrite !riskLevel_refines. unfold Spec.riskLevel, Extra.withErrors.
  cbn [vulnerable outdated errors].
  rewrite existsb_app, !howMany_app.
  apply rank_riskLevel; [| lia | lia].
  intros ->. apply orb_true_r.
Qed.








Lemma static_error_is_security (repo : Tree) (language : string) (e : StaticFinding) :
  In e (errors (StaticAnalyzer.runStaticAnalysis repo language)) ->
  severity e = error -> AiMock.rule_includes e "security" = true.
Proof.
  unfold StaticAnalyzer.runStaticAnalysis.
  destruct (String.eqb language "javascript");
    [| destruct (String.eqb language "python"); [| contradiction]].
  - cbn [errors StaticAnalyzer.analyzeJavaScript]. intros H.
    apply in_flat_map in H. destruct H as [[path content] [_ H]]. cbn [fst snd] in H.
    apply forEachIndexed_In in H. destruct H as (k & l & _ & H).
    unfold StaticAnalyzer.checkJavaScriptLine in H. cbn [List.concat] in H.
    repeat (apply in_app_or in H; destruct H as [H | H];
            [one_finding H; cbn; intros Hs; first [reflexivity | discriminate Hs] |]).
    apply in_app_or in H. destruct H as [H | []].
    destruct (StaticAnalyzer.varMatch (JsString.trim l)); one_finding H.
    cbn. intros Hs. discriminate Hs.
  - cbn [errors StaticAnalyzer.analyzePython]. intros H.
    apply in_flat_map in H. destruct H as [[path content] [_ H]]. cbn [fst snd] in H.
    apply forEachIndexed_In in H. destruct H as (k & l & _ & H).
    unfold StaticAnalyzer.checkPythonLine in H. cbn [List.concat] in H.
    repeat (apply in_app_or in H; destruct H as [H | H];
            [one_finding H; cbn; intros Hs; first [reflexivity | discriminate Hs] |]).
    destruct H.
Qed.

Lemma filter_ext_in' {A} (p q : A -> bool) (l : list A) :
  (forall x, In x l -> p x = q x) -> filter p l = filter q l.
Proof.
  induction l as [| x r IH]; intros H; cbn; [reflexivity |].
  rewrite (H x (or_introl eq_refl)), IH; [reflexivity |].
  intros y Hy. apply H. now right.
Qed.

Lemma howMany_length_filter {A} (p : A -> bool) (l : list A) :
  Spec.howMany p l = length (filter p l).
Proof. induction l as [| x r IH]; cbn; [reflexivity |]. destruct (p x); cbn; now rewrite IH. Qed.

(** X21. Every finding of severity error that the static analyzer
    produces carries a security rule, so on a real analysis each error
    yields a priority fix: the number of priority fixes of the fallback is
    the sum of the critical and high vulnerabilities, the errors counted in
    the summary and the outdated dependencies of severity high, cut at
    five.  Warnings, medium vulnerabilities and medium outdated
    dependencies yield none. *)
Theorem X21_priority_fixes_counted (repo : Tree) (language : string)
    (d : DependencyAnalysis) :
  let s := StaticAnalyzer.runStaticAnalysis repo language in
  (forall e, In e (errors s) -> severity e = error ->
             AiMock.rule_includes e "security" = true) /\
  length (AiMock.generatePriorityFixes d s) =
    Nat.min 5 (Spec.howMany Spec.isCriticalVuln (vulnerable d) +
               Spec.howMany Spec.isHighVuln (vulnerable d) +
               totalErrors (summary s) +
               Spec.howMany Extra.isHighOutdated (outdated d)).
Proof.
  cbn zeta. split; [apply static_error_is_security |].
  unfold AiMock.generatePriorityFixes, slice0.
  rewrite length_firstn, !length_app, !length_map.
  destruct (summary_from_errors repo language) as [-> _].
  rewrite countSeverity_error, !howMany_length_filter.
  rewrite (filter_ext_in' (fun v => Level_eqb (v_severity v) critical) Spec.isCriticalVuln)
    by (intros v _; unfold Spec.isCriticalVuln; now destruct (v_severity v)).
  rewrite (filter_ext_in' (fun v => Level_eqb (v_severity v) high) Spec.isHighVuln)
    by (intros v _; unfold Spec.isHighVuln; now destruct (v_severity v)).
  rewrite (filter_ext_in' (fun o => OutdatedSeverity_eqb (o_severity o) o_high)
             Extra.isHighOutdated)
    by (intros o _; unfold Extra.isHighOutdated; now destruct (o_severity o)).
  rewrite (filter_ext_in' _ Spec.isError
             (errors (StaticAnalyzer.runStaticAnalysis repo language))); [reflexivity |].
  intros e He. unfold Spec.isError.
  pose proof (static_error_is_security repo language e He) as Hsec.
  destruct (severity e); cbn; try reflexivity. now rewrite Hsec.
Qed.

(** ** The summarizer's entry point, further *)

Lemma arrayPrefix_length (n : nat) (v : option json) :
  length (AiService.arrayPrefix n v) <= n.
Proof.
  unfold AiService.arrayPrefix.
  destruct v as [[| | | | items |] |]; cbn; try lia. apply slice0_length.
Qed.

(** X22. [generateAISummary] never throws, and it has two outcomes only.
    Either it is the fallback summary, or it is a reply of the model: then
    an API key is set, the call returned, the text between the first
    opening and the last closing brace parsed, the four fields of the
    parsed value are truthy, and the two lists hold at most six and five
    entries.  Without a key, when the call fails and when the parser throws
    the outcome is the fallback. *)
Theorem X22_summary_outcomes (JSON_parse : string -> result json)
    (key : option string) (call : DependencyAnalysis -> StaticAnalysisResult -> result string)
    (d : DependencyAnalysis) (s : StaticAnalysisResult) :
  let fallback := Summary (AiMock.generateMockSummary d s) in
  let v := AiService.generateAISummary JSON_parse key call d s in
  (v = fallback \/
   exists aiResponse text parsed r t,
     key <> None /\ key <> Some EmptyString /\
     call d s = Ok aiResponse /\
     AiService.jsonMatch aiResponse = Some text /\
     JSON_parse text = Ok parsed /\
     JsObject.getProp parsed "riskLevel" = Ok (Some r) /\
     JsObject.getProp parsed "summary" = Ok (Some t) /\
     AiService.truthy (Some r) = true /\ AiService.truthy (Some t) = true /\
     exists recs fixes,
       v = ModelReply r t recs fixes /\ length recs <= 6 /\ length fixes <= 5) /\
  (key = None -> v = fallback) /\
  (forall e, call d s = Throw e -> v = fallback) /\
  (forall aiResponse text e,
     call d s = Ok aiResponse -> AiService.jsonMatch aiResponse = Some text ->
     JSON_parse text = Throw e -> v = fallback).
Proof.
  cbn zeta. unfold AiService.generateAISummary.
  split; [| split; [| split]].
  - destruct key as [[| c k] |]; [now left | | now left].
    destruct (call d s) as [aiResponse | e] eqn:Ecall; [| now left].
    unfold AiService.parseAIResponse.
    destruct (AiService.jsonMatch aiResponse) as [text |] eqn:Ematch; [| now left].
    destruct (JSON_parse text) as [parsed | e] eqn:Eparse; [| now left]. cbn [bindR].
    destruct (JsObject.getProp parsed "riskLevel") as [r | e] eqn:Er; [| now left].
    cbn [bindR].
    destruct (JsObject.getProp parsed "summary") as [t | e] eqn:Et; [| now left].
    cbn [bindR].
    destruct (JsObject.getProp parsed "recommendations") as [recs | e]; [| now left].
    cbn [bindR].
    destruct (JsObject.getProp parsed "priorityFixes") as [fixes | e]; [| now left].
    cbn [bindR].
    destruct r as [r |]; [| now left]. destruct t as [t |]; [| now left].
    destruct (AiService.truthy (Some r)) eqn:Tr; [| now left].
    destruct (AiService.truthy (Some t)) eqn:Tt; [| now left].
    cbn [andb].
    destruct (AiService.truthy recs); cbn [andb]; [| now left].
    destruct (AiService.truthy fixes); [| now left].
    right. exists aiResponse, text, parsed, r, t.
    repeat split; try discriminate; try assumption.
    eexists. eexists. split; [reflexivity |]. split; apply arrayPrefix_length.
  - now intros ->.
  - intros e He. destruct key as [[| c k] |]; try reflexivity. now rewrite He.
  - intros aiResponse text e Hcall Hmatch Hparse.
    destruct key as [[| c k] |]; try reflexivity.
    rewrite Hcall. unfold AiService.parseAIResponse. now rewrite Hmatch, Hparse.
Qed.

(** X23. A reply of the model is taken as it is.  When the parsed reply is
    an object whose four fields are truthy, the summary carries its
    riskLevel and summary values unchecked (the level need not be one of
    the four levels, nor a string), and a recommendations or priorityFixes
    field that is not an array becomes the empty list: unlike the fallback,
    a model summary can have no recommendation at all. *)
Theorem X23_model_reply_is_not_validated (JSON_parse : string -> result json)
    (key : string) (call : DependencyAnalysis -> StaticAnalysisResult -> result string)
    (d : DependencyAnalysis) (s : StaticAnalysisResult)
    (aiResponse text : string) (props : list (string * json)) (r t recs fixes : json) :
  key <> EmptyString ->
  call d s = Ok aiResponse ->
  AiService.jsonMatch aiResponse = Some text ->
  JSON_parse text = Ok (JObj props) ->
  JsObject.lookup "riskLevel" props = Some r ->
  JsObject.lookup "summary" props = Some t ->
  JsObject.lookup "recommendations" props = Some recs ->
  JsObject.lookup "priorityFixes" props = Some fixes ->
  AiService.truthy (Some r) = true -> AiService.truthy (Some t) = true ->
  AiService.truthy (Some recs) = true -> AiService.truthy (Some fixes) = true ->
  AiService.generateAISummary JSON_parse (Some key) call d s =
    ModelReply r t (AiService.arrayPrefix 6 (Some recs)) (AiService.arrayPrefix 5 (Some fixes)) /\
  ((forall items, recs <> JArr items) ->
   exists fixes', AiService.generateAISummary JSON_parse (Some key) call d s
                  = ModelReply r t [] fixes').
Proof.
  intros Hkey Hcall Hmatch Hparse Hr Ht Hrecs Hfixes Tr Tt Trecs Tfixes.
  assert (H : AiService.generateAISummary JSON_parse (Some key) call d s =
              ModelReply r t (AiService.arrayPrefix 6 (Some recs))
                (AiService.arrayPrefix 5 (Some fixes))).
  { unfold AiService.generateAISummary.
    destruct key as [| c k]; [contradiction |].
    rewrite Hcall. unfold AiService.parseAIResponse. rewrite Hmatch, Hparse.
    cbn [bindR JsObject.getProp]. rewrite Hr, Ht, Hrecs, Hfixes.
    now rewrite Tr, Tt, Trecs, Tfixes. }
  split; [exact H |].
  intros Hnot. eexists. rewrite H. f_equal.
  destruct recs; try reflexivity. now destruct (Hnot items).
Qed.

Lemma X23_model_reply_is_not_validated_witness :
  AiService.generateAISummary
    (fun _ => Ok (JObj [("riskLevel", JStr "catastrophic"); ("summary", JStr "bad");
                        ("recommendations", JStr "none"); ("priorityFixes", JBool true)]))
    (Some "sk-key") (fun _ _ => Ok "{}")
    DependencyAnalyzer.zeroValue Scenario.noFindings
  = ModelReply (JStr "catastrophic") (JStr "bad") [] [].
Proof.
  exact (proj1 (X23_model_reply_is_not_validated
                  (fun _ => Ok (JObj [("riskLevel", JStr "catastrophic");
                                      ("summary", JStr "bad");
                                      ("recommendations", JStr "none");
                                      ("priorityFixes", JBool true)]))
                  "sk-key" (fun _ _ => Ok "{}")
                  DependencyAnalyzer.zeroValue Scenario.noFindings "{}" "{}"
                  [("riskLevel", JStr "catastrophic"); ("summary", JStr "bad");
                   ("recommendations", JStr "none"); ("priorityFixes", JBool true)]
                  (JStr "catastrophic") (JStr "bad") (JStr "none") (JBool true)
                  ltac:(discriminate) eq_refl eq_refl eq_refl eq_refl eq_refl eq_refl eq_refl
                  eq_refl eq_refl eq_refl eq_refl)).
Defined.

Lemma fromFirst_app (c : ascii) (a b : string) :
  JsString.includes a (String c EmptyString) = false ->
  AiService.fromFirst c (a ++ String c b) = Some (String c b).
Proof.
  induction a as [| x t IH]; cbn [append AiService.fromFirst].
  - now rewrite Ascii.eqb_refl.
  - rewrite includes_char_cons. intros H. apply orb_false_iff in H. destruct H as [Hx Ht].
    rewrite Ascii.eqb_sym in Hx. rewrite Hx. now apply IH.
Qed.

Lemma uptoLast_none (c : ascii) (s : string) :
  JsString.includes s (String c EmptyString) = false -> AiService.uptoLast c s = None.
Proof.
  induction s as [| x t IH]; [reflexivity |].
  rewrite includes_char_cons. intros H. apply orb_false_iff in H. destruct H as [Hx Ht].
  cbn [AiService.uptoLast]. rewrite (IH Ht). rewrite Ascii.eqb_sym in Hx. now rewrite Hx.
Qed.

Lemma uptoLast_app (c : ascii) (a b : string) :
  JsString.includes b (String c EmptyString) = false ->
  AiService.uptoLast c (a ++ String c b) = Some (a ++ String c EmptyString).
Proof.
  intros Hb. induction a as [| x t IH]; cbn [append AiService.uptoLast].
  - now rewrite (uptoLast_none _ _ Hb), Ascii.eqb_refl.
  - now rewrite IH.
Qed.

(** X24. The reply is cut from the first opening brace to the last
    closing brace: for an object wrapped in prose, with no opening brace
    before it and no closing brace after it, the text handed to the parser
    is the object itself, whatever braces it has inside. *)
Theorem X24_json_is_cut_out (before body after : string) :
  JsString.includes before "{" = false ->
  JsString.includes after "}" = false ->
  AiService.jsonMatch (before ++ "{" ++ body ++ "}" ++ after) = Some ("{" ++ body ++ "}").
Proof.
  intros Hbefore Hafter. unfold AiService.jsonMatch.
  change (before ++ "{" ++ body ++ "}" ++ after)
    with (before ++ String "{" (body ++ String "}" after)).
  rewrite (fromFirst_app _ _ _ Hbefore).
  change (String "{" (body ++ String "}" after))
    with (String "{" body ++ String "}" after).
  now rewrite (uptoLast_app _ _ _ Hafter).
Qed.

Lemma X24_json_is_cut_out_witness :
  AiService.jsonMatch ("Here you go: " ++ "{" ++ "a: {b: 1}" ++ "}" ++ " Hope it helps.")
    = Some ("{" ++ "a: {b: 1}" ++ "}").
Proof.
  apply (X24_json_is_cut_out "Here you go: " "a: {b: 1}" " Hope it helps."); reflexivity.
Defined.

Lemma X22_summary_outcomes_witness :
  AiService.generateAISummary Scenario.parse None (fun _ _ => Throw TypeError)
    DependencyAnalyzer.zeroValue Scenario.noFindings
  = Summary (AiMock.generateMockSummary DependencyAnalyzer.zeroValue Scenario.noFindings).
Proof.
  exact (proj1 (proj2 (X22_summary_outcomes Scenario.parse None (fun _ _ => Throw TypeError)
                         DependencyAnalyzer.zeroValue Scenario.noFindings)) eq_refl).
Defined.

(** ** The shared utilities *)

Ltac each_char c :=
  destruct c as [[] [] [] [] [] [] [] []]; vm_compute; try reflexivity; auto.

Lemma lowerChar_idempotent (c : ascii) :
  JsString.lowerChar (JsString.lowerChar c) = JsString.lowerChar c.
Proof. each_char c. Qed.

Lemma lowerChar_dot (c : ascii) :
  Ascii.eqb "."%char (JsString.lowerChar c) = Ascii.eqb "."%char c.
Proof. each_char c. Qed.

Lemma toLowerCase_idempotent (s : string) :
  JsString.toLowerCase (JsString.toLowerCase s) = JsString.toLowerCase s.
Proof.
  induction s as [| c t IH]; cbn; [reflexivity |]. now rewrite lowerChar_idempotent, IH.
Qed.

Lemma toLowerCase_dot (s : string) :
  JsString.includes (JsString.toLowerCase s) "." = JsString.includes s ".".
Proof.
  induction s as [| c t IH]; [reflexivity |].
  cbn [JsString.toLowerCase]. now rewrite !includes_char_cons, lowerChar_dot, IH.
Qed.

Lemma toLowerCase_length (s : string) :
  String.length (JsString.toLowerCase s) = String.length s.
Proof. induction s as [| c t IH]; cbn; [reflexivity |]. now rewrite IH. Qed.

Lemma splitOn_cons (sep : ascii) (s : string) :
  exists h r, Semver.splitOn sep s = h :: r.
Proof.
  induction s as [| c t [h [r IH]]]; cbn [Semver.splitOn]; [eauto |].
  destruct (Ascii.eqb c sep); [eauto |]. rewrite IH. eauto.
Qed.

Lemma splitOn_app (sep : ascii) (p e : string) :
  Semver.splitOn sep (p ++ String sep e) = List.app (Semver.splitOn sep p) (Semver.splitOn sep e).
Proof.
  induction p as [| c t IH]; cbn [append Semver.splitOn].
  - now rewrite Ascii.eqb_refl.
  - destruct (Ascii.eqb c sep); rewrite IH; [reflexivity |].
    destruct (splitOn_cons sep t) as [h [r ->]]. reflexivity.
Qed.

Lemma splitOn_whole (sep : ascii) (e : string) :
  JsString.includes e (String sep EmptyString) = false -> Semver.splitOn sep e = [e].
Proof.
  induction e as [| c t IH]; [reflexivity |].
  rewrite includes_char_cons. intros H. apply orb_false_iff in H. destruct H as [Hc Ht].
  cbn [Semver.splitOn]. rewrite Ascii.eqb_sym in Hc. now rewrite Hc, (IH Ht).
Qed.

Lemma last_app_cons {A} (l1 : list A) (x : A) (l2 : list A) (d : A) :
  List.last (List.app l1 (x :: l2)) d = List.last (x :: l2) d.
Proof.
  induction l1 as [| a r IH]; [reflexivity |].
  cbn [List.app]. change (List.last (a :: List.app r (x :: l2)) d)
    with (match List.app r (x :: l2) with [] => a | _ :: _ => List.last (List.app r (x :: l2)) d end).
  destruct r; exact IH.
Qed.

Lemma last_splitOn_no_sep (sep : ascii) (s : string) :
  JsString.includes (List.last (Semver.splitOn sep s) EmptyString) (String sep EmptyString)
  = false.
Proof.
  induction s as [| c t IH]; [reflexivity |].
  cbn [Semver.splitOn]. destruct (Ascii.eqb c sep) eqn:Ec.
  - destruct (splitOn_cons sep t) as [h [r E]]. rewrite E in *. exact IH.
  - destruct (splitOn_cons sep t) as [h [r E]]. rewrite E in *.
    destruct r as [| h' r'].
    + cbn [List.last] in *. rewrite includes_char_cons, IH.
      rewrite Ascii.eqb_sym, Ec. reflexivity.
    + exact IH.
Qed.

(** X25. [getFileExtension] returns what follows the last dot of the
    whole path, in lower case: the result never holds a dot and is its own
    lower case.  For a path without any dot it is the whole path, so the
    extension of Makefile is makefile and that of src/main is src/main. *)
Theorem X25_file_extension (p e : string) :
  JsString.includes (Shared.getFileExtension p) "." = false /\
  JsString.toLowerCase (Shared.getFileExtension p) = Shared.getFileExtension p /\
  (JsString.includes e "." = false ->
   Shared.getFileExtension (p ++ "." ++ e) = JsString.toLowerCase e /\
   Shared.getFileExtension e = JsString.toLowerCase e).
Proof.
  unfold Shared.getFileExtension. repeat split.
  - rewrite toLowerCase_dot. apply last_splitOn_no_sep.
  - apply toLowerCase_idempotent.
  - change (p ++ "." ++ e) with (p ++ String "." e).
    rewrite splitOn_app, (splitOn_whole _ _ H), last_app_cons. reflexivity.
  - now rewrite (splitOn_whole _ _ H).
Qed.

Lemma X25_file_extension_witness :
  Shared.getFileExtension ("src/App" ++ "." ++ "TSX") = "tsx" /\
  Shared.getFileExtension "TSX" = "tsx".
Proof.
  exact (proj2 (proj2 (X25_file_extension "src/App" "TSX")) eq_refl).
Defined.

Lemma substring0_zero (s : string) : substring 0 0 s = EmptyString.
Proof. destruct s; reflexivity. Qed.

Lemma substring0_prefix (n : nat) (s : string) :
  JsString.startsWith s (substring 0 n s) = true.
Proof.
  revert n. induction s as [| c t IH]; intros [| n]; cbn; try reflexivity.
  now rewrite Ascii.eqb_refl, IH.
Qed.

(** X26. [truncateText] leaves a text that fits as it is.  A longer text
    is cut to exactly [maxLength] characters, three dots included, when
    [maxLength] is at least 3; below 3 the result is the three dots alone,
    which is longer than [maxLength]. *)
Theorem X26_truncate_text (text : string) (maxLength : Z) :
  ((Z.of_nat (String.length text) <= maxLength)%Z ->
   Shared.truncateText text maxLength = text) /\
  ((maxLength < Z.of_nat (String.length text))%Z -> (3 <= maxLength)%Z ->
   Z.of_nat (String.length (Shared.truncateText text maxLength)) = maxLength /\
   exists kept, Shared.truncateText text maxLength = kept ++ "..." /\
                JsString.startsWith text kept = true) /\
  ((maxLength < Z.of_nat (String.length text))%Z -> (maxLength < 3)%Z ->
   Shared.truncateText text maxLength = "...").
Proof.
  unfold Shared.truncateText, Shared.substringTo.
  repeat split.
  - intros H. apply Z.leb_le in H. now rewrite H.
  - apply Z.leb_gt in H. rewrite H.
    rewrite length_append, substring0_length. cbn [String.length]. lia.
  - apply Z.leb_gt in H. rewrite H. eexists. split; [reflexivity |].
    apply substring0_prefix.
  - intros Hlong Hsmall. apply Z.leb_gt in Hlong. rewrite Hlong.
    replace (Z.to_nat (maxLength - 3)) with 0 by lia.
    now rewrite substring0_zero.
Qed.

Lemma X26_truncate_text_witness :
  Z.of_nat (String.length (Shared.truncateText "repository" 8)) = 8%Z /\
  Shared.truncateText "repository" 2 = "...".
Proof.
  split.
  - apply (proj1 (proj2 (X26_truncate_text "repository" 8))); cbn; lia.
  - apply (proj2 (proj2 (X26_truncate_text "repository" 2))); cbn; lia.
Defined.

Lemma sanitize_char (c : ascii) :
  let c' := JsString.lowerChar (if Shared.isSafeChar c then c else "_"%char) in
  Extra.isSanitized c' = true /\
  JsString.lowerChar (if Shared.isSafeChar c' then c' else "_"%char) = c'.
Proof. each_char c. Qed.

(** X27. [sanitizeFilename] keeps the length of the name and leaves only
    lower-case letters, digits, dots, hyphens and underscores: no slash, no
    backslash and no white space survives.  Sanitizing twice changes
    nothing more.  Dots are kept, so [..] comes through unchanged. *)
Theorem X27_sanitize_filename (filename : string) :
  String.length (Shared.sanitizeFilename filename) = String.length filename /\
  JsString.forallb Extra.isSanitized (Shared.sanitizeFilename filename) = true /\
  JsString.includes (Shared.sanitizeFilename filename) "/" = false /\
  Shared.sanitizeFilename (Shared.sanitizeFilename filename)
    = Shared.sanitizeFilename filename /\
  Shared.sanitizeFilename ".." = "..".
Proof.
  unfold Shared.sanitizeFilename.
  induction filename as [| c t (IHlen & IHall & IHslash & IHtwice & _)];
    [now repeat split |].
  cbn [Shared.replaceUnsafe JsString.toLowerCase String.length JsString.forallb].
  destruct (sanitize_char c) as [Hc Hc'].
  repeat split.
  - now rewrite IHlen.
  - now rewrite Hc, IHall.
  - rewrite includes_char_cons, IHslash, orb_false_r.
    destruct (Ascii.eqb "/" (JsString.lowerChar (if Shared.isSafeChar c then c else "_"%char)))
      eqn:E; [| reflexivity].
    apply Ascii.eqb_eq in E. rewrite <- E in Hc. discriminate Hc.
  - now rewrite Hc', IHtwice.
Qed.

Lemma chunkLoop_spec {A} (size turns : nat) (rest : list A) :
  1 <= size -> length rest <= turns ->
  List.concat (Shared.chunkLoop turns rest size) = rest /\
  Forall (fun chunk => 1 <= length chunk <= size) (Shared.chunkLoop turns rest size) /\
  length (Shared.chunkLoop turns rest size) * size < length rest + size.
Proof.
  intros Hsize. revert rest.
  induction turns as [| turns IH]; intros rest Hlen.
  - destruct rest; [| cbn in Hlen; lia]. cbn. split; [reflexivity | split; [constructor | lia]].
  - destruct rest as [| x r]; [cbn; split; [reflexivity | split; [constructor | lia]] |].
    cbn [Shared.chunkLoop].
    destruct (IH (skipn size (x :: r))) as (Hcat & Hall & Hcount).
    { rewrite length_skipn. cbn [length] in *. lia. }
    split; [| split].
    + cbn [List.concat]. rewrite Hcat. apply firstn_skipn.
    + constructor; [| exact Hall].
      rewrite length_firstn. cbn [length]. lia.
    + cbn [length]. rewrite length_skipn in Hcount. cbn [length] in Hcount.
      remember (length (Shared.chunkLoop turns (skipn size (x :: r)) size)) as n.
      destruct (le_lt_dec size (S (length r))) as [Hle | Hgt].
      * replace (S (length r) - size + size) with (S (length r)) in Hcount by lia. lia.
      * replace (S (length r) - size + size) with size in Hcount by lia.
        assert (n = 0) by nia. subst n. lia.
Qed.

(** X28. For a size of at least 1, [chunkArray] returns: the chunks,
    joined in order, are the array; every chunk holds between 1 and [size]
    elements; and there are just enough of them (fewer than
    [length / size + 1]).  An empty array gives no chunk. *)
Theorem X28_chunks_partition_the_array {A} (array : list A) (size : nat) :
  1 <= size ->
  exists chunks,
    Shared.chunkArray array size = Some chunks /\
    List.concat chunks = array /\
    Forall (fun chunk => 1 <= length chunk <= size) chunks /\
    length chunks * size < length array + size /\
    (array = [] -> chunks = []).
Proof.
  intros Hsize. exists (Shared.chunkLoop (length array) array size).
  destruct (chunkLoop_spec size (length array) array Hsize (le_n _)) as (Hcat & Hall & Hcount).
  split; [| split; [exact Hcat | split; [exact Hall | split; [exact Hcount |]]]].
  - unfold Shared.chunkArray. destruct size; [lia | reflexivity].
  - intros ->. reflexivity.
Qed.

Lemma X28_chunks_partition_the_array_witness :
  exists chunks,
    Shared.chunkArray [1; 2; 3; 4; 5] 2 = Some chunks /\
    List.concat chunks = [1; 2; 3; 4; 5] /\
    Forall (fun chunk => 1 <= length chunk <= 2) chunks /\
    length chunks * 2 < length [1; 2; 3; 4; 5] + 2 /\
    ([1; 2; 3; 4; 5] = [] -> chunks = []).
Proof.
  apply (X28_chunks_partition_the_array [1; 2; 3; 4; 5] 2). lia.
Defined.

(** ** The upload route *)

Lemma collectEntry_In (entry : UploadRoute.ZipEntry) (f : UploadRoute.UploadedFile) :
  In f (UploadRoute.collectEntry entry) ->
  UploadRoute.collectEntry entry = [f] /\
  UploadRoute.u_path f = UploadRoute.entryName entry /\
  UploadRoute.isDirectory entry = false /\
  JsString.startsWith (UploadRoute.entryName entry) "." = false /\
  JsString.includes (UploadRoute.entryName entry) "/." = false /\
  UploadRoute.u_size f = UploadRoute.headerSize entry /\
  (UploadRoute.u_size f <= 1024 * 1024)%N /\
  UploadRoute.shouldSkipFile (UploadRoute.entryName entry) = false /\
  UploadRoute.getData entry = Ok (UploadRoute.u_content f) /\
  Upload.isTextContent (UploadRoute.u_content f) = true /\
  UploadRoute.u_language f =
    Shared.getLanguageFromExtension (Shared.getFileExtension (UploadRoute.entryName entry)).
Proof.
  unfold UploadRoute.collectEntry.
  destruct (UploadRoute.isDirectory entry); [intros [] |].
  destruct (JsString.startsWith (UploadRoute.entryName entry) "."); [intros [] |].
  destruct (JsString.includes (UploadRoute.entryName entry) "/."); [intros [] |].
  cbn [orb].
  destruct (N.ltb_spec (1024 * 1024) (UploadRoute.headerSize entry)) as [Hbig | Hsmall];
    [intros [] |].
  destruct (UploadRoute.shouldSkipFile (UploadRoute.entryName entry)); [intros [] |].
  destruct (UploadRoute.getData entry) as [content | e]; [| intros []].
  destruct (Upload.isTextContent content) eqn:Etext; [| intros []].
  intros [<- | []]. cbn [UploadRoute.u_path UploadRoute.u_size UploadRoute.u_content
                         UploadRoute.u_language].
  repeat split; auto.
Qed.

Lemma shouldSkipFile_pattern (filePath pattern : string) :
  In pattern UploadRoute.skipPatterns ->
  JsString.includes filePath pattern = true ->
  UploadRoute.shouldSkipFile filePath = true.
Proof.
  intros Hin Hinc. unfold UploadRoute.shouldSkipFile.
  apply orb_true_iff. left. apply existsb_exists. now exists pattern.
Qed.

(** X29. What the upload keeps.  Every file collected from the archive
    comes from an entry that is no directory, is not hidden, is at most
    1 MiB, has a content that inflates and passes the text test, and gets
    its language from the extension of its path.  No kept path contains any
    of the skip patterns as a substring, wherever it occurs: a path such as
    src/binary.ts (bin) or lib/objects.py (obj) is dropped. *)
Theorem X29_collected_files (zipEntries : list UploadRoute.ZipEntry)
    (f : UploadRoute.UploadedFile) :
  In f (UploadRoute.collectFiles zipEntries) ->
  (exists entry,
     In entry zipEntries /\
     UploadRoute.u_path f = UploadRoute.entryName entry /\
     UploadRoute.isDirectory entry = false /\
     UploadRoute.getData entry = Ok (UploadRoute.u_content f) /\
     UploadRoute.u_size f = UploadRoute.headerSize entry) /\
  (UploadRoute.u_size f <= 1024 * 1024)%N /\
  Upload.isTextContent (UploadRoute.u_content f) = true /\
  JsString.startsWith (UploadRoute.u_path f) "." = false /\
  JsString.includes (UploadRoute.u_path f) "/." = false /\
  UploadRoute.u_language f =
    Shared.getLanguageFromExtension (Shared.getFileExtension (UploadRoute.u_path f)) /\
  forall pattern, In pattern UploadRoute.skipPatterns ->
                  JsString.includes (UploadRoute.u_path f) pattern = false.
Proof.
  unfold UploadRoute.collectFiles. intros H.
  apply in_flat_map in H. destruct H as [entry [Hentry H]].
  apply collectEntry_In in H.
  destruct H as (_ & Hpath & Hdir & Hdot & Hhidden & Hsize & Hmax & Hskip & Hdata & Htext & Hlang).
  rewrite Hpath.
  repeat split; auto.
  - exists entry. repeat split; auto.
  - intros pattern Hin.
    destruct (JsString.includes (UploadRoute.entryName entry) pattern) eqn:E; [| reflexivity].
    rewrite (shouldSkipFile_pattern _ _ Hin E) in Hskip. discriminate Hskip.
Qed.

Lemma X29_collected_files_witness :
  UploadRoute.collectFiles
    [ {| UploadRoute.entryName := "src/binary.ts"; UploadRoute.isDirectory := false;
         UploadRoute.headerSize := 12; UploadRoute.getData := Ok "export {};" |};
      {| UploadRoute.entryName := "src/app.ts"; UploadRoute.isDirectory := false;
         UploadRoute.headerSize := 10; UploadRoute.getData := Ok "let a = 1;" |} ]
  = [ {| UploadRoute.u_path := "src/app.ts"; UploadRoute.u_content := "let a = 1;";
         UploadRoute.u_language := Shared.Str "typescript"; UploadRoute.u_size := 10 |} ] /\
  JsString.includes "src/app.ts" "bin" = false.
Proof.
  refine (conj eq_refl _).
  refine (proj2 (proj2 (proj2 (proj2 (proj2 (proj2
    (X29_collected_files
       [ {| UploadRoute.entryName := "src/binary.ts"; UploadRoute.isDirectory := false;
            UploadRoute.headerSize := 12; UploadRoute.getData := Ok "export {};" |};
         {| UploadRoute.entryName := "src/app.ts"; UploadRoute.isDirectory := false;
            UploadRoute.headerSize := 10; UploadRoute.getData := Ok "let a = 1;" |} ]
       {| UploadRoute.u_path := "src/app.ts"; UploadRoute.u_content := "let a = 1;";
          UploadRoute.u_language := Shared.Str "typescript"; UploadRoute.u_size := 10 |}
       _)))))) "bin" _).
  - left. reflexivity.
  - unfold UploadRoute.skipPatterns. cbn [In]. tauto.
Defined.

Lemma sum_sizes_bound (files : list UploadRoute.UploadedFile) (start : N) :
  (forall f, In f files -> (UploadRoute.u_size f <= 1024 * 1024)%N) ->
  (fold_left (fun sum file => sum + UploadRoute.u_size file) files start
   <= start + N.of_nat (length files) * (1024 * 1024))%N.
Proof.
  revert start. induction files as [| f r IH]; intros start H.
  - cbn [fold_left length]. lia.
  - cbn [fold_left length].
    specialize (IH (start + UploadRoute.u_size f)%N (fun g Hg => H g (or_intror Hg))).
    specialize (H f (or_introl eq_refl)).
    lia.
Qed.

(** X30. An archive without a single usable text file is answered with
    status 500 and the message Failed to process ZIP file: the error of
    status 400 that the handler raises for it is raised inside its own try
    block and replaced by the catch clause, so its message never reaches
    the client.  An upload that succeeds kept at least one file, and its
    total size is at most 1 MiB per file. *)
Theorem X30_empty_archive_is_a_server_error (req : UploadRoute.ZipRequest) :
  (forall zipEntries user,
     UploadRoute.fileUploaded req = true ->
     UploadRoute.userId req = Some user -> user <> EmptyString ->
     UploadRoute.archive req = inr zipEntries ->
     UploadRoute.collectFiles zipEntries = [] ->
     UploadRoute.postZip req = UploadRoute.Rejected "Failed to process ZIP file" 500) /\
  (forall statusCode,
     UploadRoute.postZip req
     <> UploadRoute.Rejected "No valid text files found in ZIP archive" statusCode) /\
  (forall filesCount totalSize,
     UploadRoute.postZip req = UploadRoute.Uploaded filesCount totalSize ->
     1 <= filesCount /\ (totalSize <= N.of_nat filesCount * (1024 * 1024))%N).
Proof.
  split; [| split].
  - intros zipEntries user Hfile Huser Hne Harchive Hempty.
    unfold UploadRoute.postZip. rewrite Hfile, Huser, Harchive, Hempty.
    apply String.eqb_neq in Hne. rewrite Hne. reflexivity.
  - intros statusCode. unfold UploadRoute.postZip.
    destruct (negb (UploadRoute.fileUploaded req)); [discriminate |].
    destruct (_ && _); [discriminate |].
    destruct (UploadRoute.archive req) as [message | zipEntries].
    + destruct (JsString.includes message "Invalid or corrupted ZIP"); discriminate.
    + destruct (length (UploadRoute.collectFiles zipEntries) =? 0)%nat; [discriminate |].
      destruct (UploadRoute.store req _) as [message |]; [| discriminate].
      destruct (JsString.includes message "Invalid or corrupted ZIP"); discriminate.
  - intros filesCount totalSize. unfold UploadRoute.postZip.
    destruct (negb (UploadRoute.fileUploaded req)); [discriminate |].
    destruct (_ && _); [discriminate |].
    destruct (UploadRoute.archive req) as [message | zipEntries].
    + destruct (JsString.includes message "Invalid or corrupted ZIP"); discriminate.
    + destruct (Nat.eqb_spec (length (UploadRoute.collectFiles zipEntries)) 0) as [E | E];
        [discriminate |].
      destruct (UploadRoute.store req _) as [message |].
      * destruct (JsString.includes message "Invalid or corrupted ZIP"); discriminate.
      * intros H. injection H as <- <-. split; [lia |].
        apply (sum_sizes_bound _ 0%N). intros f Hf.
        unfold UploadRoute.collectFiles in Hf. apply in_flat_map in Hf.
        destruct Hf as [entry [_ Hf]]. now apply collectEntry_In in Hf.
Qed.

Lemma X30_empty_archive_is_a_server_error_witness :
  UploadRoute.postZip
    {| UploadRoute.fileUploaded := true; UploadRoute.userId := Some "user-1";
       UploadRoute.demoMode := false;
       UploadRoute.archive :=
         inr [ {| UploadRoute.entryName := "assets/logo.png";
                  UploadRoute.isDirectory := false; UploadRoute.headerSize := 4;
                  UploadRoute.getData := Ok "PNG." |} ];
       UploadRoute.store := fun _ => None |}
  = UploadRoute.Rejected "Failed to process ZIP file" 500.
Proof.
  apply (proj1 (X30_empty_archive_is_a_server_error _)
           [ {| UploadRoute.entryName := "assets/logo.png";
                UploadRoute.isDirectory := false; UploadRoute.headerSize := 4;
                UploadRoute.getData := Ok "PNG." |} ] "user-1");
    first [reflexivity | discriminate].
Defined.

(** *** Language statistics *)

Lemma set_lookup_same {V} (o : list (string * V)) (k : string) (v : V) :
  JsObject.lookup k (JsRecord.set o k v) = Some v.
Proof.
  unfold JsRecord.set. destruct (JsObject.lookup k o) as [old |] eqn:E.
  - induction o as [| [k' v'] r IH]; [discriminate |].
    cbn [JsObject.lookup JsRecord.replaceValue] in *.
    destruct (String.eqb k k') eqn:Ek; cbn [JsObject.lookup]; rewrite Ek; [reflexivity | auto].
  - destruct (JsObject.arrayIndex k) as [i |].
    + induction o as [| [k' v'] r IH]; cbn [JsRecord.insertIndex JsObject.lookup].
      * now rewrite String.eqb_refl.
      * cbn [JsObject.lookup] in E. destruct (String.eqb k k') eqn:Ek; [discriminate |].
        destruct (JsObject.arrayIndex k') as [j |];
          [destruct (j <? i)%N |]; cbn [JsObject.lookup];
          rewrite ?String.eqb_refl, ?Ek; auto.
    + induction o as [| [k' v'] r IH]; cbn [List.app JsObject.lookup].
      * now rewrite String.eqb_refl.
      * cbn [JsObject.lookup] in E. destruct (String.eqb k k'); [discriminate | auto].
Qed.

(** What [o[k] = v] does to the entries: they are those of [o] with the
    entry of [k] replaced or added. *)
Lemma set_permutation {V} (o : list (string * V)) (k : string) (v : V) :
  NoDup (map fst o) ->
  match JsObject.lookup k o with
  | Some old => exists a b, o = List.app a ((k, old) :: b) /\
                            JsRecord.set o k v = List.app a ((k, v) :: b)
  | None => Permutation (JsRecord.set o k v) ((k, v) :: o)
  end.
Proof.
  intros Hnd. unfold JsRecord.set.
  destruct (JsObject.lookup k o) as [old |] eqn:E.
  - clear Hnd. induction o as [| [k' v'] r IH]; [discriminate |].
    cbn [JsObject.lookup JsRecord.replaceValue] in *.
    destruct (String.eqb k k') eqn:Ek.
    + apply String.eqb_eq in Ek. subst k'. injection E as ->.
      exists [], r. now split.
    + destruct (IH E) as (a & b & -> & Hset).
      exists ((k', v') :: a), b. cbn [List.app]. now rewrite Hset.
  - destruct (JsObject.arrayIndex k) as [i |].
    + clear E Hnd. induction o as [| [k' v'] r IH]; cbn [JsRecord.insertIndex];
        [apply Permutation_refl |].
      destruct (JsObject.arrayIndex k') as [j |];
        [destruct (j <? i)%N |]; try apply Permutation_refl.
      eapply Permutation_trans; [apply perm_skip, IH | apply perm_swap].
    + apply Permutation_sym, Permutation_cons_append.
Qed.

Lemma list_sum_permutation (a b : list nat) : Permutation a b -> list_sum a = list_sum b.
Proof. induction 1; unfold list_sum in *; cbn [fold_right] in *; lia. Qed.

Lemma list_sum_cons (x : nat) (l : list nat) : list_sum (x :: l) = x + list_sum l.
Proof. reflexivity. Qed.

Section Stats.
Variable measure : nat * nat -> nat.

Lemma set_sum (o : list (string * (nat * nat))) (k : string) (v : nat * nat) :
  NoDup (map fst o) ->
  list_sum (map (fun kv => measure (snd kv)) (JsRecord.set o k v)) +
  match JsObject.lookup k o with Some old => measure old | None => 0 end
  = list_sum (map (fun kv => measure (snd kv)) o) + measure v.
Proof.
  intros Hnd. pose proof (set_permutation o k v Hnd) as H.
  destruct (JsObject.lookup k o) as [old |].
  - destruct H as (a & b & -> & ->).
    rewrite !map_app, !list_sum_app. cbn [map snd]. rewrite !list_sum_cons. lia.
  - rewrite (list_sum_permutation _ _ (Permutation_map _ H)). cbn [map snd].
    rewrite list_sum_cons. lia.
Qed.
End Stats.

Lemma set_keys {V} (o : list (string * V)) (k : string) (v : V) :
  NoDup (map fst o) ->
  NoDup (map fst (JsRecord.set o k v)) /\
  forall kv, In kv (JsRecord.set o k v) -> kv = (k, v) \/ In kv o.
Proof.
  intros Hnd. pose proof (set_permutation o k v Hnd) as H.
  destruct (JsObject.lookup k o) as [old |] eqn:E.
  - destruct H as (a & b & Ho & Hset). rewrite Hset. subst o.
    rewrite map_app in *. cbn [map fst] in *. split; [exact Hnd |].
    intros kv Hin. apply in_app_or in Hin. destruct Hin as [Hin | [<- | Hin]]; auto.
    + right. apply in_or_app. now left.
    + right. apply in_or_app. right. now right.
  - split.
    + apply (Permutation_NoDup (l := map fst ((k, v) :: o))).
      * apply Permutation_sym, Permutation_map, H.
      * cbn [map fst]. constructor; [| exact Hnd]. now apply lookup_None_keys.
    + intros kv Hin. apply (Permutation_in _ H) in Hin. destruct Hin as [<- | Hin]; auto.
Qed.

(** One turn of the loop of [getLanguageStats]. *)
Lemma addStat_step (stats : list (string * (nat * nat))) (f : UploadRoute.FileInfo) :
  NoDup (map fst stats) ->
  (forall kv, In kv stats -> 1 <= fst (snd kv)) ->
  NoDup (map fst (UploadRoute.addStat stats f)) /\
  (forall kv, In kv (UploadRoute.addStat stats f) -> 1 <= fst (snd kv)) /\
  list_sum (map (fun kv => fst (snd kv)) (UploadRoute.addStat stats f)) =
    list_sum (map (fun kv => fst (snd kv)) stats) + (if Extra.isCounted f then 1 else 0) /\
  list_sum (map (fun kv => snd (snd kv)) (UploadRoute.addStat stats f)) =
    list_sum (map (fun kv => snd (snd kv)) stats) +
    (if Extra.isCounted f then UploadRoute.size f else 0).
Proof.
  intros Hnd Hpos. unfold UploadRoute.addStat, Extra.isCounted.
  destruct (includesStr JsObject.objectPrototypeMembers (UploadRoute.language f));
    cbn [negb]; [repeat split; auto; lia |].
  set (k := UploadRoute.language f).
  set (stats1 := match JsObject.lookup k stats with
                 | Some _ => stats
                 | None => JsRecord.set stats k (0, 0)
                 end).
  assert (H1 : NoDup (map fst stats1) /\
               (forall kv, In kv stats1 -> kv = (k, (0, 0)) \/ In kv stats) /\
               exists c t, JsObject.lookup k stats1 = Some (c, t) /\
                 list_sum (map (fun kv => fst (snd kv)) stats1) =
                   list_sum (map (fun kv => fst (snd kv)) stats) /\
                 list_sum (map (fun kv => snd (snd kv)) stats1) =
                   list_sum (map (fun kv => snd (snd kv)) stats)).
  { subst stats1. destruct (JsObject.lookup k stats) as [[c t] |] eqn:E.
    - split; [exact Hnd |]. split; [auto |]. exists c, t. now rewrite E.
    - destruct (set_keys stats k (0, 0) Hnd) as [Hnd1 Hin1].
      split; [exact Hnd1 |]. split; [exact Hin1 |]. exists 0, 0.
      split; [apply set_lookup_same |].
      pose proof (set_sum (fun v => fst v) stats k (0, 0) Hnd) as Hc.
      pose proof (set_sum (fun v => snd v) stats k (0, 0) Hnd) as Ht.
      rewrite E in Hc, Ht. cbn [fst snd] in Hc, Ht. lia. }
  destruct H1 as (Hnd1 & Hin1 & c & t & Hlook & Hc1 & Ht1).
  rewrite Hlook.
  destruct (set_keys stats1 k (c + 1, t + UploadRoute.size f) Hnd1) as [Hnd2 Hin2].
  pose proof (set_sum (fun v => fst v) stats1 k (c + 1, t + UploadRoute.size f) Hnd1) as Hc2.
  pose proof (set_sum (fun v => snd v) stats1 k (c + 1, t + UploadRoute.size f) Hnd1) as Ht2.
  rewrite Hlook in Hc2, Ht2. cbn [fst snd] in Hc2, Ht2.
  split; [exact Hnd2 |]. split; [| split; lia].
  intros kv Hin. destruct (Hin2 _ Hin) as [-> | Hold]; [cbn; lia |].
  destruct (Hin1 _ Hold) as [-> | Hold']; [| now apply Hpos].
  (* the entry just created has been replaced *)
  exfalso.
  pose proof (set_permutation stats1 k (c + 1, t + UploadRoute.size f) Hnd1) as Hp.
  rewrite Hlook in Hp. destruct Hp as (a & b & Ho & Hset).
  rewrite Hset in Hin, Hnd2.
  rewrite map_app in Hnd2. cbn [map fst] in Hnd2.
  apply NoDup_remove_2 in Hnd2.
  apply in_app_or in Hin. apply Hnd2. apply in_or_app.
  destruct Hin as [Hin | [Hin | Hin]].
  - left. now apply (in_map fst) in Hin.
  - injection Hin as Hin. lia.
  - right. now apply (in_map fst) in Hin.
Qed.

(** The invariant of the loop of [getLanguageStats]. *)
Lemma addStat_invariant (files : list UploadRoute.FileInfo)
    (stats : list (string * (nat * nat))) :
  NoDup (map fst stats) ->
  (forall kv, In kv stats -> 1 <= fst (snd kv)) ->
  let stats' := fold_left UploadRoute.addStat files stats in
  NoDup (map fst stats') /\
  (forall kv, In kv stats' -> 1 <= fst (snd kv)) /\
  list_sum (map (fun kv => fst (snd kv)) stats') =
    list_sum (map (fun kv => fst (snd kv)) stats) + Spec.howMany Extra.isCounted files /\
  list_sum (map (fun kv => snd (snd kv)) stats') =
    list_sum (map (fun kv => snd (snd kv)) stats) +
    list_sum (map UploadRoute.size (filter Extra.isCounted files)).
Proof.
  revert stats. induction files as [| f r IH]; intros stats Hnd Hpos.
  - cbn. repeat split; auto; lia.
  - cbn [fold_left Spec.howMany filter].
    destruct (addStat_step stats f Hnd Hpos) as (Hnd1 & Hpos1 & Hc1 & Ht1).
    destruct (IH _ Hnd1 Hpos1) as (Hnd' & Hpos' & Hc' & Ht').
    cbn zeta. split; [exact Hnd' |]. split; [exact Hpos' |].
    rewrite Hc', Ht', Hc1, Ht1.
    destruct (Extra.isCounted f); cbn [map]; rewrite ?list_sum_cons; lia.
Qed.

(** X9. [getLanguageStats] lists each language once, with the number of
    files of that language (at least one) and the sum of their sizes: the
    counts add up to the number of files and the sizes to their total size,
    files whose language is named like a member of Object.prototype apart:
    for these no entry is made, so they are missing from the statistics. *)
Theorem X9_language_stats (files : list UploadRoute.FileInfo) :
  let stats := UploadRoute.getLanguageStats files in
  NoDup (map UploadRoute.stat_language stats) /\
  (forall st, In st stats -> 1 <= UploadRoute.stat_count st) /\
  list_sum (map UploadRoute.stat_count stats) = Spec.howMany Extra.isCounted files /\
  list_sum (map UploadRoute.stat_totalSize stats) =
    list_sum (map UploadRoute.size (filter Extra.isCounted files)) /\
  ((forall f, In f files -> Extra.isCounted f = true) ->
   list_sum (map UploadRoute.stat_count stats) = length files).
Proof.
  cbn zeta. unfold UploadRoute.getLanguageStats.
  destruct (addStat_invariant files [] (NoDup_nil _)) as (Hnd & Hpos & Hc & Ht);
    [intros kv [] |].
  rewrite !map_map. cbn [UploadRoute.stat_language UploadRoute.stat_count
                         UploadRoute.stat_totalSize].
  change (list_sum (map _ [])) with 0 in Hc, Ht.
  assert (Hcount : list_sum (map (fun x => fst (snd x)) (fold_left UploadRoute.addStat files []))
                   = Spec.howMany Extra.isCounted files) by (rewrite Hc; lia).
  repeat split.
  - exact Hnd.
  - intros st Hin. apply in_map_iff in Hin. destruct Hin as [kv [<- Hin]]. cbn.
    now apply Hpos.
  - exact Hcount.
  - rewrite Ht. lia.
  - intros Hall. rewrite Hcount. clear -Hall.
    induction files as [| f r IH]; [reflexivity |].
    cbn [Spec.howMany length]. rewrite (Hall f (or_introl eq_refl)), IH; [reflexivity |].
    intros g Hg. apply Hall. now right.
Qed.

Lemma X9_language_stats_witness :
  list_sum (map UploadRoute.stat_count
              (UploadRoute.getLanguageStats
                 [ {| UploadRoute.language := "typescript"; UploadRoute.size := 10 |};
                   {| UploadRoute.language := "python"; UploadRoute.size := 1 |};
                   {| UploadRoute.language := "typescript"; UploadRoute.size := 5 |} ]))
  = 3.
Proof.
  apply (proj2 (proj2 (proj2 (proj2 (X9_language_stats
           [ {| UploadRoute.language := "typescript"; UploadRoute.size := 10 |};
             {| UploadRoute.language := "python"; UploadRoute.size := 1 |};
             {| UploadRoute.language := "typescript"; UploadRoute.size := 5 |} ]))))).
  intros f [<- | [<- | [<- | []]]]; reflexivity.
Defined.
